(** * nimiq-validator-activator: a shallow embedding of [main.py]

    The script drives a Nimiq validator from "unregistered" to "active" over
    the node's JSON-RPC interface and republishes a few Prometheus gauges.
    This file embeds the functions of [main.py] as state-passing Rocq
    functions and proves the properties the specification states about them.

    Conventions.
    - A Python value that comes out of [response.json()] is a [pyval].
    - Python floats are IEEE-754 binary64 numbers: [spec_float] with
      [prec = 53] and [emax = 1024].
    - Every effect (HTTP POST, [time.sleep], [logging], gauge writes) is a
      change of an explicit [State]; the outside world (the node, the faucet,
      the key files, the environment variables) is an [Env].
    - An exception is the outcome [Raise e]; a [while] loop that is still
      running when its iteration budget is used up is the outcome [Pending],
      and so is a call that waits for a POST that never returns. *)

From Stdlib Require Import ZArith List String Ascii Bool Lia.
From Stdlib Require Import SpecFloat.
Import ListNotations.
Open Scope string_scope.
Open Scope list_scope.
Open Scope Z_scope.
Set Warnings "-register-all".

(** ** Python values *)

Inductive pyval : Type :=
| PNone
| PBool (b : bool)
| PInt (z : Z)
| PFloat (f : spec_float)
| PStr (s : string)
| PList (l : list pyval)
| PDict (d : list (string * pyval)).

(** The exceptions the script can meet. *)
Inductive exn : Type :=
| ValueError
| AttributeError
| KeyError
| TypeError
| IndexError
| UnboundLocalError
| OverflowError
| ZeroDivisionError
| FileNotFoundError
| RequestException.

Inductive outcome (A : Type) : Type :=
| Ret (a : A)
| Raise (e : exn)
| Pending.
Arguments Ret {A} a.
Arguments Raise {A} e.
Arguments Pending {A}.

(** ** binary64 arithmetic, as CPython does it *)

Module Float64.

Definition prec : Z := 53.
Definition emax : Z := 1024.

(** [float(n)] for an [int]: round to nearest even; an integer too large for
    a double raises [OverflowError], which is [None] here. *)
Definition of_int (z : Z) : option spec_float :=
  match binary_normalize prec emax z 0 false with
  | S754_infinity _ => None
  | f => Some f
  end.

Definition of_bool (b : bool) : spec_float :=
  if b then binary_normalize prec emax 1 0 false else S754_zero false.

Definition div : spec_float -> spec_float -> spec_float := SFdiv prec emax.

(** [x >= y] on floats; false as soon as one side is a NaN. *)
Definition geb (x y : spec_float) : bool :=
  match SFcompare x y with
  | Some Gt | Some Eq => true
  | _ => false
  end.

Definition is_zero (x : spec_float) : bool :=
  match x with S754_zero _ => true | _ => false end.

(** The literal [1e5] and the integer [100000] seen as a double. *)
Definition f1e5 : spec_float := Eval vm_compute in binary_normalize prec emax 100000 0 false.
Definition f100000 : spec_float := f1e5.
Definition f100 : spec_float := Eval vm_compute in binary_normalize prec emax 100 0 false.
Definition f1 : spec_float := Eval vm_compute in binary_normalize prec emax 1 0 false.

End Float64.

(** ** Python operations on values *)

Module Py.

Definition dict := list (string * pyval).

Fixpoint lookup (k : string) (d : dict) : option pyval :=
  match d with
  | [] => None
  | (k', v) :: d' => if String.eqb k k' then Some v else lookup k d'
  end.

(** [sub in s] for two strings. *)
Fixpoint contains (sub s : string) : bool :=
  if prefix sub s then true
  else match s with
       | EmptyString => false
       | String _ s' => contains sub s'
       end.

(** Truth value of an object ([bool(v)]). *)
Definition truthy (v : pyval) : bool :=
  match v with
  | PNone => false
  | PBool b => b
  | PInt z => negb (z =? 0)
  | PFloat f => negb (Float64.is_zero f)
  | PStr s => negb (String.eqb s "")
  | PList l => match l with [] => false | _ => true end
  | PDict d => match d with [] => false | _ => true end
  end.

(** [x or y]. *)
Definition or_else (x y : pyval) : pyval := if truthy x then x else y.

(** [v == n] for an integer [n]. [True == 1], [1.0 == 1]; a string, a list,
    a dict or [None] never equals a number. *)
Definition eq_int (v : pyval) (n : Z) : bool :=
  match v with
  | PBool b => (if b then 1 else 0) =? n
  | PInt z => z =? n
  | PFloat f =>
      match Float64.of_int n with
      | Some g => SFeqb f g
      | None => false
      end
  | _ => false
  end.

(** [v == True]: [True] is the integer 1 for [==]. *)
Definition eq_True (v : pyval) : bool := eq_int v 1.

(** [v.get(k, default)]; only a dict has [.get]. *)
Definition get (v : pyval) (k : string) (default : pyval) : outcome pyval :=
  match v with
  | PDict d => match lookup k d with Some x => Ret x | None => Ret default end
  | _ => Raise AttributeError
  end.

(** [v[k]] for a string key. *)
Definition subscript (v : pyval) (k : string) : outcome pyval :=
  match v with
  | PDict d => match lookup k d with Some x => Ret x | None => Raise KeyError end
  | _ => Raise TypeError
  end.

(** [k in v] for a string [k]. *)
Definition has (k : string) (v : pyval) : outcome bool :=
  match v with
  | PDict d => Ret (match lookup k d with Some _ => true | None => false end)
  | PStr s => Ret (contains k s)
  | PList l =>
      Ret (existsb (fun x => match x with PStr s => String.eqb s k | _ => false end) l)
  | _ => Raise TypeError
  end.

(** [v / d] for a float [d]. *)
Definition truediv (v : pyval) (d : spec_float) : outcome spec_float :=
  let go (x : spec_float) :=
    if Float64.is_zero d then Raise ZeroDivisionError else Ret (Float64.div x d) in
  match v with
  | PBool b => go (Float64.of_bool b)
  | PInt z =>
      match Float64.of_int z with
      | Some x => go x
      | None => Raise OverflowError
      end
  | PFloat x => go x
  | _ => Raise TypeError
  end.

(** Whitespace as [str.strip()] sees it, for code points below 256. *)
Definition is_space (c : ascii) : bool :=
  let n := N_of_ascii c in
  (((9 <=? n) && (n <=? 13)) || ((28 <=? n) && (n <=? 32)) || (n =? 133) || (n =? 160))%N.

Fixpoint lstrip (s : string) : string :=
  match s with
  | EmptyString => EmptyString
  | String c s' => if is_space c then lstrip s' else s
  end.

Fixpoint rev_string (s acc : string) : string :=
  match s with
  | EmptyString => acc
  | String c s' => rev_string s' (String c acc)
  end.

Definition strip (s : string) : string :=
  rev_string (lstrip (rev_string (lstrip s) "")) "".

(** [s.split(sep)] for a non-empty [sep]: [skip] characters of a separator
    just matched are still to be dropped, [cur] is the piece being built
    (reversed). *)
Fixpoint split_go (sep s : string) (skip : nat) (cur : string) : list string :=
  match s with
  | EmptyString => [rev_string cur ""]
  | String c s' =>
      match skip with
      | S k => split_go sep s' k cur
      | O =>
          if prefix sep s
          then rev_string cur "" :: split_go sep s' (String.length sep - 1) ""
          else split_go sep s' O (String c cur)
      end
  end.

Definition split (sep s : string) : list string := split_go sep s O "".

End Py.

(** ** The outside world and the state of the process *)

(** What one HTTP POST to the node comes to. The body of a response is what
    [response.json()] yields. On a body that is not JSON, [response.json()]
    raises [requests.exceptions.JSONDecodeError], which is a
    [RequestException]. [requests.post] is called without a timeout: a node
    that never answers keeps the call waiting for ever. *)
Inductive attempt : Type :=
| ConnectionFailed                         (* [requests.post] raised *)
| Response (status : Z) (body : pyval)
| NotJson (status : Z)                     (* a response whose body is not JSON *)
| NoReply.                                 (* [requests.post] never returns *)

(** [response.raise_for_status()] raises for 4xx and 5xx. *)
Definition status_is_error (status : Z) : bool :=
  (400 <=? status) && (status <? 600).

(** The attempt ends in a [RequestException] inside the [try] block: the
    POST raised, [raise_for_status] raised, or the body is not JSON. *)
Definition attempt_fails (a : attempt) : bool :=
  match a with
  | ConnectionFailed => true
  | Response status _ => status_is_error status
  | NotJson _ => true
  | NoReply => false
  end.

Record Env : Type := mkEnv {
  (** reply of the node to the [i]-th POST of the process (counted from 0),
      given the method and the params that were sent *)
  node : nat -> string -> pyval -> attempt;
  (** whether the [i]-th POST to the faucet returns ([true]) or raises *)
  faucet : nat -> bool;
  (** [open(path).readlines()]; [None] when the file cannot be opened *)
  files : string -> option (list string);
  (** environment variable read at import time *)
  NIMIQ_NETWORK : string;
  (** [float(s)] for a string, as CPython parses it; taken as given *)
  float_of_str : string -> option spec_float
}.

Inductive level : Type := DEBUG | INFO | ERROR.

Record State : Type := mkState {
  sent : list (string * pyval);       (* POSTs to the node, newest first *)
  returned : list pyval;              (* ghost: what [nimiq_request] handed back, newest first *)
  faucet_sent : list string;          (* POSTs to the faucet, newest first *)
  logs : list (level * string);       (* logging calls, newest first *)
  sleeps : list Z;                    (* [time.sleep] calls in milliseconds, newest first *)
  ACTIVATED_AMOUNT : string -> Z;     (* labelled gauge: one child per address, counting [inc()] calls *)
  VALIDATOR_ACTIVE : spec_float;
  EPOCH_NUMBER : spec_float;
  CURRENT_BALANCE : spec_float;
  TOTAL_STAKE : spec_float;
  CURRENT_STAKERS : spec_float
}.

Definition initial_state : State :=
  mkState [] [] [] [] [] (fun _ => 0)
          (S754_zero false) (S754_zero false) (S754_zero false)
          (S754_zero false) (S754_zero false).

Definition with_sent (x : list (string * pyval)) (s : State) : State :=
  mkState x (returned s) (faucet_sent s) (logs s) (sleeps s) (ACTIVATED_AMOUNT s)
          (VALIDATOR_ACTIVE s) (EPOCH_NUMBER s) (CURRENT_BALANCE s) (TOTAL_STAKE s)
          (CURRENT_STAKERS s).
Definition with_returned (x : list pyval) (s : State) : State :=
  mkState (sent s) x (faucet_sent s) (logs s) (sleeps s) (ACTIVATED_AMOUNT s)
          (VALIDATOR_ACTIVE s) (EPOCH_NUMBER s) (CURRENT_BALANCE s) (TOTAL_STAKE s)
          (CURRENT_STAKERS s).
Definition with_faucet_sent (x : list string) (s : State) : State :=
  mkState (sent s) (returned s) x (logs s) (sleeps s) (ACTIVATED_AMOUNT s)
          (VALIDATOR_ACTIVE s) (EPOCH_NUMBER s) (CURRENT_BALANCE s) (TOTAL_STAKE s)
          (CURRENT_STAKERS s).
Definition with_logs (x : list (level * string)) (s : State) : State :=
  mkState (sent s) (returned s) (faucet_sent s) x (sleeps s) (ACTIVATED_AMOUNT s)
          (VALIDATOR_ACTIVE s) (EPOCH_NUMBER s) (CURRENT_BALANCE s) (TOTAL_STAKE s)
          (CURRENT_STAKERS s).
Definition with_sleeps (x : list Z) (s : State) : State :=
  mkState (sent s) (returned s) (faucet_sent s) (logs s) x (ACTIVATED_AMOUNT s)
          (VALIDATOR_ACTIVE s) (EPOCH_NUMBER s) (CURRENT_BALANCE s) (TOTAL_STAKE s)
          (CURRENT_STAKERS s).
Definition with_ACTIVATED_AMOUNT (x : string -> Z) (s : State) : State :=
  mkState (sent s) (returned s) (faucet_sent s) (logs s) (sleeps s) x
          (VALIDATOR_ACTIVE s) (EPOCH_NUMBER s) (CURRENT_BALANCE s) (TOTAL_STAKE s)
          (CURRENT_STAKERS s).
Definition with_VALIDATOR_ACTIVE (x : spec_float) (s : State) : State :=
  mkState (sent s) (returned s) (faucet_sent s) (logs s) (sleeps s) (ACTIVATED_AMOUNT s)
          x (EPOCH_NUMBER s) (CURRENT_BALANCE s) (TOTAL_STAKE s) (CURRENT_STAKERS s).
Definition with_EPOCH_NUMBER (x : spec_float) (s : State) : State :=
  mkState (sent s) (returned s) (faucet_sent s) (logs s) (sleeps s) (ACTIVATED_AMOUNT s)
          (VALIDATOR_ACTIVE s) x (CURRENT_BALANCE s) (TOTAL_STAKE s) (CURRENT_STAKERS s).
Definition with_CURRENT_BALANCE (x : spec_float) (s : State) : State :=
  mkState (sent s) (returned s) (faucet_sent s) (logs s) (sleeps s) (ACTIVATED_AMOUNT s)
          (VALIDATOR_ACTIVE s) (EPOCH_NUMBER s) x (TOTAL_STAKE s) (CURRENT_STAKERS s).
Definition with_TOTAL_STAKE (x : spec_float) (s : State) : State :=
  mkState (sent s) (returned s) (faucet_sent s) (logs s) (sleeps s) (ACTIVATED_AMOUNT s)
          (VALIDATOR_ACTIVE s) (EPOCH_NUMBER s) (CURRENT_BALANCE s) x (CURRENT_STAKERS s).
Definition with_CURRENT_STAKERS (x : spec_float) (s : State) : State :=
  mkState (sent s) (returned s) (faucet_sent s) (logs s) (sleeps s) (ACTIVATED_AMOUNT s)
          (VALIDATOR_ACTIVE s) (EPOCH_NUMBER s) (CURRENT_BALANCE s) (TOTAL_STAKE s) x.

(** ** A state monad with exceptions and unfinished loops *)

Definition M (A : Type) : Type := State -> outcome A * State.

Definition ret {A} (a : A) : M A := fun s => (Ret a, s).
Definition raise {A} (e : exn) : M A := fun s => (Raise e, s).
Definition pending {A} : M A := fun s => (Pending, s).

Definition bind {A B} (m : M A) (k : A -> M B) : M B :=
  fun s =>
    match m s with
    | (Ret a, s') => k a s'
    | (Raise e, s') => (Raise e, s')
    | (Pending, s') => (Pending, s')
    end.

(** A pure Python operation that may raise. *)
Definition lift {A} (o : outcome A) : M A := fun s => (o, s).

Declare Scope monad_scope.
Delimit Scope monad_scope with monad.
Notation "x <- m ;; k" := (bind m (fun x => k))
  (at level 61, m at next level, right associativity) : monad_scope.
Notation "m ;; k" := (bind m (fun _ => k))
  (at level 61, right associativity) : monad_scope.
Open Scope monad_scope.

(** [logging.info], [logging.error], [logging.debug]. The text kept is the
    message as written in the source, placeholders included. *)
Definition log (l : level) (msg : string) : M unit :=
  fun s => (Ret tt, with_logs ((l, msg) :: logs s) s).

(** [time.sleep(ms / 1000)]; a negative length raises [ValueError]. *)
Definition sleep_ms (ms : Z) : M unit :=
  fun s => if ms <? 0 then (Raise ValueError, s)
           else (Ret tt, with_sleeps (ms :: sleeps s) s).

(** [float(v)], which [Gauge.set] applies to its argument. *)
Definition py_float (env : Env) (v : pyval) : outcome spec_float :=
  match v with
  | PBool b => Ret (Float64.of_bool b)
  | PInt z =>
      match Float64.of_int z with
      | Some f => Ret f
      | None => Raise OverflowError
      end
  | PFloat f => Ret f
  | PStr s =>
      match float_of_str env s with
      | Some f => Ret f
      | None => Raise ValueError
      end
  | _ => Raise TypeError
  end.

(** [gauge.set(v)] for an unlabelled gauge with setter [upd]. *)
Definition gauge_set (env : Env) (upd : spec_float -> State -> State) (v : pyval) : M unit :=
  f <- lift (py_float env v) ;;
  fun s => (Ret tt, upd f s).

(** [ACTIVATED_AMOUNT.labels(address=a).inc()]. *)
Definition activated_inc (a : string) : M unit :=
  fun s =>
    (Ret tt,
     with_ACTIVATED_AMOUNT
       (fun a' => if String.eqb a' a then ACTIVATED_AMOUNT s a' + 1 else ACTIVATED_AMOUNT s a')
       s).

(** ** The functions of [main.py] *)

Section Program.

Variable env : Env.

(** One [requests.post(NIMIQ_NODE_URL, json=...)]. *)
Definition http_post (method : string) (params : pyval) : M attempt :=
  fun s =>
    (Ret (node env (List.length (sent s)) method params),
     with_sent ((method, params) :: sent s) s).

(** [return v] of [nimiq_request]; the value is also noted in [returned]. *)
Definition hand_back (v : pyval) : M pyval :=
  fun s => (Ret v, with_returned (v :: returned s) s).

(** The [while retries > 0] loop of [nimiq_request]; [retries] counts down
    by one per failed attempt, so it is the recursion argument. *)
Fixpoint nimiq_request_loop (method : string) (params : pyval) (delay : Z)
         (retries : nat) : M pyval :=
  match retries with
  | O =>
      log ERROR "Request failed after multiple retries." ;;
      hand_back PNone
  | S retries_left =>
      let on_request_exception :=
        log ERROR "Error: {err}. Retrying in {delay} seconds. Retries left: {retries}" ;;
        sleep_ms (1000 * delay) ;;
        nimiq_request_loop method params delay retries_left in
      a <- http_post method (Py.or_else params (PList [])) ;;
      match a with
      | ConnectionFailed => on_request_exception
      | NotJson _ => on_request_exception
      | NoReply => pending
      | Response status body =>
          if status_is_error status then on_request_exception
          else
            result <- lift (Py.get body "result" (PDict [])) ;;
            sleep_ms 500 ;;
            match result with
            | PNone => raise ValueError
            | _ => hand_back result
            end
      end
  end.

Definition nimiq_request (method : string) (params : pyval) (retries delay : Z) : M pyval :=
  nimiq_request_loop method params delay (Z.to_nat retries).

(** [nimiq_request(method, params)] with the default [retries=3, delay=5],
    which is how every caller uses it. *)
Definition rpc (method : string) (params : pyval) : M pyval :=
  nimiq_request method params 3 5.

(** [open(path).readlines()] on a file that is read as text, and on a
    missing file. The other ways in which [open] and the decoding of the
    file can fail are not modelled: what is proved about the key readers takes
    the lines read as given, or any exception of the read as it comes. *)
Definition readlines (path : string) : M (list string) :=
  match files env path with
  | Some lines => ret lines
  | None => raise FileNotFoundError
  end.

Fixpoint get_private_key_lines (lines : list string) : outcome pyval :=
  match lines with
  | [] => Ret PNone
  | line :: rest =>
      if Py.contains "Private Key:" line
      then match nth_error (Py.split "Private Key:" line) 1 with
           | Some piece => Ret (PStr (Py.strip piece))
           | None => Raise IndexError
           end
      else get_private_key_lines rest
  end.

Definition get_private_key (file_path : string) : M pyval :=
  lines <- readlines file_path ;;
  lift (get_private_key_lines lines).

Fixpoint get_wallet_address_lines (lines : list string) : outcome pyval :=
  match lines with
  | [] => Ret PNone
  | line :: rest =>
      if Py.contains "Address:" line
      then match nth_error (Py.split "Address:" line) 1 with
           | Some piece => Ret (PStr (Py.strip piece))
           | None => Raise IndexError
           end
      else get_wallet_address_lines rest
  end.

Definition get_wallet_address (file_path : string) : M pyval :=
  lines <- readlines file_path ;;
  lift (get_wallet_address_lines lines).

(** The [for i in range(len(lines))] loop of [get_vote_key]: [i] is the
    index, [todo] the number of indices left, [secret_key] the variable
    ([None] while it is unbound). *)
Fixpoint get_vote_key_loop (lines : list string) (i todo : nat)
         (secret_key : option string) : outcome string :=
  match todo with
  | O =>
      match secret_key with
      | Some k => Ret k
      | None => Raise UnboundLocalError
      end
  | S todo' =>
      match nth_error lines i with
      | None => Raise IndexError
      | Some line =>
          if Py.contains "Secret Key:" line
          then match nth_error lines (i + 2) with
               | Some below => get_vote_key_loop lines (S i) todo' (Some (Py.strip below))
               | None => Raise IndexError
               end
          else get_vote_key_loop lines (S i) todo' secret_key
      end
  end.

Definition get_vote_key_lines (lines : list string) : outcome string :=
  get_vote_key_loop lines 0 (List.length lines) None.

Definition get_vote_key (file_path : string) : M string :=
  lines <- readlines file_path ;;
  lift (get_vote_key_lines lines).

Definition needs_funds (address : string) : M bool :=
  res <- rpc "getAccountByAddress" (PList [PStr address]) ;;
  match res with
  | PNone => ret false
  | _ =>
      data <- lift (Py.get res "data" (PDict [])) ;;
      match data with
      | PNone => ret true
      | _ =>
          balance <- lift (Py.get data "balance" (PInt 0)) ;;
          if Py.eq_int balance 0 then ret true else ret false
      end
  end.

Definition get_address : M pyval :=
  res <- rpc "getAddress" PNone ;;
  match res with
  | PNone => ret PNone
  | _ => lift (Py.subscript res "data")
  end.

(** Every path of [send_raw_tx] returns [None]. *)
Definition send_raw_tx (tx_hash : pyval) : M unit :=
  res <- rpc "sendRawTransaction" (PList [tx_hash]) ;;
  log INFO "Transaction: {res}" ;;
  match res with
  | PNone => ret tt
  | _ =>
      has_error <- lift (Py.has "error" res) ;;
      if has_error
      then
        err <- lift (Py.subscript res "error") ;;
        _ <- lift (Py.subscript err "message") ;;
        log ERROR "Error pushing transaction: {res['error']['message']}" ;;
        ret tt
      else
        log INFO "Transaction send: {res}"
  end.

Definition get_epoch_number : M unit :=
  res <- rpc "getEpochNumber" PNone ;;
  match res with
  | PNone => ret tt
  | _ =>
      data <- lift (Py.subscript res "data") ;;
      gauge_set env with_EPOCH_NUMBER data
  end.

Definition is_validator_active (address : string) : M bool :=
  result <- rpc "getValidatorByAddress" (PList [PStr address]) ;;
  if Py.truthy result
  then
    has_data <- lift (Py.has "data" result) ;;
    if has_data
    then
      data <- lift (Py.subscript result "data") ;;
      retired <- lift (Py.subscript data "retired") ;;
      gauge_set env with_VALIDATOR_ACTIVE
                (if negb (Py.truthy retired) then PInt 1 else PInt 0) ;;
      data <- lift (Py.subscript result "data") ;;
      retired <- lift (Py.subscript data "retired") ;;
      ret (negb (Py.truthy retired))
    else ret false
  else ret false.

Definition get_balance (address : string) : M pyval :=
  res <- rpc "getAccountByAddress" (PList [PStr address]) ;;
  match res with
  | PNone => ret PNone
  | _ =>
      has_error <- lift (Py.has "error" res) ;;
      if has_error
      then
        err <- lift (Py.subscript res "error") ;;
        _ <- lift (Py.subscript err "message") ;;
        log ERROR "Error getting balance: {res['error']['message']}" ;;
        ret PNone
      else
        data <- lift (Py.subscript res "data") ;;
        lift (Py.subscript data "balance")
  end.

Definition set_balance_prometheus (address : string) : M pyval :=
  balance <- get_balance address ;;
  match balance with
  | PNone =>
      log ERROR "Error getting balance." ;;
      ret PNone
  | _ =>
      nim <- lift (Py.truediv balance Float64.f1e5) ;;
      gauge_set env with_CURRENT_BALANCE (PFloat nim) ;;
      ret (PFloat nim)
  end.

(** In the [else] branch the three locals were never assigned: the
    [return] raises [UnboundLocalError]. *)
Definition get_stake_by_address (address : string) : M (pyval * pyval * pyval) :=
  res <- rpc "getValidatorByAddress" (PList [PStr address]) ;;
  has_data <- match res with
              | PNone => ret false
              | _ => lift (Py.has "data" res)
              end ;;
  if has_data
  then
    data <- lift (Py.subscript res "data") ;;
    raw <- lift (Py.get data "balance" (PInt 0)) ;;
    balance <- lift (Py.truediv raw Float64.f1e5) ;;
    data <- lift (Py.subscript res "data") ;;
    num_stakers <- lift (Py.get data "numStakers" (PInt 0)) ;;
    data <- lift (Py.subscript res "data") ;;
    retired <- lift (Py.get data "retired" (PBool false)) ;;
    gauge_set env with_TOTAL_STAKE (PFloat balance) ;;
    gauge_set env with_CURRENT_STAKERS num_stakers ;;
    ret (PFloat balance, num_stakers, retired)
  else
    log ERROR "Error getting stake information." ;;
    raise UnboundLocalError.

(** One pass through the body of the [while True] loop of
    [wait_for_enough_stake]: [true] is the [break]. *)
Definition wait_for_enough_stake_body (ADDRESS : string) : M bool :=
  balance <- get_balance ADDRESS ;;
  match balance with
  | PNone =>
      log ERROR "Error getting balance." ;;
      sleep_ms 60000 ;;
      ret false
  | _ =>
      nim <- lift (Py.truediv balance Float64.f1e5) ;;
      gauge_set env with_CURRENT_BALANCE (PFloat nim) ;;
      if Float64.geb nim Float64.f100000
      then
        log INFO "Balance reached: {balance} NIM." ;;
        ret true
      else
        log INFO "Current balance: {balance} NIM. Waiting for balance to reach 100k NIM." ;;
        sleep_ms 60000 ;;
        ret false
  end.

Fixpoint wait_for_enough_stake (fuel : nat) (ADDRESS : string) : M unit :=
  match fuel with
  | O => pending
  | S fuel' =>
      done <- wait_for_enough_stake_body ADDRESS ;;
      if done then ret tt else wait_for_enough_stake fuel' ADDRESS
  end.

Fixpoint monitor_active_validator (fuel : nat) (address : string) : M unit :=
  match fuel with
  | O => pending
  | S fuel' =>
      active <- is_validator_active address ;;
      if negb active
      then
        log INFO "Validator not active anymore."
      else
        log INFO "Validator still active, updating metrics." ;;
        get_epoch_number ;;
        get_stake_by_address address ;;
        set_balance_prometheus address ;;
        sleep_ms 30000 ;;
        monitor_active_validator fuel' address
  end.

(** [requests.post(FACUET_URL, data={'address': ADDRESS})], outside any
    [try]. *)
Definition faucet_post (address : string) : M unit :=
  fun s =>
    (if faucet env (List.length (faucet_sent s)) then Ret tt else Raise RequestException,
     with_faucet_sent (address :: faucet_sent s) s).

Definition activate_validator (fuel : nat) (ADDRESS : string) : M bool :=
  log INFO "Address: {ADDRESS}" ;;
  SIGKEY <- get_private_key "/keys/signing_key.txt" ;;
  VOTEKEY <- get_vote_key "/keys/vote_key.txt" ;;
  ADDRESS_PRIVATE <- get_private_key "/keys/address.txt" ;;
  (if String.eqb (NIMIQ_NETWORK env) "testnet"
   then
     log INFO "Funding Nimiq address." ;;
     broke <- needs_funds ADDRESS ;;
     if broke then faucet_post ADDRESS else log INFO "Address already funded."
   else ret tt) ;;
  log INFO "Importing private key." ;;
  rpc "importRawKey" (PList [ADDRESS_PRIVATE; PStr ""]) ;;
  log INFO "Unlock Account." ;;
  rpc "unlockAccount" (PList [PStr ADDRESS; PStr ""; PInt 0]) ;;
  log INFO "Wait for enough stake." ;;
  wait_for_enough_stake fuel ADDRESS ;;
  log INFO "Activate Validator" ;;
  result <- rpc "createNewValidatorTransaction"
                (PList [PStr ADDRESS; PStr ADDRESS; SIGKEY; PStr VOTEKEY; PStr ADDRESS;
                        PStr ""; PInt 500; PStr "+0"]) ;;
  log INFO "Sending Transaction" ;;
  tx <- lift (Py.get result "data" PNone) ;;
  send_raw_tx tx ;;
  activated_inc ADDRESS ;;
  ret true.

Definition check_and_activate_validator (fuel : nat) (address : string) : M unit :=
  active <- is_validator_active address ;;
  if active
  then
    log INFO "Validator already active." ;;
    monitor_active_validator fuel address
  else
    log INFO "Validator not active." ;;
    activate_validator fuel address ;;
    ret tt.

(** [res is not None and res.get('data') == True]. *)
Definition consensus_positive (res : pyval) : outcome bool :=
  match res with
  | PNone => Ret false
  | _ =>
      match Py.get res "data" PNone with
      | Ret data => Ret (Py.eq_True data)
      | Raise e => Raise e
      | Pending => Pending
      end
  end.

(** One pass through the body of the [while consensus_count < 3] loop; the
    result is the new value of [consensus_count]. *)
Definition check_consensus_body (consensus_count : Z) : M Z :=
  res <- rpc "isConsensusEstablished" PNone ;;
  positive <- lift (consensus_positive res) ;;
  consensus_count <-
    (if positive : bool
     then
       log DEBUG "Consensus established {consensus_count} time(s)." ;;
       ret (consensus_count + 1)
     else
       log DEBUG "Consensus not established yet." ;;
       ret 0) ;;
  sleep_ms 5000 ;;
  ret consensus_count.

Fixpoint check_consensus_loop (fuel : nat) (consensus_count : Z) : M bool :=
  if consensus_count <? 3
  then
    match fuel with
    | O => pending
    | S fuel' =>
        consensus_count <- check_consensus_body consensus_count ;;
        check_consensus_loop fuel' consensus_count
    end
  else
    log INFO "Consensus established." ;;
    ret true.

Definition check_consensus (fuel : nat) : M bool :=
  log INFO "Waiting for consensus to be established, this may take a while..." ;;
  check_consensus_loop fuel 0.

(** The [while True] loop at the bottom of the script: [cycles] bounds its
    own iterations, [fuel] those of each inner loop. *)
Fixpoint main_loop (cycles fuel : nat) (address : string) : M unit :=
  match cycles with
  | O => pending
  | S cycles' =>
      established <- check_consensus fuel ;;
      (if established : bool then check_and_activate_validator fuel address else ret tt) ;;
      sleep_ms 30000 ;;
      main_loop cycles' fuel address
  end.

End Program.

(** * Vocabulary of the statements

    States reached along the way, parts of functions, and the nodes and
    key files used as examples. *)

(** The computation [m] leaves the part [proj] of the state as it found it,
    however it ends. *)
Definition preserves {X A : Type} (proj : State -> X) (m : M A) : Prop :=
  forall s, proj (snd (m s)) = proj s.

(** The state after one failed attempt: the POST, the error line, the pause. *)
Definition after_failed_attempt (method : string) (params : pyval) (delay : Z) (s : State) : State :=
  with_sleeps (1000 * delay :: sleeps s)
    (with_logs ((ERROR, "Error: {err}. Retrying in {delay} seconds. Retries left: {retries}")
                  :: logs s)
       (with_sent ((method, Py.or_else params (PList [])) :: sent s) s)).

Fixpoint after_failed_attempts (n : nat) (method : string) (params : pyval) (delay : Z)
         (s : State) : State :=
  match n with
  | O => s
  | S n' => after_failed_attempts n' method params delay (after_failed_attempt method params delay s)
  end.

(** The state in which [nimiq_request] gives up. *)
Definition after_giving_up (s : State) : State :=
  with_returned (PNone :: returned s)
    (with_logs ((ERROR, "Request failed after multiple retries.") :: logs s) s).

(** A node that refuses every connection, no faucet, no key files. *)
Definition dead_env : Env :=
  mkEnv (fun _ _ _ => ConnectionFailed) (fun _ => false) (fun _ => None) "testnet" (fun _ => None).

(** The node answers every POST with status 200 and the same body. *)
Definition constant_env (body : pyval) : Env :=
  mkEnv (fun _ _ _ => Response 200 body) (fun _ => true) (fun _ => None) "testnet"
        (fun _ => None).

(** A JSON-RPC error response: it comes with status 200 and has no
    ["result"] member. *)
Definition method_not_found : pyval :=
  PDict [("jsonrpc", PStr "2.0");
         ("error", PDict [("code", PInt (-32601)); ("message", PStr "Method not found")]);
         ("id", PInt 1)].

(** Line [j] of the file exists and contains the label. *)
Definition label_at (lines : list string) (j : nat) : bool :=
  match nth_error lines j with
  | Some line => Py.contains "Secret Key:" line
  | None => false
  end.

(** A vote key file in the layout of the key generator, and one cut short. *)
Definition vote_key_file : list string :=
  ["# Vote Key:"; ""; "Public Key:"; ""; "b0a1"; ""; "Secret Key:"; ""; "  c2d3e4 "].

Definition vote_key_file_short : list string :=
  ["Public Key:"; ""; "b0a1"; ""; "Secret Key:"; ""].

Definition key_env (vote_key : list string) : Env :=
  mkEnv (fun _ _ _ => ConnectionFailed) (fun _ => true)
        (fun path => if String.eqb path "/keys/vote_key.txt" then Some vote_key else None)
        "testnet" (fun _ => None).

(** The part of [is_validator_active] that follows the RPC call. *)
Definition is_validator_active_after (env : Env) (result : pyval) : M bool :=
  if Py.truthy result
  then
    has_data <- lift (Py.has "data" result) ;;
    if has_data
    then
      data <- lift (Py.subscript result "data") ;;
      retired <- lift (Py.subscript data "retired") ;;
      gauge_set env with_VALIDATOR_ACTIVE
                (if negb (Py.truthy retired) then PInt 1 else PInt 0) ;;
      data <- lift (Py.subscript result "data") ;;
      retired <- lift (Py.subscript data "retired") ;;
      ret (negb (Py.truthy retired))
    else ret false
  else ret false.

(** A node that answers every POST with the same result object. *)
Definition result_env (result : pyval) : Env :=
  constant_env (PDict [("jsonrpc", PStr "2.0"); ("result", result); ("id", PInt 1)]).

Definition active_validator : pyval :=
  PDict [("data", PDict [("address", PStr "NQ07 0000"); ("balance", PInt 10000000000);
                         ("numStakers", PInt 2); ("retired", PBool false)]);
         ("metadata", PNone)].

(** The part of [needs_funds] that follows the RPC call. *)
Definition needs_funds_after (res : pyval) : M bool :=
  match res with
  | PNone => ret false
  | _ =>
      data <- lift (Py.get res "data" (PDict [])) ;;
      match data with
      | PNone => ret true
      | _ =>
          balance <- lift (Py.get data "balance" (PInt 0)) ;;
          if Py.eq_int balance 0 then ret true else ret false
      end
  end.

(** When [needs_funds] says [True]: the result is an object whose ["data"]
    is [null], or is absent (then [{}] is read), or is an object whose
    balance, read with the default 0, equals 0. *)
Definition reads_as_unfunded (res : pyval) : Prop :=
  exists d, res = PDict d /\
    (Py.lookup "data" d = Some PNone \/
     Py.lookup "data" d = None \/
     exists v balance,
       Py.lookup "data" d = Some (PDict v) /\
       Py.get (PDict v) "balance" (PInt 0) = Ret balance /\
       Py.eq_int balance 0 = true).

(** [activate_validator] in three parts: the keys, the funding step, and
    everything from the key import to the final [return True]. *)
Definition funding_step (env : Env) (ADDRESS : string) : M unit :=
  if String.eqb (NIMIQ_NETWORK env) "testnet"
  then
    log INFO "Funding Nimiq address." ;;
    broke <- needs_funds env ADDRESS ;;
    if broke then faucet_post env ADDRESS else log INFO "Address already funded."
  else ret tt.

Definition submit_step (env : Env) (fuel : nat) (ADDRESS : string)
           (SIGKEY : pyval) (VOTEKEY : string) (ADDRESS_PRIVATE : pyval) : M bool :=
  log INFO "Importing private key." ;;
  rpc env "importRawKey" (PList [ADDRESS_PRIVATE; PStr ""]) ;;
  log INFO "Unlock Account." ;;
  rpc env "unlockAccount" (PList [PStr ADDRESS; PStr ""; PInt 0]) ;;
  log INFO "Wait for enough stake." ;;
  wait_for_enough_stake env fuel ADDRESS ;;
  log INFO "Activate Validator" ;;
  result <- rpc env "createNewValidatorTransaction"
                (PList [PStr ADDRESS; PStr ADDRESS; SIGKEY; PStr VOTEKEY; PStr ADDRESS;
                        PStr ""; PInt 500; PStr "+0"]) ;;
  log INFO "Sending Transaction" ;;
  tx <- lift (Py.get result "data" PNone) ;;
  send_raw_tx env tx ;;
  activated_inc ADDRESS ;;
  ret true.

(** The gauge after one [inc()] on the child labelled [a]. *)
Definition bump (a : string) (g : string -> Z) : string -> Z :=
  fun a' => if String.eqb a' a then g a' + 1 else g a'.

(** A computation that increments the child [a] once if it returns [True]
    and leaves the gauge alone otherwise. *)
Definition counts_once (a : string) (c : M bool) : Prop :=
  forall s,
    (fst (c s) = Ret true /\ ACTIVATED_AMOUNT (snd (c s)) = bump a (ACTIVATED_AMOUNT s)) \/
    (fst (c s) <> Ret true /\ ACTIVATED_AMOUNT (snd (c s)) = ACTIVATED_AMOUNT s).

(** The gauge never goes down. *)
Definition grows {A} (m : M A) : Prop :=
  forall s a, ACTIVATED_AMOUNT s a <= ACTIVATED_AMOUNT (snd (m s)) a.

(** Key files as the key generator writes them. *)
Definition key_files (path : string) : option (list string) :=
  if String.eqb path "/keys/vote_key.txt" then Some vote_key_file
  else if String.eqb path "/keys/signing_key.txt"
       then Some ["Public Key: 77aa"; "Private Key: 11bb"]
  else if String.eqb path "/keys/address.txt"
       then Some ["Address: NQ07 0000"; "Public Key: 88cc"; "Private Key: 22dd"]
  else None.

Definition rpc_ok (result : pyval) : attempt :=
  Response 200 (PDict [("jsonrpc", PStr "2.0"); ("result", result); ("id", PInt 1)]).

(** A funded, unlocked account on a node that builds the transaction; what
    happens to [sendRawTransaction] is the parameter [send]. *)
Definition submit_env (send : attempt) : Env :=
  mkEnv (fun _ method _ =>
           if String.eqb method "sendRawTransaction" then send
           else if String.eqb method "getAccountByAddress"
                then rpc_ok (PDict [("data", PDict [("balance", PInt 10000000000)])])
           else if String.eqb method "createNewValidatorTransaction"
                then rpc_ok (PDict [("data", PStr "0a1b2c")])
           else rpc_ok (PDict [("data", PNone)]))
        (fun _ => true) key_files "testnet" (fun _ => None).

Definition rejected_send : attempt :=
  rpc_ok (PDict [("error", PDict [("message", PStr "transaction rejected")])]).

(** Consensus is established and the validator is active; while it is being
    monitored the node refuses three connections in a row. *)
Definition outage_env : Env :=
  mkEnv (fun i _ _ =>
           nth i [rpc_ok (PDict [("data", PBool true)]);
                  rpc_ok (PDict [("data", PBool true)]);
                  rpc_ok (PDict [("data", PBool true)]);
                  rpc_ok active_validator;
                  rpc_ok active_validator;
                  rpc_ok (PDict [("data", PInt 42)])]
               ConnectionFailed)
        (fun _ => true) key_files "testnet" (fun _ => None).

(** The validator is retired and the account funded; the node answers
    [createNewValidatorTransaction] with three server errors. *)
Definition no_transaction_env : Env :=
  mkEnv (fun _ method _ =>
           if String.eqb method "createNewValidatorTransaction" then Response 503 PNone
           else if String.eqb method "getValidatorByAddress"
                then rpc_ok (PDict [("data", PDict [("retired", PBool true)])])
           else if String.eqb method "getAccountByAddress"
                then rpc_ok (PDict [("data", PDict [("balance", PInt 10000000000)])])
           else rpc_ok (PDict [("data", PNone)]))
        (fun _ => true) key_files "testnet" (fun _ => None).

(** An observation counts as positive when the test of the loop is [True];
    an observation on which the test raises is not positive. *)
Definition is_positive (res : pyval) : bool :=
  match consensus_positive res with
  | Ret true => true
  | _ => false
  end.

(** Number of positive observations at the recent end of a history (newest
    first) before the first one that is not positive. *)
Fixpoint run_length (history : list pyval) : Z :=
  match history with
  | [] => 0
  | res :: older => if is_positive res then 1 + run_length older else 0
  end.

(** The three most recent observations exist and are all positive. *)
Definition last_three_positive (history : list pyval) : bool :=
  match history with
  | a :: b :: c :: _ => is_positive a && is_positive b && is_positive c
  | _ => false
  end.

(** The node of the specification's example: true, true, false, then true
    for ever. *)
Definition flaky_env : Env :=
  mkEnv (fun i _ _ => rpc_ok (PDict [("data", PBool (negb (Nat.eqb i 2)))]))
        (fun _ => true) key_files "testnet" (fun _ => None).

(** The mantissa of [1e5]: [100000 * 2^36]. *)
Definition c1e5 : positive := 6871947673600000.

(** An account that holds exactly 100,000 NIM. *)
Definition funded_env : Env :=
  result_env (PDict [("data", PDict [("address", PStr "NQ07 0000");
                                     ("balance", PInt 10000000000)]);
                     ("metadata", PNone)]).

(** An account whose balance is the integer [z]. *)
Definition balance_env (z : Z) : Env :=
  result_env (PDict [("data", PDict [("address", PStr "NQ07 0000"); ("balance", PInt z)]);
                     ("metadata", PNone)]).

(** Two refused connections, then a node that answers. *)
Definition outage_recovers_env : Env :=
  mkEnv (fun i _ _ => if Nat.ltb i 2 then ConnectionFailed
                      else rpc_ok (PDict [("data", PInt 42)]))
        (fun _ => true) key_files "testnet" (fun _ => None).

(** The character [c] occurs in [s]. *)
Fixpoint occurs (c : ascii) (s : string) : bool :=
  match s with
  | EmptyString => false
  | String x s' => if Ascii.eqb x c then true else occurs c s'
  end.

(** No line of the file contains the label. *)
Definition label_free (label : string) (lines : list string) : Prop :=
  Forall (fun line => Py.contains label line = false) lines.

(** A string that neither begins nor ends with whitespace. *)
Definition starts_with_space (s : string) : bool :=
  match s with
  | String c _ => Py.is_space c
  | EmptyString => false
  end.

Definition stripped (s : string) : Prop :=
  starts_with_space s = false /\ starts_with_space (Py.rev_string s "") = false.

(** What a key reader can make of the lines of its file. *)
Definition key_outcome (o : outcome pyval) : Prop :=
  match o with
  | Ret PNone => True
  | Ret (PStr k) => stripped k
  | _ => False
  end.

Definition vote_key_outcome (o : outcome string) : Prop :=
  match o with
  | Ret k => stripped k
  | Raise IndexError | Raise UnboundLocalError => True
  | _ => False
  end.

(** Where an outcome of [nimiq_request] comes from: [None] apart, a value
    handed back is the ["result"] member of the body of a response whose
    status is not an error ([{}] when the member is missing); an exception
    is [ValueError] for a [null] result or [AttributeError] for a body that
    is not an object, again under a status that is not an error; and the call
    is left without an outcome by a POST that never returns. *)
Definition answered_by (env : Env) (method : string) (params : pyval) (from : nat)
           (o : outcome pyval) : Prop :=
  match o with
  | Ret PNone => True
  | Ret v =>
      exists i status d,
        (from <= i)%nat /\
        node env i method params = Response status (PDict d) /\
        status_is_error status = false /\
        (Py.lookup "result" d = Some v \/ (Py.lookup "result" d = None /\ v = PDict []))
  | Raise e =>
      exists i status body,
        (from <= i)%nat /\
        node env i method params = Response status body /\
        status_is_error status = false /\
        ((e = ValueError /\ exists d, body = PDict d /\ Py.lookup "result" d = Some PNone) \/
         (e = AttributeError /\ forall d, body <> PDict d))
  | Pending => exists i, (from <= i)%nat /\ node env i method params = NoReply
  end.

(** An attempt that does not count towards consensus: it fails, or its
    result is an object whose ["data"] is missing or does not equal [True]. *)
Definition denies_consensus (a : attempt) : bool :=
  match a with
  | ConnectionFailed => true
  | NotJson _ => true
  | NoReply => false
  | Response status body =>
      status_is_error status ||
      match body with
      | PDict d =>
          match Py.lookup "result" d with
          | Some (PDict r) =>
              match Py.lookup "data" r with
              | Some v => negb (Py.eq_True v)
              | None => true
              end
          | Some _ => false
          | None => true
          end
      | _ => false
      end
  end.

(** The six gauges. *)
Definition metrics (s : State) :=
  (ACTIVATED_AMOUNT s, VALIDATOR_ACTIVE s, EPOCH_NUMBER s, CURRENT_BALANCE s, TOTAL_STAKE s,
   CURRENT_STAKERS s).

(** A part of the state that talking to the node, logging and sleeping do
    not write. *)
Definition beyond_network {X} (proj : State -> X) : Prop :=
  (forall x s, proj (with_sent x s) = proj s) /\
  (forall x s, proj (with_returned x s) = proj s) /\
  (forall x s, proj (with_logs x s) = proj s) /\
  (forall x s, proj (with_sleeps x s) = proj s).

(** The test network with an unfunded address and a faucet that cannot be
    reached; and a node on the main network. *)
Definition faucet_down_env : Env :=
  mkEnv (fun _ _ _ => rpc_ok (PDict [("data", PNone)])) (fun _ => false) key_files "testnet"
        (fun _ => None).

Definition mainnet_env : Env :=
  mkEnv (node (submit_env rejected_send)) (fun _ => false) key_files "mainnet" (fun _ => None).

(** The node answers the next request of [method] with a JSON-RPC error: a
    status that is not an error and an object body without ["result"]. *)
Definition rpc_error_next (env : Env) (method : string) (params : pyval) (s : State) : Prop :=
  exists status d,
    node env (List.length (sent s)) method (Py.or_else params (PList []))
    = Response status (PDict d) /\
    status_is_error status = false /\
    Py.lookup "result" d = None.

(** The state after a call whose first attempt was answered and handed
    back [v]: the POST, the pause of 0.5 s, the value noted. *)
Definition after_answer (method : string) (params : pyval) (v : pyval) (s : State) : State :=
  with_returned (v :: returned s)
    (with_sleeps (500 :: sleeps s)
       (with_sent ((method, Py.or_else params (PList [])) :: sent s) s)).

(** [d.get(k, default)] on a dict. *)
Definition member_or (d : Py.dict) (k : string) (default : pyval) : pyval :=
  match Py.lookup k d with
  | Some v => v
  | None => default
  end.

(** Every request the computation sends is of a method in [allowed]. *)
Definition sends_only {A} (allowed : string -> bool) (m : M A) : Prop :=
  forall s,
    exists new,
      sent (snd (m s)) = new ++ sent s /\
      forallb (fun request => allowed (fst request)) new = true.

(** The methods that only read from the node. *)
Definition read_only (method : string) : bool :=
  String.eqb method "getValidatorByAddress" ||
  String.eqb method "getEpochNumber" ||
  String.eqb method "getAccountByAddress".

(** The node answers every request of [method] with [params] under a status
    that is not an error, with an object whose ["result"] is [result]. *)
Definition answers (env : Env) (method : string) (params : pyval) (result : pyval) : Prop :=
  forall i,
    exists status d,
      node env i method params = Response status (PDict d) /\
      status_is_error status = false /\
      Py.lookup "result" d = Some result.

(** The requests of one round of monitoring, newest first. *)
Definition round_requests (address : string) : list (string * pyval) :=
  [("getAccountByAddress", PList [PStr address]);
   ("getValidatorByAddress", PList [PStr address]);
   ("getEpochNumber", PList []);
   ("getValidatorByAddress", PList [PStr address])].

Definition f42 : spec_float :=
  Eval vm_compute in binary_normalize Float64.prec Float64.emax 42 0 false.

(** A node with an active validator of 100 NIM stake at epoch 42. *)
Definition healthy_env : Env :=
  mkEnv (fun _ method _ =>
           if String.eqb method "getEpochNumber" then rpc_ok (PDict [("data", PInt 42)])
           else if String.eqb method "getAccountByAddress"
                then rpc_ok (PDict [("data", PDict [("balance", PInt 10000000)])])
           else rpc_ok (PDict [("data", PDict [("retired", PBool false);
                                               ("balance", PInt 10000000);
                                               ("numStakers", PInt 1)])]))
        (fun _ => true) key_files "testnet" (fun _ => None).

(** The gauges that describe the validator on the node. *)
Definition validator_metrics (s : State) :=
  (VALIDATOR_ACTIVE s, EPOCH_NUMBER s, TOTAL_STAKE s, CURRENT_STAKERS s).

(** [activate_validator] up to the argument of [send_raw_tx]: everything
    before the [sendRawTransaction] step, handing over [result.get('data')]. *)
Definition before_send (env : Env) (fuel : nat) (ADDRESS : string) : M pyval :=
  log INFO "Address: {ADDRESS}" ;;
  SIGKEY <- get_private_key env "/keys/signing_key.txt" ;;
  VOTEKEY <- get_vote_key env "/keys/vote_key.txt" ;;
  ADDRESS_PRIVATE <- get_private_key env "/keys/address.txt" ;;
  funding_step env ADDRESS ;;
  log INFO "Importing private key." ;;
  rpc env "importRawKey" (PList [ADDRESS_PRIVATE; PStr ""]) ;;
  log INFO "Unlock Account." ;;
  rpc env "unlockAccount" (PList [PStr ADDRESS; PStr ""; PInt 0]) ;;
  log INFO "Wait for enough stake." ;;
  wait_for_enough_stake env fuel ADDRESS ;;
  log INFO "Activate Validator" ;;
  result <- rpc env "createNewValidatorTransaction"
                (PList [PStr ADDRESS; PStr ADDRESS; SIGKEY; PStr VOTEKEY; PStr ADDRESS;
                        PStr ""; PInt 500; PStr "+0"]) ;;
  log INFO "Sending Transaction" ;;
  lift (Py.get result "data" PNone).

(** The outcomes of the [sendRawTransaction] call that [send_raw_tx] tells
    apart: no result after the retries, a result with an ["error"] member
    that has a ["message"], a result without an ["error"] member. *)
Definition send_outcome (res : pyval) : Prop :=
  res = PNone \/
  exists d,
    res = PDict d /\
    (Py.lookup "error" d = None \/
     exists e m, Py.lookup "error" d = Some (PDict e) /\ Py.lookup "message" e = Some m).

(** A node that answers every request with a body that is not JSON, and one
    that never answers. *)
Definition not_json_env : Env :=
  mkEnv (fun _ _ _ => NotJson 200) (fun _ => true) (fun _ => None) "testnet" (fun _ => None).

Definition silent_env : Env :=
  mkEnv (fun _ _ _ => NoReply) (fun _ => true) (fun _ => None) "testnet" (fun _ => None).

(** Two positive observations, then a reply whose ["result"] is [null]. *)
Definition null_third_env : Env :=
  mkEnv (fun i _ _ => if Nat.ltb i 2 then rpc_ok (PDict [("data", PBool true)]) else rpc_ok PNone)
        (fun _ => true) key_files "testnet" (fun _ => None).

(** A reply whose ["result"] is [null], to every request. *)
Definition null_result_env : Env :=
  mkEnv (fun _ _ _ => rpc_ok PNone) (fun _ => true) key_files "testnet" (fun _ => None).

(** An active validator at epoch 42; then the node refuses every
    connection. *)
Definition active_then_down_env : Env :=
  mkEnv (fun i _ _ => nth i [rpc_ok active_validator; rpc_ok (PDict [("data", PInt 42)])]
                          ConnectionFailed)
        (fun _ => true) key_files "testnet" (fun _ => None).

(** A balance of 5, then an account object without ["balance"]. *)
Definition low_then_missing_env : Env :=
  mkEnv (fun i _ _ =>
           if Nat.eqb i 0 then rpc_ok (PDict [("data", PDict [("balance", PInt 5)])])
           else rpc_ok (PDict [("data", PDict [("address", PStr "NQ07 0000")])]))
        (fun _ => true) key_files "testnet" (fun _ => None).

(** * Properties *)

(** ** Running the monad *)

Lemma bind_ret {A B} (m : M A) (k : A -> M B) (s s' : State) (a : A) :
  m s = (Ret a, s') -> bind m k s = k a s'.
Proof. intros H. unfold bind. rewrite H. reflexivity. Qed.

Lemma bind_raise {A B} (m : M A) (k : A -> M B) (s s' : State) (e : exn) :
  m s = (Raise e, s') -> bind m k s = (Raise e, s').
Proof. intros H. unfold bind. rewrite H. reflexivity. Qed.

Lemma bind_pending {A B} (m : M A) (k : A -> M B) (s s' : State) :
  m s = (Pending, s') -> bind m k s = (Pending, s').
Proof. intros H. unfold bind. rewrite H. reflexivity. Qed.

(** What a bind that returned went through. *)
Lemma bind_inv_ret {A B} (m : M A) (k : A -> M B) (s s' : State) (b : B) :
  bind m k s = (Ret b, s') ->
  exists a s1, m s = (Ret a, s1) /\ k a s1 = (Ret b, s').
Proof.
  unfold bind. destruct (m s) as [[a | e |] s1]; intros H; try discriminate.
  exists a, s1. split; [reflexivity | exact H].
Qed.

(** ** Frame properties: parts of the state a computation leaves alone *)

Lemma preserves_bind {X A B} (proj : State -> X) (m : M A) (k : A -> M B) :
  preserves proj m -> (forall a, preserves proj (k a)) -> preserves proj (bind m k).
Proof.
  intros Hm Hk s. unfold bind. specialize (Hm s).
  destruct (m s) as [[a | e |] s1]; cbn in Hm |- *; try exact Hm.
  rewrite (Hk a s1). exact Hm.
Qed.

Lemma preserves_ret {X A} (proj : State -> X) (a : A) : preserves proj (ret a).
Proof. intros s. reflexivity. Qed.

Lemma preserves_raise {X A} (proj : State -> X) (e : exn) : preserves proj (@raise A e).
Proof. intros s. reflexivity. Qed.

Lemma preserves_pending {X A} (proj : State -> X) : preserves proj (@pending A).
Proof. intros s. reflexivity. Qed.

Lemma preserves_lift {X A} (proj : State -> X) (o : outcome A) : preserves proj (lift o).
Proof. intros s. reflexivity. Qed.

Lemma gauge_set_preserves {X} (proj : State -> X) env upd v :
  (forall x s, proj (upd x s) = proj s) -> preserves proj (gauge_set env upd v).
Proof.
  intros H. unfold gauge_set. apply preserves_bind; [apply preserves_lift | intros f].
  intros s. cbn. apply H.
Qed.

(** ** The RPC client *)

Lemma nimiq_request_loop_failed env method params delay n s :
  0 <= delay ->
  attempt_fails (node env (List.length (sent s)) method (Py.or_else params (PList []))) = true ->
  nimiq_request_loop env method params delay (S n) s =
  nimiq_request_loop env method params delay n (after_failed_attempt method params delay s).
Proof.
  intros Hd Hf.
  assert (Hneg : (1000 * delay <? 0) = false) by (apply Z.ltb_ge; lia).
  cbn [nimiq_request_loop].
  unfold bind at 1. unfold http_post at 1.
  destruct (node env (List.length (sent s)) method (Py.or_else params (PList [])))
    as [| status body | status |] eqn:E; cbn [attempt_fails] in Hf.
  - unfold bind, log, sleep_ms; cbn -[Z.mul Z.ltb]. rewrite Hneg. reflexivity.
  - rewrite Hf. unfold bind, log, sleep_ms; cbn -[Z.mul Z.ltb]. rewrite Hneg. reflexivity.
  - unfold bind, log, sleep_ms; cbn -[Z.mul Z.ltb]. rewrite Hneg. reflexivity.
  - discriminate.
Qed.

Lemma sent_after_failed_attempts n method params delay s :
  List.length (sent (after_failed_attempts n method params delay s)) = (n + List.length (sent s))%nat.
Proof.
  revert s. induction n as [| n IH]; intros s; cbn [after_failed_attempts]; [reflexivity |].
  rewrite IH. cbn. lia.
Qed.

(** With [n] retries and the next [n] attempts failing, the loop posts [n]
    times and gives up. *)
Lemma nimiq_request_loop_all_failed env method params delay :
  0 <= delay ->
  forall n s,
    (forall i, (List.length (sent s) <= i < List.length (sent s) + n)%nat ->
               attempt_fails (node env i method (Py.or_else params (PList []))) = true) ->
    nimiq_request_loop env method params delay n s =
    (Ret PNone, after_giving_up (after_failed_attempts n method params delay s)).
Proof.
  intros Hd. induction n as [| n IH]; intros s Hall.
  - reflexivity.
  - rewrite nimiq_request_loop_failed by (try apply Hall; lia).
    cbn [after_failed_attempts]. apply IH.
    intros i Hi. apply Hall. cbn in Hi. lia.
Qed.

(** A 2xx response whose body is an object. *)
Lemma nimiq_request_loop_replied env method params delay n s status d :
  node env (List.length (sent s)) method (Py.or_else params (PList [])) = Response status (PDict d) ->
  status_is_error status = false ->
  nimiq_request_loop env method params delay (S n) s =
  let s1 := with_sleeps (500 :: sleeps s)
              (with_sent ((method, Py.or_else params (PList [])) :: sent s) s) in
  match Py.lookup "result" d with
  | Some PNone => (Raise ValueError, s1)
  | Some v => (Ret v, with_returned (v :: returned s1) s1)
  | None => (Ret (PDict []), with_returned (PDict [] :: returned s1) s1)
  end.
Proof.
  intros E Hs. cbn [nimiq_request_loop].
  unfold bind at 1. unfold http_post at 1. rewrite E, Hs.
  unfold bind, lift, sleep_ms, hand_back, raise; cbn.
  destruct (Py.lookup "result" d) as [[] |]; reflexivity.
Qed.

(** The client writes [sent], [returned], [logs] and [sleeps] only. *)
Lemma nimiq_request_loop_preserves {X} (proj : State -> X) env method params delay :
  (forall x s, proj (with_sent x s) = proj s) ->
  (forall x s, proj (with_returned x s) = proj s) ->
  (forall x s, proj (with_logs x s) = proj s) ->
  (forall x s, proj (with_sleeps x s) = proj s) ->
  forall retries, preserves proj (nimiq_request_loop env method params delay retries).
Proof.
  intros Hsent Hret Hlogs Hsleeps.
  assert (Hlog : forall l msg, preserves proj (log l msg)).
  { intros l msg s. unfold log. cbn. apply Hlogs. }
  assert (Hsleep : forall ms, preserves proj (sleep_ms ms)).
  { intros ms s. unfold sleep_ms. destruct (ms <? 0); cbn; [reflexivity | apply Hsleeps]. }
  assert (Hback : forall v, preserves proj (hand_back v)).
  { intros v s. unfold hand_back. cbn. apply Hret. }
  assert (Hpost : forall p, preserves proj (http_post env method p)).
  { intros p s. unfold http_post. cbn. apply Hsent. }
  induction retries as [| retries IH]; cbn [nimiq_request_loop].
  - apply preserves_bind; [apply Hlog | intros _; apply Hback].
  - apply preserves_bind; [apply Hpost | intros a].
    assert (Hretry : preserves proj
              (log ERROR "Error: {err}. Retrying in {delay} seconds. Retries left: {retries}" ;;
               sleep_ms (1000 * delay) ;;
               nimiq_request_loop env method params delay retries)).
    { apply preserves_bind; [apply Hlog | intros _].
      apply preserves_bind; [apply Hsleep | intros _; exact IH]. }
    destruct a as [| status body | status |];
      [exact Hretry | | exact Hretry | apply preserves_pending].
    destruct (status_is_error status); [exact Hretry |].
    apply preserves_bind; [apply preserves_lift | intros result].
    apply preserves_bind; [apply Hsleep | intros _].
    destruct result; first [apply preserves_raise | apply Hback].
Qed.

Lemma rpc_preserves {X} (proj : State -> X) env method params :
  (forall x s, proj (with_sent x s) = proj s) ->
  (forall x s, proj (with_returned x s) = proj s) ->
  (forall x s, proj (with_logs x s) = proj s) ->
  (forall x s, proj (with_sleeps x s) = proj s) ->
  preserves proj (rpc env method params).
Proof. intros. unfold rpc, nimiq_request. apply nimiq_request_loop_preserves; assumption. Qed.

(** Splits a computation along its binds and branches; the leaves that are
    left write a field other than the one projected. *)
Ltac frame_leaf :=
  let s := fresh "s" in
  intros s;
  unfold log, sleep_ms, http_post, hand_back, activated_inc, faucet_post;
  try match goal with |- context [if ?c then _ else _] => destruct c end;
  reflexivity.

Ltac frame :=
  repeat first
    [ solve [auto]
    | apply gauge_set_preserves; first [assumption | intros; reflexivity]
    | apply rpc_preserves; first [assumption | intros; reflexivity]
    | apply preserves_ret
    | apply preserves_raise
    | apply preserves_pending
    | apply preserves_lift
    | apply preserves_bind; [| intros ?]
    | match goal with
      | |- preserves _ (match ?x with _ => _ end) => destruct x
      end
    | frame_leaf ].

(** C2. Retry bound: for every method and params, when each of the next
    three HTTP attempts fails at the transport or status level (the POST
    raises, or the status is 4xx/5xx, whatever the body), [nimiq_request]
    with [retries=3, delay=5] posts exactly three times, sleeps 5 s after
    each, returns [None] and raises nothing. *)
Theorem nimiq_request_retry_bound :
  forall env method params s,
    (forall i, (List.length (sent s) <= i < List.length (sent s) + 3)%nat ->
               attempt_fails (node env i method (Py.or_else params (PList []))) = true) ->
    let r := nimiq_request env method params 3 5 s in
    fst r = Ret PNone /\
    sent (snd r) =
      (let post := (method, Py.or_else params (PList [])) in [post; post; post] ++ sent s) /\
    sleeps (snd r) = [5000; 5000; 5000] ++ sleeps s /\
    returned (snd r) = PNone :: returned s.
Proof.
  intros env method params s Hall. unfold nimiq_request.
  change (Z.to_nat 3) with 3%nat.
  rewrite nimiq_request_loop_all_failed by (try exact Hall; lia).
  cbn. repeat split.
Qed.

Lemma nimiq_request_retry_bound_witness :
  let r := nimiq_request dead_env "getEpochNumber" PNone 3 5 initial_state in
  fst r = Ret PNone /\
  sent (snd r) = [("getEpochNumber", PList []); ("getEpochNumber", PList []);
                  ("getEpochNumber", PList [])] /\
  sleeps (snd r) = [5000; 5000; 5000] /\
  returned (snd r) = [PNone].
Proof.
  apply (nimiq_request_retry_bound dead_env "getEpochNumber" PNone initial_state).
  intros i _. reflexivity.
Defined.

(** C6. A 2xx response whose JSON object has no ["result"] member: the
    [.get('result', {})] default makes [nimiq_request] return the empty dict
    [{}] to its caller after one attempt, with nothing logged and nothing
    raised; the caller receives a value that is not [None]. The
    [raise ValueError("No result in response")] is reached only for an
    explicit [null], and then the exception leaves [nimiq_request] uncaught,
    again with nothing logged. *)
Theorem nimiq_request_absent_result :
  forall env method params s status d,
    node env (List.length (sent s)) method (Py.or_else params (PList [])) = Response status (PDict d) ->
    status_is_error status = false ->
    let r := nimiq_request env method params 3 5 s in
    (Py.lookup "result" d = None ->
     fst r = Ret (PDict []) /\
     logs (snd r) = logs s /\
     List.length (sent (snd r)) = S (List.length (sent s)) /\
     returned (snd r) = PDict [] :: returned s) /\
    (Py.lookup "result" d = Some PNone ->
     fst r = Raise ValueError /\
     logs (snd r) = logs s /\
     List.length (sent (snd r)) = S (List.length (sent s))).
Proof.
  intros env method params s status d E Hs. unfold nimiq_request.
  change (Z.to_nat 3) with 3%nat.
  rewrite (nimiq_request_loop_replied _ _ _ _ _ _ _ _ E Hs).
  split; intros Hd; rewrite Hd; cbn; repeat split.
Qed.

Lemma nimiq_request_absent_result_witness :
  let r := nimiq_request (constant_env method_not_found) "getEpochNumber" PNone 3 5 initial_state in
  fst r = Ret (PDict []) /\
  logs (snd r) = [] /\
  List.length (sent (snd r)) = 1%nat /\
  returned (snd r) = [PDict []].
Proof.
  apply (nimiq_request_absent_result
           (constant_env method_not_found) "getEpochNumber" PNone initial_state 200
           [("jsonrpc", PStr "2.0");
            ("error", PDict [("code", PInt (-32601)); ("message", PStr "Method not found")]);
            ("id", PInt 1)] eq_refl eq_refl).
  reflexivity.
Defined.

(** ** The vote key *)

Lemma nth_error_in_range {A} (l : list A) (k : nat) :
  (k < List.length l)%nat -> exists x, nth_error l k = Some x.
Proof.
  intros H. destruct (nth_error l k) as [x |] eqn:E; [exists x; reflexivity |].
  apply nth_error_None in E. lia.
Qed.

(** Once the index has passed the last label line [i], or is still before
    it, the loop ends with the line two below [i]. *)
Lemma get_vote_key_loop_found lines i below :
  label_at lines i = true ->
  (forall j, (i < j)%nat -> label_at lines j = false) ->
  nth_error lines (i + 2) = Some below ->
  forall todo k secret_key,
    (k + todo = List.length lines)%nat ->
    (k <= i)%nat \/ secret_key = Some (Py.strip below) ->
    get_vote_key_loop lines k todo secret_key = Ret (Py.strip below).
Proof.
  intros Hi Hlast Hbelow.
  assert (Hlen : (i + 2 < List.length lines)%nat)
    by (apply nth_error_Some; rewrite Hbelow; discriminate).
  induction todo as [| todo IH]; intros k secret_key Hk Hinv.
  - cbn. destruct Hinv as [Hle | ->]; [lia | reflexivity].
  - cbn [get_vote_key_loop].
    destruct (nth_error_in_range lines k ltac:(lia)) as [line Hline]. rewrite Hline.
    assert (Hlab : label_at lines k = Py.contains "Secret Key:" line)
      by (unfold label_at; rewrite Hline; reflexivity).
    destruct (Py.contains "Secret Key:" line) eqn:Hc.
    + assert (Hki : (k <= i)%nat).
      { destruct (Nat.le_gt_cases k i) as [H | H]; [exact H |].
        rewrite (Hlast k H) in Hlab. discriminate. }
      destruct (nth_error_in_range lines (k + 2) ltac:(lia)) as [b Hb]. rewrite Hb.
      apply IH; [lia |].
      destruct (Nat.eq_dec k i) as [-> | Hne].
      * right. rewrite Hbelow in Hb. injection Hb as <-. reflexivity.
      * left. lia.
    + apply IH; [lia |].
      destruct Hinv as [Hle | Hsk]; [left | right; exact Hsk].
      destruct (Nat.eq_dec k i) as [-> | Hne]; [| lia].
      rewrite Hi in Hlab. discriminate.
Qed.

(** A label line with fewer than two lines after it stops the loop with an
    [IndexError]. *)
Lemma get_vote_key_loop_short lines i :
  label_at lines i = true ->
  (List.length lines <= i + 2)%nat ->
  forall todo k secret_key,
    (k + todo = List.length lines)%nat ->
    (k <= i)%nat ->
    get_vote_key_loop lines k todo secret_key = Raise IndexError.
Proof.
  intros Hi Hshort.
  assert (Hin : (i < List.length lines)%nat).
  { unfold label_at in Hi. destruct (nth_error lines i) eqn:E; [| discriminate].
    apply nth_error_Some. rewrite E. discriminate. }
  induction todo as [| todo IH]; intros k secret_key Hk Hle.
  - lia.
  - cbn [get_vote_key_loop].
    destruct (nth_error_in_range lines k ltac:(lia)) as [line Hline]. rewrite Hline.
    assert (Hlab : label_at lines k = Py.contains "Secret Key:" line)
      by (unfold label_at; rewrite Hline; reflexivity).
    destruct (Py.contains "Secret Key:" line) eqn:Hc.
    + destruct (nth_error lines (k + 2)) as [b |] eqn:Hb; [| reflexivity].
      assert ((k + 2 < List.length lines)%nat)
        by (apply nth_error_Some; rewrite Hb; discriminate).
      apply IH; lia.
    + apply IH; [lia |].
      destruct (Nat.eq_dec k i) as [-> | Hne]; [| lia].
      rewrite Hi in Hlab. discriminate.
Qed.

(** C8. Let [i] be the last line of the key file that contains the label
    ["Secret Key:"]. If at least two lines follow it, [get_vote_key] returns
    line [i + 2] stripped; if fewer than two lines follow it, [get_vote_key]
    raises [IndexError] (an out-of-bounds fault, not a typed parse error). *)
Theorem get_vote_key_two_lines_below :
  forall env file_path lines i s,
    files env file_path = Some lines ->
    label_at lines i = true ->
    (forall j, (i < j)%nat -> label_at lines j = false) ->
    ((i + 2 < List.length lines)%nat ->
     exists below, nth_error lines (i + 2) = Some below /\
                   get_vote_key env file_path s = (Ret (Py.strip below), s)) /\
    ((List.length lines <= i + 2)%nat ->
     get_vote_key env file_path s = (Raise IndexError, s)).
Proof.
  intros env file_path lines i s Hfile Hi Hlast.
  assert (Hrun : get_vote_key env file_path s = (get_vote_key_lines lines, s)).
  { unfold get_vote_key, readlines. rewrite Hfile. reflexivity. }
  rewrite Hrun. unfold get_vote_key_lines. split.
  - intros Hlen. destruct (nth_error_in_range lines (i + 2) Hlen) as [below Hbelow].
    exists below. split; [exact Hbelow |]. f_equal.
    apply (get_vote_key_loop_found lines i below Hi Hlast Hbelow); [lia | left; lia].
  - intros Hshort. f_equal.
    apply (get_vote_key_loop_short lines i Hi Hshort); lia.
Qed.

Lemma get_vote_key_two_lines_below_witness :
  get_vote_key (key_env vote_key_file) "/keys/vote_key.txt" initial_state
  = (Ret "c2d3e4", initial_state) /\
  get_vote_key (key_env vote_key_file_short) "/keys/vote_key.txt" initial_state
  = (Raise IndexError, initial_state).
Proof.
  split.
  - destruct (get_vote_key_two_lines_below (key_env vote_key_file) "/keys/vote_key.txt"
                vote_key_file 6%nat initial_state) as [Hfound _].
    + reflexivity.
    + reflexivity.
    + intros j Hj. do 7 (destruct j as [| j]; [lia |]).
      do 2 (destruct j as [| j]; [reflexivity |]).
      unfold label_at. replace (nth_error vote_key_file _) with (@None string); [reflexivity |].
      symmetry. apply nth_error_None. cbn. lia.
    + destruct Hfound as [below [Hb Hrun]]; [cbn; lia |].
      cbn in Hb. injection Hb as <-. exact Hrun.
  - destruct (get_vote_key_two_lines_below (key_env vote_key_file_short) "/keys/vote_key.txt"
                vote_key_file_short 4%nat initial_state) as [_ Hshort].
    + reflexivity.
    + reflexivity.
    + intros j Hj. do 5 (destruct j as [| j]; [lia |]).
      destruct j as [| j]; [reflexivity |].
      unfold label_at. replace (nth_error vote_key_file_short _) with (@None string); [reflexivity |].
      symmetry. apply nth_error_None. cbn. lia.
    + apply Hshort. cbn. lia.
Defined.

(** ** The active check and the monitoring loop *)

Lemma of_int_1 : Float64.of_int 1 = Some Float64.f1.
Proof. reflexivity. Qed.

Lemma of_int_0 : Float64.of_int 0 = Some (S754_zero false).
Proof. reflexivity. Qed.

(** [VALIDATOR_ACTIVE.set(1 if not retired else 0)]. *)
Lemma set_validator_active env (inactive : bool) s :
  gauge_set env with_VALIDATOR_ACTIVE (if negb inactive then PInt 1 else PInt 0) s =
  (Ret tt, with_VALIDATOR_ACTIVE (if inactive then S754_zero false else Float64.f1) s).
Proof.
  unfold gauge_set, bind, lift, py_float.
  destruct inactive; cbn [negb]; [rewrite of_int_0 | rewrite of_int_1]; reflexivity.
Qed.

Lemma subscript_found d k v : Py.lookup k d = Some v -> Py.subscript (PDict d) k = Ret v.
Proof. intros H. unfold Py.subscript. rewrite H. reflexivity. Qed.

Lemma subscript_missing d k : Py.lookup k d = None -> Py.subscript (PDict d) k = Raise KeyError.
Proof. intros H. unfold Py.subscript. rewrite H. reflexivity. Qed.

Lemma has_found d k v : Py.lookup k d = Some v -> Py.has k (PDict d) = Ret true.
Proof. intros H. unfold Py.has. rewrite H. reflexivity. Qed.

Lemma has_missing d k : Py.lookup k d = None -> Py.has k (PDict d) = Ret false.
Proof. intros H. unfold Py.has. rewrite H. reflexivity. Qed.

Lemma get_found d k v default : Py.lookup k d = Some v -> Py.get (PDict d) k default = Ret v.
Proof. intros H. unfold Py.get. rewrite H. reflexivity. Qed.

Lemma get_missing d k default : Py.lookup k d = None -> Py.get (PDict d) k default = Ret default.
Proof. intros H. unfold Py.get. rewrite H. reflexivity. Qed.

Lemma is_validator_active_unfold env address s :
  is_validator_active env address s =
  bind (rpc env "getValidatorByAddress" (PList [PStr address])) (is_validator_active_after env) s.
Proof. reflexivity. Qed.

Lemma is_validator_active_after_preserves {X} (proj : State -> X) env result :
  (forall x s, proj (with_VALIDATOR_ACTIVE x s) = proj s) ->
  preserves proj (is_validator_active_after env result).
Proof.
  intros H. unfold is_validator_active_after.
  frame.
Qed.

(** On an object that has ["data"], the check comes down to the truth value
    of [data["retired"]]. *)
Lemma is_validator_active_after_data env d data s :
  Py.lookup "data" d = Some data ->
  is_validator_active_after env (PDict d) s =
  match Py.subscript data "retired" with
  | Ret retired =>
      (Ret (negb (Py.truthy retired)),
       with_VALIDATOR_ACTIVE (if Py.truthy retired then S754_zero false else Float64.f1) s)
  | Raise e => (Raise e, s)
  | Pending => (Pending, s)
  end.
Proof.
  intros Hd. unfold is_validator_active_after.
  assert (Ht : Py.truthy (PDict d) = true) by (destruct d; [discriminate | reflexivity]).
  rewrite Ht, (has_found d "data" data Hd), (subscript_found d "data" data Hd).
  unfold bind at 1. unfold lift at 1.
  unfold bind at 1. unfold lift at 1.
  unfold bind at 1. unfold lift at 1.
  destruct (Py.subscript data "retired") as [retired | e |] eqn:Hr; try reflexivity.
  unfold bind at 1. rewrite set_validator_active.
  unfold bind at 1. unfold lift at 1. unfold bind at 1. unfold lift at 1.
  rewrite Hr. reflexivity.
Qed.

Lemma is_validator_active_after_no_data env d s :
  Py.lookup "data" d = None ->
  is_validator_active_after env (PDict d) s = (Ret false, s).
Proof.
  intros Hd. unfold is_validator_active_after.
  destruct (Py.truthy (PDict d)); [| reflexivity].
  rewrite (has_missing d "data" Hd). reflexivity.
Qed.

(** The check answers [True] only on an object with a falsy
    [data["retired"]]. *)
Lemma is_validator_active_after_true env result s :
  fst (is_validator_active_after env result s) = Ret true <->
  exists d data retired,
    result = PDict d /\ Py.lookup "data" d = Some data /\
    Py.subscript data "retired" = Ret retired /\ Py.truthy retired = false.
Proof.
  split.
  - destruct result as [| b | z | f | str | l | d].
    + cbn. discriminate.
    + unfold is_validator_active_after. destruct (Py.truthy (PBool b)); cbn; discriminate.
    + unfold is_validator_active_after. destruct (Py.truthy (PInt z)); cbn; discriminate.
    + unfold is_validator_active_after. destruct (Py.truthy (PFloat f)); cbn; discriminate.
    + unfold is_validator_active_after. destruct (Py.truthy (PStr str)); [| cbn; discriminate].
      unfold bind, lift, ret. cbn [Py.has].
      destruct (Py.contains "data" str); cbn; discriminate.
    + unfold is_validator_active_after. destruct (Py.truthy (PList l)); [| cbn; discriminate].
      unfold bind, lift, ret. cbn [Py.has].
      destruct (existsb _ l); cbn; discriminate.
    + destruct (Py.lookup "data" d) as [data |] eqn:Hd.
      * rewrite (is_validator_active_after_data env d data s Hd).
        destruct (Py.subscript data "retired") as [retired | e |] eqn:Hr; cbn; try discriminate.
        intros H. exists d, data, retired. repeat split; try assumption.
        destruct (Py.truthy retired); [discriminate | reflexivity].
      * rewrite (is_validator_active_after_no_data env d s Hd). cbn. discriminate.
  - intros (d & data & retired & -> & Hd & Hr & Ht).
    rewrite (is_validator_active_after_data env d data s Hd), Hr, Ht. reflexivity.
Qed.

(** The loop returns only from the branch taken when the check is false. *)
Lemma monitor_returns_after_inactive env address fuel :
  forall s s',
    monitor_active_validator env fuel address s = (Ret tt, s') ->
    exists s0 s1,
      is_validator_active env address s0 = (Ret false, s1) /\
      s' = with_logs ((INFO, "Validator not active anymore.") :: logs s1) s1.
Proof.
  induction fuel as [| fuel IH]; intros s s' H.
  - discriminate.
  - cbn [monitor_active_validator] in H.
    apply bind_inv_ret in H. destruct H as (active & s1 & Hchk & H).
    destruct active; cbn [negb] in H.
    + repeat (apply bind_inv_ret in H; destruct H as (? & ? & _ & H)).
      apply IH in H. exact H.
    + exists s, s1. split; [exact Hchk |]. unfold log in H. injection H as <-. reflexivity.
Qed.

(** The active check, on what the call hands back to it. Let [result] be
    what the [getValidatorByAddress] call hands back.
    [is_validator_active] returns [False] when the call failed ([None]) and
    when the object has no ["data"]; with a boolean [retired] flag in
    ["data"] it returns its negation and sets the gauge accordingly; it
    returns [True] exactly when the call succeeded, ["data"] is there and
    [data["retired"]] is false. The monitoring loop leaves through its
    [break] at a check that returns [False], goes on after a check that
    returns [True], and never returns in another way. *)
Theorem is_validator_active_iff_not_retired :
  forall env address s result s1,
    rpc env "getValidatorByAddress" (PList [PStr address]) s = (Ret result, s1) ->
    (result = PNone -> is_validator_active env address s = (Ret false, s1)) /\
    (forall d, result = PDict d -> Py.lookup "data" d = None ->
               is_validator_active env address s = (Ret false, s1)) /\
    (forall d v retired,
        result = PDict d -> Py.lookup "data" d = Some (PDict v) ->
        Py.lookup "retired" v = Some (PBool retired) ->
        is_validator_active env address s =
        (Ret (negb retired),
         with_VALIDATOR_ACTIVE (if retired then S754_zero false else Float64.f1) s1)) /\
    (fst (is_validator_active env address s) = Ret true <->
     exists d data retired,
       result = PDict d /\ Py.lookup "data" d = Some data /\
       Py.subscript data "retired" = Ret retired /\ Py.truthy retired = false) /\
    (forall fuel,
        (fst (is_validator_active env address s) = Ret false ->
         fst (monitor_active_validator env (S fuel) address s) = Ret tt /\
         sent (snd (monitor_active_validator env (S fuel) address s)) = sent s1) /\
        (fst (is_validator_active env address s) = Ret true ->
         monitor_active_validator env (S fuel) address s =
         (log INFO "Validator still active, updating metrics." ;;
          get_epoch_number env ;;
          get_stake_by_address env address ;;
          set_balance_prometheus env address ;;
          sleep_ms 30000 ;;
          monitor_active_validator env fuel address)
           (snd (is_validator_active env address s)))) /\
    (forall fuel s0 s',
        monitor_active_validator env fuel address s0 = (Ret tt, s') ->
        exists s2 s3,
          is_validator_active env address s2 = (Ret false, s3) /\
          s' = with_logs ((INFO, "Validator not active anymore.") :: logs s3) s3).
Proof.
  intros env address s result s1 Hrpc.
  assert (Hrun : is_validator_active env address s = is_validator_active_after env result s1).
  { rewrite is_validator_active_unfold. apply bind_ret. exact Hrpc. }
  rewrite Hrun. repeat split.
  - intros ->. reflexivity.
  - intros d -> Hd. apply is_validator_active_after_no_data. exact Hd.
  - intros d v retired -> Hd Hr.
    rewrite (is_validator_active_after_data env d (PDict v) s1 Hd).
    cbn [Py.subscript]. rewrite Hr. cbn [Py.truthy]. reflexivity.
  - apply is_validator_active_after_true.
  - apply is_validator_active_after_true.
  - cbn [monitor_active_validator]. unfold bind at 1. rewrite Hrun.
    destruct (is_validator_active_after env result s1) as [o s2].
    cbn in H. subst o. reflexivity.
  - cbn [monitor_active_validator]. unfold bind at 1. rewrite Hrun.
    destruct (is_validator_active_after env result s1) as [o s2] eqn:E.
    cbn in H. subst o. cbn.
    pose proof (is_validator_active_after_preserves sent env result
                  (fun _ _ => eq_refl) s1) as P.
    rewrite E in P. exact P.
  - intros Ht. cbn [monitor_active_validator]. unfold bind at 1. rewrite Hrun.
    destruct (is_validator_active_after env result s1) as [o s2].
    cbn in Ht. subst o. reflexivity.
  - intros fuel s0 s'. apply monitor_returns_after_inactive.
Qed.

Lemma is_validator_active_iff_not_retired_witness :
  fst (is_validator_active (result_env active_validator) "NQ07 0000" initial_state) = Ret true.
Proof.
  destruct (is_validator_active_iff_not_retired
              (result_env active_validator) "NQ07 0000" initial_state active_validator
              (snd (rpc (result_env active_validator) "getValidatorByAddress"
                        (PList [PStr "NQ07 0000"]) initial_state))
              eq_refl) as (_ & _ & Hflag & _).
  rewrite (Hflag _ _ false eq_refl eq_refl eq_refl). reflexivity.
Defined.

(** ** Funding *)

Lemma needs_funds_unfold env address s :
  needs_funds env address s =
  bind (rpc env "getAccountByAddress" (PList [PStr address])) needs_funds_after s.
Proof. reflexivity. Qed.

Lemma needs_funds_after_true res s :
  needs_funds_after res s = (Ret true, s) <-> reads_as_unfunded res.
Proof.
  unfold reads_as_unfunded. split.
  - destruct res as [| b | z | f | str | l | d]; try (cbn; discriminate).
    unfold needs_funds_after. intros H. exists d. split; [reflexivity |].
    destruct (Py.lookup "data" d) as [data |] eqn:Hd.
    + rewrite (get_found d "data" data _ Hd) in H. unfold bind at 1 in H. unfold lift at 1 in H.
      destruct data as [| b | z | f | str | l | v]; try (cbn in H; discriminate).
      * left. reflexivity.
      * right. right. unfold bind, lift in H.
        destruct (Py.get (PDict v) "balance" (PInt 0)) as [balance | e |] eqn:Hb;
          try discriminate.
        exists v, balance. split; [reflexivity | split; [exact Hb |]].
        destruct (Py.eq_int balance 0); [reflexivity | discriminate].
    + right. left. reflexivity.
  - intros (d & -> & [Hd | [Hd | (v & balance & Hd & Hb & Hz)]]); unfold needs_funds_after.
    + rewrite (get_found d "data" PNone _ Hd). reflexivity.
    + rewrite (get_missing d "data" _ Hd). reflexivity.
    + rewrite (get_found d "data" (PDict v) _ Hd).
      unfold bind, lift. rewrite Hb, Hz. reflexivity.
Qed.

Lemma needs_funds_after_state res s : snd (needs_funds_after res s) = s.
Proof.
  unfold needs_funds_after. destruct res; try reflexivity;
    unfold bind, lift, ret;
    repeat match goal with
           | |- context [match ?x with _ => _ end] => destruct x; try reflexivity
           end.
Qed.

(** Reading a key file does not touch the state. *)
Lemma get_private_key_state env file_path s : snd (get_private_key env file_path s) = s.
Proof.
  unfold get_private_key, readlines. destruct (files env file_path); reflexivity.
Qed.

Lemma get_vote_key_state env file_path s : snd (get_vote_key env file_path s) = s.
Proof.
  unfold get_vote_key, readlines. destruct (files env file_path); reflexivity.
Qed.

Lemma get_balance_preserves {X} (proj : State -> X) env address :
  (forall x s, proj (with_sent x s) = proj s) ->
  (forall x s, proj (with_returned x s) = proj s) ->
  (forall x s, proj (with_logs x s) = proj s) ->
  (forall x s, proj (with_sleeps x s) = proj s) ->
  preserves proj (get_balance env address).
Proof.
  intros Hsent Hret Hlogs Hsleeps. unfold get_balance.
  assert (Hlog : forall l msg, preserves proj (log l msg)).
  { intros l msg s. unfold log. cbn. apply Hlogs. }
  frame.
Qed.

Lemma wait_for_enough_stake_preserves {X} (proj : State -> X) env address :
  (forall x s, proj (with_sent x s) = proj s) ->
  (forall x s, proj (with_returned x s) = proj s) ->
  (forall x s, proj (with_logs x s) = proj s) ->
  (forall x s, proj (with_sleeps x s) = proj s) ->
  (forall x s, proj (with_CURRENT_BALANCE x s) = proj s) ->
  forall fuel, preserves proj (wait_for_enough_stake env fuel address).
Proof.
  intros Hsent Hret Hlogs Hsleeps Hgauge.
  assert (Hlog : forall l msg, preserves proj (log l msg)).
  { intros l msg s. unfold log. cbn. apply Hlogs. }
  assert (Hsleep : forall ms, preserves proj (sleep_ms ms)).
  { intros ms s. unfold sleep_ms. destruct (ms <? 0); cbn; [reflexivity | apply Hsleeps]. }
  pose proof (get_balance_preserves proj env address Hsent Hret Hlogs Hsleeps) as Hbal.
  induction fuel as [| fuel IH]; cbn [wait_for_enough_stake]; [apply preserves_pending |].
  apply preserves_bind.
  - unfold wait_for_enough_stake_body.
    apply preserves_bind; [exact Hbal | intros balance].
    assert (Hnone : preserves proj
              (log ERROR "Error getting balance." ;; sleep_ms 60000 ;; ret false)).
    { apply preserves_bind; [apply Hlog | intros _].
      apply preserves_bind; [apply Hsleep | intros _; apply preserves_ret]. }
    assert (Hsome : preserves proj
              (nim <- lift (Py.truediv balance Float64.f1e5) ;;
               gauge_set env with_CURRENT_BALANCE (PFloat nim) ;;
               if Float64.geb nim Float64.f100000
               then log INFO "Balance reached: {balance} NIM." ;; ret true
               else log INFO "Current balance: {balance} NIM. Waiting for balance to reach 100k NIM." ;;
                    sleep_ms 60000 ;; ret false)).
    { apply preserves_bind; [apply preserves_lift | intros nim].
      apply preserves_bind; [apply gauge_set_preserves; exact Hgauge | intros _].
      destruct (Float64.geb nim Float64.f100000).
      - apply preserves_bind; [apply Hlog | intros _; apply preserves_ret].
      - apply preserves_bind; [apply Hlog | intros _].
        apply preserves_bind; [apply Hsleep | intros _; apply preserves_ret]. }
    destruct balance; first [exact Hnone | exact Hsome].
  - intros done. destruct done; [apply preserves_ret | exact IH].
Qed.

Lemma send_raw_tx_preserves {X} (proj : State -> X) env tx :
  (forall x s, proj (with_sent x s) = proj s) ->
  (forall x s, proj (with_returned x s) = proj s) ->
  (forall x s, proj (with_logs x s) = proj s) ->
  (forall x s, proj (with_sleeps x s) = proj s) ->
  preserves proj (send_raw_tx env tx).
Proof.
  intros Hsent Hret Hlogs Hsleeps. unfold send_raw_tx.
  assert (Hlog : forall l msg, preserves proj (log l msg)).
  { intros l msg s. unfold log. cbn. apply Hlogs. }
  frame.
Qed.

Lemma activate_validator_unfold env fuel ADDRESS :
  activate_validator env fuel ADDRESS =
  (log INFO "Address: {ADDRESS}" ;;
   SIGKEY <- get_private_key env "/keys/signing_key.txt" ;;
   VOTEKEY <- get_vote_key env "/keys/vote_key.txt" ;;
   ADDRESS_PRIVATE <- get_private_key env "/keys/address.txt" ;;
   funding_step env ADDRESS ;;
   submit_step env fuel ADDRESS SIGKEY VOTEKEY ADDRESS_PRIVATE).
Proof. reflexivity. Qed.

Lemma needs_funds_no_result env address s :
  (forall i, (List.length (sent s) <= i < List.length (sent s) + 3)%nat ->
             attempt_fails (node env i "getAccountByAddress" (PList [PStr address])) = true) ->
  needs_funds env address s =
  (Ret false,
   after_giving_up
     (after_failed_attempts 3 "getAccountByAddress" (PList [PStr address]) 5 s)).
Proof.
  intros Hall. rewrite needs_funds_unfold.
  assert (Hrpc : rpc env "getAccountByAddress" (PList [PStr address]) s =
                 (Ret PNone,
                  after_giving_up
                    (after_failed_attempts 3 "getAccountByAddress" (PList [PStr address]) 5 s))).
  { unfold rpc, nimiq_request. change (Z.to_nat 3) with 3%nat.
    apply nimiq_request_loop_all_failed; [lia | exact Hall]. }
  rewrite (bind_ret _ _ _ _ _ Hrpc). reflexivity.
Qed.

Lemma funding_step_no_result env address s :
  (forall i, (List.length (sent s) <= i < List.length (sent s) + 3)%nat ->
             attempt_fails (node env i "getAccountByAddress" (PList [PStr address])) = true) ->
  faucet_sent (snd (funding_step env address s)) = faucet_sent s.
Proof.
  intros Hall. unfold funding_step.
  destruct (String.eqb (NIMIQ_NETWORK env) "testnet"); [| reflexivity].
  unfold bind at 1. unfold log at 1.
  unfold bind at 1. rewrite needs_funds_no_result by exact Hall.
  reflexivity.
Qed.

Lemma submit_step_faucet env fuel address SIGKEY VOTEKEY ADDRESS_PRIVATE :
  preserves faucet_sent (submit_step env fuel address SIGKEY VOTEKEY ADDRESS_PRIVATE).
Proof.
  unfold submit_step.
  pose proof (wait_for_enough_stake_preserves faucet_sent env address
                (fun _ _ => eq_refl) (fun _ _ => eq_refl) (fun _ _ => eq_refl)
                (fun _ _ => eq_refl) (fun _ _ => eq_refl) fuel) as Hwait.
  pose proof (fun tx => send_raw_tx_preserves faucet_sent env tx
                (fun _ _ => eq_refl) (fun _ _ => eq_refl) (fun _ _ => eq_refl)
                (fun _ _ => eq_refl)) as Hsend.
  frame.
Qed.

(** C10. When the [getAccountByAddress] call hands back [None] (retries
    exhausted), [needs_funds] returns [False]; so when the node fails the
    three attempts of that call, a run of [activate_validator] never posts to
    the faucet, however far it gets. [needs_funds] returns [True] exactly when
    the call succeeded and the result reads as unfunded: ["data"] is [null]
    or absent, or the balance read from it (0 when the member is missing)
    equals 0. *)
Theorem needs_funds_false_without_result :
  forall env address s,
    (forall s1,
        rpc env "getAccountByAddress" (PList [PStr address]) s = (Ret PNone, s1) ->
        needs_funds env address s = (Ret false, s1)) /\
    ((forall i, (List.length (sent s) <= i < List.length (sent s) + 3)%nat ->
                attempt_fails (node env i "getAccountByAddress" (PList [PStr address])) = true) ->
     forall fuel, faucet_sent (snd (activate_validator env fuel address s)) = faucet_sent s) /\
    (forall s1,
        needs_funds env address s = (Ret true, s1) <->
        exists res,
          rpc env "getAccountByAddress" (PList [PStr address]) s = (Ret res, s1) /\
          reads_as_unfunded res).
Proof.
  intros env address s. split; [| split].
  - intros s1 Hrpc. rewrite needs_funds_unfold, (bind_ret _ _ _ _ _ Hrpc). reflexivity.
  - intros Hall fuel. rewrite activate_validator_unfold.
    unfold bind at 1. unfold log at 1.
    set (s1 := with_logs _ s).
    unfold bind at 1.
    pose proof (get_private_key_state env "/keys/signing_key.txt" s1) as E1.
    destruct (get_private_key env "/keys/signing_key.txt" s1) as [[SIGKEY | e |] s2];
      cbn [snd] in E1 |- *; subst s2; try reflexivity.
    unfold bind at 1.
    pose proof (get_vote_key_state env "/keys/vote_key.txt" s1) as E2.
    destruct (get_vote_key env "/keys/vote_key.txt" s1) as [[VOTEKEY | e |] s2];
      cbn [snd] in E2 |- *; subst s2; try reflexivity.
    unfold bind at 1.
    pose proof (get_private_key_state env "/keys/address.txt" s1) as E3.
    destruct (get_private_key env "/keys/address.txt" s1) as [[ADDRESS_PRIVATE | e |] s2];
      cbn [snd] in E3 |- *; subst s2; try reflexivity.
    unfold bind at 1.
    pose proof (funding_step_no_result env address s1 Hall) as Hfund.
    destruct (funding_step env address s1) as [[[] | e |] s2];
      cbn [snd] in Hfund |- *; try exact Hfund.
    rewrite submit_step_faucet. exact Hfund.
  - intros s1. rewrite needs_funds_unfold. split.
    + intros H. apply bind_inv_ret in H. destruct H as (res & s2 & Hrpc & H).
      pose proof (needs_funds_after_state res s2) as Hs. rewrite H in Hs. cbn in Hs. subst s2.
      exists res. split; [exact Hrpc |].
      apply (needs_funds_after_true res s1). exact H.
    + intros (res & Hrpc & Hun). rewrite (bind_ret _ _ _ _ _ Hrpc).
      apply needs_funds_after_true. exact Hun.
Qed.

Lemma needs_funds_false_without_result_witness :
  needs_funds dead_env "NQ07 0000" initial_state
  = (Ret false, snd (rpc dead_env "getAccountByAddress" (PList [PStr "NQ07 0000"]) initial_state))
  /\ faucet_sent (snd (activate_validator dead_env 5 "NQ07 0000" initial_state)) = [].
Proof.
  destruct (needs_funds_false_without_result dead_env "NQ07 0000" initial_state)
    as (Hfalse & Hfaucet & _).
  split.
  - apply Hfalse. reflexivity.
  - apply (Hfaucet (fun _ _ => eq_refl) 5%nat).
Defined.

(** ** The activated-count gauge *)

Lemma counts_once_bind {A} a (m : M A) (k : A -> M bool) :
  preserves ACTIVATED_AMOUNT m -> (forall x, counts_once a (k x)) -> counts_once a (bind m k).
Proof.
  intros Hm Hk s. unfold bind. specialize (Hm s).
  destruct (m s) as [[x | e |] s1]; cbn [snd] in Hm.
  - rewrite <- Hm. apply Hk.
  - right. split; [discriminate | exact Hm].
  - right. split; [discriminate | exact Hm].
Qed.

Lemma counts_once_inc a : counts_once a (activated_inc a ;; ret true).
Proof. intros s. left. split; reflexivity. Qed.

Lemma needs_funds_preserves_gauge env address :
  preserves ACTIVATED_AMOUNT (needs_funds env address).
Proof. unfold needs_funds. frame. Qed.

Lemma funding_step_preserves_gauge env address :
  preserves ACTIVATED_AMOUNT (funding_step env address).
Proof.
  unfold funding_step. pose proof (needs_funds_preserves_gauge env address). frame.
Qed.

Lemma get_private_key_preserves {X} (proj : State -> X) env file_path :
  preserves proj (get_private_key env file_path).
Proof. intros s. rewrite get_private_key_state. reflexivity. Qed.

Lemma get_vote_key_preserves {X} (proj : State -> X) env file_path :
  preserves proj (get_vote_key env file_path).
Proof. intros s. rewrite get_vote_key_state. reflexivity. Qed.

Lemma activate_validator_counts_once env fuel address :
  counts_once address (activate_validator env fuel address).
Proof.
  pose proof (wait_for_enough_stake_preserves ACTIVATED_AMOUNT env address
                (fun _ _ => eq_refl) (fun _ _ => eq_refl) (fun _ _ => eq_refl)
                (fun _ _ => eq_refl) (fun _ _ => eq_refl) fuel) as Hwait.
  pose proof (fun tx => send_raw_tx_preserves ACTIVATED_AMOUNT env tx
                (fun _ _ => eq_refl) (fun _ _ => eq_refl) (fun _ _ => eq_refl)
                (fun _ _ => eq_refl)) as Hsend.
  unfold activate_validator.
  apply counts_once_bind; [frame | intros _].
  apply counts_once_bind; [apply get_private_key_preserves | intros SIGKEY].
  apply counts_once_bind; [apply get_vote_key_preserves | intros VOTEKEY].
  apply counts_once_bind; [apply get_private_key_preserves | intros ADDRESS_PRIVATE].
  apply counts_once_bind; [apply funding_step_preserves_gauge | intros _].
  do 10 (apply counts_once_bind; [frame | intros ?]).
  apply counts_once_bind; [apply Hsend | intros _].
  apply counts_once_inc.
Qed.

Lemma preserves_grows {A} (m : M A) : preserves ACTIVATED_AMOUNT m -> grows m.
Proof. intros H s a. rewrite (H s). lia. Qed.

Lemma grows_bind {A B} (m : M A) (k : A -> M B) :
  grows m -> (forall x, grows (k x)) -> grows (bind m k).
Proof.
  intros Hm Hk s a. unfold bind. specialize (Hm s a).
  destruct (m s) as [[x | e |] s1]; cbn [snd] in Hm |- *; try exact Hm.
  specialize (Hk x s1 a). lia.
Qed.

Lemma counts_once_grows a (c : M bool) : counts_once a c -> grows c.
Proof.
  intros H s a'. destruct (H s) as [[_ E] | [_ E]]; rewrite E; [| lia].
  unfold bump. destruct (String.eqb a' a); lia.
Qed.

Lemma is_validator_active_preserves_gauge env address :
  preserves ACTIVATED_AMOUNT (is_validator_active env address).
Proof. unfold is_validator_active. frame. Qed.

Lemma get_epoch_number_preserves_gauge env :
  preserves ACTIVATED_AMOUNT (get_epoch_number env).
Proof. unfold get_epoch_number. frame. Qed.

Lemma get_stake_by_address_preserves_gauge env address :
  preserves ACTIVATED_AMOUNT (get_stake_by_address env address).
Proof. unfold get_stake_by_address. frame. Qed.

Lemma set_balance_prometheus_preserves_gauge env address :
  preserves ACTIVATED_AMOUNT (set_balance_prometheus env address).
Proof. unfold set_balance_prometheus, get_balance. frame. Qed.

Lemma monitor_preserves_gauge env address fuel :
  preserves ACTIVATED_AMOUNT (monitor_active_validator env fuel address).
Proof.
  pose proof (is_validator_active_preserves_gauge env address).
  pose proof (get_epoch_number_preserves_gauge env).
  pose proof (get_stake_by_address_preserves_gauge env address).
  pose proof (set_balance_prometheus_preserves_gauge env address).
  induction fuel as [| fuel IH]; cbn [monitor_active_validator]; frame.
Qed.

Lemma check_consensus_preserves_gauge env fuel :
  preserves ACTIVATED_AMOUNT (check_consensus env fuel).
Proof.
  unfold check_consensus. apply preserves_bind; [frame | intros _].
  generalize 0. induction fuel as [| fuel IH]; intros c; cbn [check_consensus_loop].
  - destruct (c <? 3); frame.
  - destruct (c <? 3); [| frame].
    apply preserves_bind; [unfold check_consensus_body; frame | intros c'; apply IH].
Qed.

Lemma check_and_activate_validator_grows env fuel address :
  grows (check_and_activate_validator env fuel address).
Proof.
  unfold check_and_activate_validator.
  apply grows_bind; [apply preserves_grows, is_validator_active_preserves_gauge | intros active].
  destruct active.
  - apply preserves_grows. pose proof (monitor_preserves_gauge env address fuel). frame.
  - apply grows_bind; [apply preserves_grows; frame | intros _].
    apply grows_bind; [| intros _; apply preserves_grows; frame].
    apply (counts_once_grows address), activate_validator_counts_once.
Qed.

Lemma main_loop_grows env fuel address cycles :
  grows (main_loop env cycles fuel address).
Proof.
  induction cycles as [| cycles IH]; cbn [main_loop].
  - apply preserves_grows. frame.
  - apply grows_bind;
      [apply preserves_grows, check_consensus_preserves_gauge | intros established].
    apply grows_bind.
    + destruct established;
        [apply check_and_activate_validator_grows | apply preserves_grows; frame].
    + intros _. apply grows_bind; [apply preserves_grows; frame | intros _; exact IH].
Qed.

(** C3, as stated, fails: the gauge is incremented although the send failed
    (three refused connections, [None] handed back), and although the
    response carried an ["error"] member. *)
Lemma activated_amount_after_failed_send :
  (let r := activate_validator (submit_env ConnectionFailed) 1 "NQ07 0000" initial_state in
   fst r = Ret true /\
   hd_error (sent (snd r)) = Some ("sendRawTransaction", PList [PStr "0a1b2c"]) /\
   hd_error (returned (snd r)) = Some PNone /\
   ACTIVATED_AMOUNT initial_state "NQ07 0000" = 0 /\
   ACTIVATED_AMOUNT (snd r) "NQ07 0000" = 1) /\
  (let r := activate_validator (submit_env rejected_send) 1 "NQ07 0000" initial_state in
   fst r = Ret true /\
   hd_error (returned (snd r))
   = Some (PDict [("error", PDict [("message", PStr "transaction rejected")])]) /\
   hd_error (logs (snd r))
   = Some (ERROR, "Error pushing transaction: {res['error']['message']}") /\
   ACTIVATED_AMOUNT (snd r) "NQ07 0000" = 1).
Proof. vm_compute. repeat split. Qed.

(** ** Failures that are not absorbed *)

(** No result from the node: the [else] branch logs and then returns three
    locals that were never bound. *)
Lemma get_stake_by_address_no_result env address s s1 :
  rpc env "getValidatorByAddress" (PList [PStr address]) s = (Ret PNone, s1) ->
  get_stake_by_address env address s =
  (Raise UnboundLocalError,
   with_logs ((ERROR, "Error getting stake information.") :: logs s1) s1).
Proof.
  intros Hrpc. unfold get_stake_by_address. rewrite (bind_ret _ _ _ _ _ Hrpc). reflexivity.
Qed.

(** A result without ["data"]: [res['data']] raises. *)
Lemma get_epoch_number_missing_data env s s1 d :
  rpc env "getEpochNumber" PNone s = (Ret (PDict d), s1) ->
  Py.lookup "data" d = None ->
  get_epoch_number env s = (Raise KeyError, s1).
Proof.
  intros Hrpc Hd. unfold get_epoch_number. rewrite (bind_ret _ _ _ _ _ Hrpc).
  unfold bind, lift. rewrite (subscript_missing d "data" Hd). reflexivity.
Qed.

(** A result without ["data"], or with a ["data"] object that has no
    ["balance"]: [res['data']['balance']] raises. *)
Lemma get_balance_missing_field env address s s1 d :
  rpc env "getAccountByAddress" (PList [PStr address]) s = (Ret (PDict d), s1) ->
  Py.lookup "error" d = None ->
  Py.lookup "data" d = None \/
  (exists v, Py.lookup "data" d = Some (PDict v) /\ Py.lookup "balance" v = None) ->
  get_balance env address s = (Raise KeyError, s1).
Proof.
  intros Hrpc He Hd. unfold get_balance. rewrite (bind_ret _ _ _ _ _ Hrpc).
  unfold bind at 1. unfold lift at 1. rewrite (has_missing d "error" He).
  unfold bind, lift.
  destruct Hd as [Hd | (v & Hd & Hb)].
  - rewrite (subscript_missing d "data" Hd). reflexivity.
  - rewrite (subscript_found d "data" _ Hd), (subscript_missing v "balance" Hb). reflexivity.
Qed.

(** C4 does not hold of the code: steady-state outcomes leave the top-level
    loop as uncaught exceptions.
    - the node is unreachable for one call while the validator is monitored:
      [get_stake_by_address] logs the error and then raises
      [UnboundLocalError], which ends [main_loop];
    - no result for [createNewValidatorTransaction]: [result.get] raises
      [AttributeError] in [activate_validator];
    - a result without ["data"]: [get_epoch_number] raises [KeyError];
    - a ["data"] object without ["balance"]: [get_balance], and with it
      [wait_for_enough_stake], raises [KeyError]. *)
Theorem steady_state_failures_escape :
  (let r := main_loop outage_env 3 5 "NQ07 0000" initial_state in
   fst r = Raise UnboundLocalError /\
   hd_error (logs (snd r)) = Some (ERROR, "Error getting stake information.") /\
   hd_error (returned (snd r)) = Some PNone) /\
  (let r := check_and_activate_validator no_transaction_env 5 "NQ07 0000" initial_state in
   fst r = Raise AttributeError /\
   hd_error (returned (snd r)) = Some PNone) /\
  fst (get_epoch_number (result_env (PDict [("metadata", PNone)])) initial_state)
  = Raise KeyError /\
  fst (wait_for_enough_stake (result_env (PDict [("data", PDict [("address", PStr "NQ07 0000")])]))
                             5 "NQ07 0000" initial_state)
  = Raise KeyError.
Proof. vm_compute. repeat split. Qed.

(** ** The consensus gate *)

Lemma run_length_nonneg history : 0 <= run_length history.
Proof.
  induction history as [| res older IH]; cbn [run_length]; [lia |].
  destruct (is_positive res); lia.
Qed.

Lemma last_three_positive_run_length history :
  last_three_positive history = true <-> 3 <= run_length history.
Proof.
  destruct history as [| a [| b [| c older]]]; cbn [last_three_positive run_length].
  - split; [discriminate | lia].
  - destruct (is_positive a); cbn -[Z.add]; split; try discriminate; lia.
  - destruct (is_positive a), (is_positive b); cbn -[Z.add]; split; try discriminate; lia.
  - pose proof (run_length_nonneg older).
    destruct (is_positive a), (is_positive b), (is_positive c); cbn -[Z.add]; split;
      try discriminate; try reflexivity; lia.
Qed.

(** [nimiq_request] notes exactly the values it returns. *)
Lemma nimiq_request_loop_returned env method params delay retries :
  forall s,
    match nimiq_request_loop env method params delay retries s with
    | (Ret res, s1) => returned s1 = res :: returned s
    | (_, s1) => returned s1 = returned s
    end.
Proof.
  induction retries as [| retries IH]; intros s; cbn [nimiq_request_loop].
  - reflexivity.
  - unfold bind at 1. unfold http_post at 1.
    set (s0 := with_sent _ s).
    assert (Hretry :
              match (log ERROR "Error: {err}. Retrying in {delay} seconds. Retries left: {retries}" ;;
                     sleep_ms (1000 * delay) ;;
                     nimiq_request_loop env method params delay retries) s0 with
              | (Ret res, s1) => returned s1 = res :: returned s
              | (_, s1) => returned s1 = returned s
              end).
    { unfold bind at 1. unfold log at 1. unfold bind at 1. unfold sleep_ms at 1.
      destruct (1000 * delay <? 0); [reflexivity |].
      match goal with
      | |- context [nimiq_request_loop _ _ _ _ _ ?st] => exact (IH st)
      end. }
    destruct (node env _ method _) as [| status body | status |];
      [exact Hretry | | exact Hretry | reflexivity].
    destruct (status_is_error status); [exact Hretry |].
    unfold bind at 1. unfold lift at 1.
    destruct (Py.get body "result" (PDict [])) as [result | e |]; try reflexivity.
    unfold bind, sleep_ms. cbn.
    destruct result; reflexivity.
Qed.

Lemma rpc_returned env method params s :
  match rpc env method params s with
  | (Ret res, s1) => returned s1 = res :: returned s
  | (_, s1) => returned s1 = returned s
  end.
Proof. apply nimiq_request_loop_returned. Qed.

(** One pass of the loop body on an observation the test accepts. *)
Lemma check_consensus_body_run env c s res s1 (b : bool) :
  rpc env "isConsensusEstablished" PNone s = (Ret res, s1) ->
  consensus_positive res = Ret b ->
  check_consensus_body env c s =
  (Ret (if b then c + 1 else 0),
   with_sleeps (5000 :: sleeps s1)
     (with_logs ((DEBUG, if b then "Consensus established {consensus_count} time(s)."
                         else "Consensus not established yet.") :: logs s1) s1)).
Proof.
  intros Hrpc Hb. unfold check_consensus_body.
  rewrite (bind_ret _ _ _ _ _ Hrpc). unfold bind at 1. unfold lift at 1. rewrite Hb.
  destruct b; reflexivity.
Qed.

(** One pass of the loop body on an observation on which the test raises. *)
Lemma check_consensus_body_raise env c s res s1 e :
  rpc env "isConsensusEstablished" PNone s = (Ret res, s1) ->
  consensus_positive res = Raise e ->
  check_consensus_body env c s = (Raise e, s1).
Proof.
  intros Hrpc Hb. unfold check_consensus_body.
  rewrite (bind_ret _ _ _ _ _ Hrpc). unfold bind at 1. unfold lift at 1. rewrite Hb.
  reflexivity.
Qed.

Lemma consensus_positive_not_pending res : consensus_positive res <> Pending.
Proof.
  unfold consensus_positive.
  destruct res as [| | | | | | d]; try discriminate.
  unfold Py.get. destruct (Py.lookup "data" d); discriminate.
Qed.

(** The loop, started with a counter that is the length of the current run of
    positive observations: it notes the observations [obs] it makes, and it
    returns [True] exactly when the run has reached three. *)
Lemma check_consensus_loop_run env :
  forall fuel c s seen,
    c = run_length seen -> c <= 3 ->
    exists obs,
      returned (snd (check_consensus_loop env fuel c s)) = obs ++ returned s /\
      (fst (check_consensus_loop env fuel c s) = Ret true <-> 3 <= run_length (obs ++ seen)) /\
      run_length (obs ++ seen) <= 3.
Proof.
  induction fuel as [| fuel IH]; intros c s seen Hc Hle; cbn [check_consensus_loop].
  - exists []. destruct (c <? 3) eqn:Hlt.
    + apply Z.ltb_lt in Hlt. cbn. repeat split; try lia. discriminate.
    + apply Z.ltb_ge in Hlt. cbn. repeat split; lia.
  - destruct (c <? 3) eqn:Hlt.
    2:{ apply Z.ltb_ge in Hlt. exists []. cbn. repeat split; lia. }
    apply Z.ltb_lt in Hlt.
    pose proof (rpc_returned env "isConsensusEstablished" PNone s) as Hret.
    destruct (rpc env "isConsensusEstablished" PNone s) as [[res | e |] s1] eqn:Hrpc.
    + destruct (consensus_positive res) as [b | e |] eqn:Hb.
      * rewrite (bind_ret _ _ _ _ _ (check_consensus_body_run env c s res s1 b Hrpc Hb)).
        set (s2 := with_sleeps _ _).
        assert (Hpos : is_positive res = b) by (unfold is_positive; rewrite Hb; destruct b; reflexivity).
        destruct (IH (if b then c + 1 else 0) s2 (res :: seen)) as (obs & Hobs & Hiff & Hbound).
        { cbn [run_length]. rewrite Hpos. destruct b; lia. }
        { destruct b; lia. }
        exists (obs ++ [res]). rewrite <- !app_assoc. cbn [app].
        split; [| split; assumption].
        rewrite Hobs. subst s2. cbn. rewrite Hret. reflexivity.
      * rewrite (bind_raise _ _ _ _ _ (check_consensus_body_raise env c s res s1 e Hrpc Hb)).
        exists [res]. cbn [snd fst app run_length]. unfold is_positive. rewrite Hb.
        repeat split; try lia; try assumption; discriminate.
      * exfalso. exact (consensus_positive_not_pending res Hb).
    + assert (Hbody : check_consensus_body env c s = (Raise e, s1))
        by (unfold check_consensus_body; rewrite (bind_raise _ _ _ _ _ Hrpc); reflexivity).
      rewrite (bind_raise _ _ _ _ _ Hbody).
      exists []. cbn. repeat split; try lia; try assumption. discriminate.
    + assert (Hbody : check_consensus_body env c s = (Pending, s1))
        by (unfold check_consensus_body; rewrite (bind_pending _ _ _ _ Hrpc); reflexivity).
      rewrite (bind_pending _ _ _ _ Hbody).
      exists []. cbn. repeat split; try lia; try assumption. discriminate.
Qed.

(** A pass of the loop body that returns saw an observation the test
    accepted, and set the counter from it. *)
Lemma check_consensus_body_next env c s c' s' :
  check_consensus_body env c s = (Ret c', s') ->
  exists res s1 b,
    rpc env "isConsensusEstablished" PNone s = (Ret res, s1) /\
    consensus_positive res = Ret b /\
    c' = (if b : bool then c + 1 else 0).
Proof.
  intros H.
  destruct (rpc env "isConsensusEstablished" PNone s) as [[res | e |] s1] eqn:Hrpc.
  - destruct (consensus_positive res) as [b | e |] eqn:Hb.
    + rewrite (check_consensus_body_run env c s res s1 b Hrpc Hb) in H.
      injection H as <- _. exists res, s1, b. repeat split. exact Hb.
    + rewrite (check_consensus_body_raise env c s res s1 e Hrpc Hb) in H. discriminate.
    + exfalso. exact (consensus_positive_not_pending res Hb).
  - unfold check_consensus_body in H. rewrite (bind_raise _ _ _ _ _ Hrpc) in H. discriminate.
  - unfold check_consensus_body in H. rewrite (bind_pending _ _ _ _ Hrpc) in H. discriminate.
Qed.

(** The consensus gate on the observations that the call hands back to it.
    - Transition: an observation for which the test
      [res is not None and res.get('data') == True] holds moves the counter
      from [c] to [c + 1]; one for which it does not hold sets it to 0.
    - A failed call ([None]), an object without ["data"], and a ["data"]
      that is [null] or [false] are all such negative observations.
    - Started inside the loop ([0 <= c < 3]) a pass leaves the counter in
      [[0, 3]], either at [c + 1] or at 0.
    - For every node, every state and every iteration budget, with [obs] the
      observations the run of [check_consensus] made (newest first): it
      reports [True] if and only if the three most recent observations are
      all positive, and it never reports [False]. *)
Theorem check_consensus_debounce :
  forall env fuel s,
    (forall c res s1 b,
        rpc env "isConsensusEstablished" PNone s = (Ret res, s1) ->
        consensus_positive res = Ret b ->
        fst (check_consensus_body env c s) = Ret (if b : bool then c + 1 else 0)) /\
    (consensus_positive PNone = Ret false /\
     (forall d, Py.lookup "data" d = None -> consensus_positive (PDict d) = Ret false) /\
     (forall d v, Py.lookup "data" d = Some v ->
                  consensus_positive (PDict d) = Ret (Py.eq_True v)) /\
     Py.eq_True PNone = false /\
     Py.eq_True (PBool false) = false /\
     Py.eq_True (PBool true) = true) /\
    (forall c c' s',
        0 <= c < 3 ->
        check_consensus_body env c s = (Ret c', s') ->
        0 <= c' <= 3 /\ (c' = c + 1 \/ c' = 0)) /\
    exists obs,
      returned (snd (check_consensus env fuel s)) = obs ++ returned s /\
      (fst (check_consensus env fuel s) = Ret true <-> last_three_positive obs = true) /\
      fst (check_consensus env fuel s) <> Ret false.
Proof.
  intros env fuel s. split; [| split; [| split]].
  - intros c res s1 b Hrpc Hb.
    rewrite (check_consensus_body_run env c s res s1 b Hrpc Hb). reflexivity.
  - repeat split.
    + intros d Hd. unfold consensus_positive. rewrite (get_missing d "data" _ Hd). reflexivity.
    + intros d v Hd. unfold consensus_positive. rewrite (get_found d "data" v _ Hd). reflexivity.
  - intros c c' s' Hc H.
    apply check_consensus_body_next in H. destruct H as (res & s1 & b & _ & _ & ->).
    destruct b; lia.
  - set (s0 := with_logs
                 ((INFO, "Waiting for consensus to be established, this may take a while...")
                    :: logs s) s).
    assert (Hrun : check_consensus env fuel s = check_consensus_loop env fuel 0 s0)
      by reflexivity.
    rewrite Hrun.
    destruct (check_consensus_loop_run env fuel 0 s0 []) as (obs & Hobs & Hiff & Hbound);
      [reflexivity | lia |].
    exists obs. rewrite app_nil_r in Hiff, Hbound.
    split; [exact Hobs | split].
    + rewrite last_three_positive_run_length. exact Hiff.
    + clear Hobs Hiff Hbound obs.
      assert (Hnot : forall n c st, fst (check_consensus_loop env n c st) <> Ret false).
      { induction n as [| n IHn]; intros c st; cbn [check_consensus_loop].
        - destruct (c <? 3); discriminate.
        - destruct (c <? 3); [| discriminate].
          unfold bind at 1.
          destruct (check_consensus_body env c st) as [[c1 | e |] st1];
            [apply IHn | discriminate | discriminate]. }
      apply Hnot.
Qed.

Lemma check_consensus_debounce_witness :
  fst (check_consensus flaky_env 10 initial_state) = Ret true /\
  List.length (sent (snd (check_consensus flaky_env 10 initial_state))) = 6%nat.
Proof.
  destruct (check_consensus_debounce flaky_env 10 initial_state)
    as (_ & _ & _ & obs & Hobs & Hiff & _).
  split; [| reflexivity].
  apply Hiff. cbn [returned initial_state] in Hobs. rewrite app_nil_r in Hobs.
  rewrite <- Hobs. reflexivity.
Defined.

(** ** binary64: conversion of integers, division by [1e5], the stake test *)

Lemma digits2_pos_size p : digits2_pos p = Pos.size p.
Proof. induction p; cbn; congruence. Qed.

Lemma digits_bounds p :
  2 ^ (Zpos (digits2_pos p) - 1) <= Zpos p < 2 ^ Zpos (digits2_pos p).
Proof.
  rewrite digits2_pos_size. split.
  - pose proof (Pos.size_le p) as H.
    assert (H' : 2 ^ Zpos (Pos.size p) <= 2 * Zpos p).
    { change (2 * Zpos p) with (Zpos p~0). rewrite <- Pos2Z.inj_pow. exact H. }
    replace (Zpos (Pos.size p)) with (Z.succ (Zpos (Pos.size p) - 1)) in H' by lia.
    rewrite Z.pow_succ_r in H' by lia. lia.
  - pose proof (Pos.size_gt p) as H.
    rewrite <- Pos2Z.inj_pow. exact H.
Qed.

Lemma digits_unique p n :
  2 ^ (n - 1) <= Zpos p < 2 ^ n -> Zpos (digits2_pos p) = n.
Proof.
  intros [Hlo Hhi]. pose proof (digits_bounds p) as [Dlo Dhi].
  set (d := Zpos (digits2_pos p)) in *.
  assert (0 < n).
  { destruct (Z.le_gt_cases n 0) as [Hn | Hn]; [| exact Hn].
    exfalso. assert (2 ^ n <= 2 ^ 0) by (apply Z.pow_le_mono_r; lia).
    change (2 ^ 0) with 1 in *. lia. }
  assert (d - 1 < n).
  { apply (Z.pow_lt_mono_r_iff 2); lia. }
  assert (n - 1 < d).
  { apply (Z.pow_lt_mono_r_iff 2); lia. }
  lia.
Qed.

Lemma iter_xO_mul p k : Zpos (Pos.iter xO p k) = Zpos p * 2 ^ Zpos k.
Proof.
  induction k using Pos.peano_ind.
  - cbn. lia.
  - rewrite Pos.iter_succ. rewrite Pos2Z.inj_succ, Z.pow_succ_r by lia.
    change (Zpos (Pos.iter xO p k)~0) with (2 * Zpos (Pos.iter xO p k)). rewrite IHk. ring.
Qed.

Lemma shr_record_of_loc_m m l : shr_m (shr_record_of_loc m l) = m.
Proof. destruct l as [| []]; reflexivity. Qed.

Lemma loc_of_shr_record_of_loc m l : loc_of_shr_record (shr_record_of_loc m l) = l.
Proof. destruct l as [| []]; reflexivity. Qed.

Lemma shr_1_m mrs : 0 <= shr_m mrs -> shr_m (shr_1 mrs) = shr_m mrs / 2.
Proof.
  destruct mrs as [m r s]. cbn [shr_m]. intros Hm.
  destruct m as [| p | p]; [reflexivity | | lia].
  destruct p as [p | p |]; cbn [shr_1 shr_m].
  - rewrite Pos2Z.inj_xI. apply Z.div_unique with (r := 1); lia.
  - rewrite Pos2Z.inj_xO. apply Z.div_unique with (r := 0); lia.
  - reflexivity.
Qed.

Lemma round_nearest_even_range m l :
  m <= round_nearest_even m l <= m + 1.
Proof.
  unfold round_nearest_even. destruct l as [| []]; try destruct (Z.even m); lia.
Qed.

Lemma fexp_normal e : -1021 <= e -> fexp 53 1024 e = e - 53.
Proof. intros H. unfold fexp, emin. lia. Qed.

Lemma shr_fexp_53 m e l :
  2 ^ 52 <= Zpos m < 2 ^ 53 -> -1074 <= e ->
  shr_fexp 53 1024 (Zpos m) e l = (shr_record_of_loc (Zpos m) l, e).
Proof.
  intros Hm He. unfold shr_fexp. cbn [Zdigits2].
  rewrite (digits_unique m 53) by exact Hm.
  rewrite fexp_normal by lia.
  replace (Z.sub (53 + e - 53) e) with 0 by lia. reflexivity.
Qed.

Lemma shr_fexp_54 m e l :
  2 ^ 53 <= Zpos m < 2 ^ 54 -> -1075 <= e ->
  shr_fexp 53 1024 (Zpos m) e l = (shr_1 (shr_record_of_loc (Zpos m) l), e + 1).
Proof.
  intros Hm He. unfold shr_fexp. cbn [Zdigits2].
  rewrite (digits_unique m 54) by exact Hm.
  rewrite fexp_normal by lia.
  replace (Z.sub (54 + e - 53) e) with 1 by lia. reflexivity.
Qed.

(** Rounding a mantissa of 53 bits. *)
Lemma binary_round_aux_53 s m e l :
  2 ^ 52 <= Zpos m < 2 ^ 53 -> -1074 <= e <= 970 ->
  exists m',
    Zpos m <= Zpos m' <= Zpos m + 1 /\
    Zpos m' = round_nearest_even (Zpos m) l /\
    binary_round_aux 53 1024 s (Zpos m) e l =
    if Zpos m' <? 2 ^ 53 then S754_finite s m' e
    else S754_finite s (Z.to_pos (2 ^ 52)) (e + 1).
Proof.
  intros Hm He. unfold binary_round_aux.
  rewrite shr_fexp_53 by lia.
  rewrite shr_record_of_loc_m, loc_of_shr_record_of_loc.
  pose proof (round_nearest_even_range (Zpos m) l) as Hr.
  destruct (round_nearest_even (Zpos m) l) as [| m' | m'] eqn:E; try lia.
  exists m'. split; [lia | split; [reflexivity |]].
  destruct (Zpos m' <? 2 ^ 53) eqn:Hlt.
  - apply Z.ltb_lt in Hlt. rewrite shr_fexp_53 by lia. cbn [shr_record_of_loc shr_m].
    replace (Z.leb e (Z.sub 1024 53)) with true by (symmetry; apply Z.leb_le; lia).
    reflexivity.
  - apply Z.ltb_ge in Hlt. assert (Hp : Zpos m' = 2 ^ 53) by lia.
    rewrite shr_fexp_54 by lia.
    injection Hp as ->. cbn [shr_record_of_loc shr_1 shr_m].
    replace (Z.leb (e + 1) (Z.sub 1024 53)) with true by (symmetry; apply Z.leb_le; lia).
    reflexivity.
Qed.

(** Rounding a mantissa of 54 bits: one bit is shifted out first. *)
Lemma binary_round_aux_54 s m e l :
  2 ^ 53 <= Zpos m < 2 ^ 54 -> -1075 <= e <= 969 ->
  exists m',
    Zpos m / 2 <= Zpos m' <= Zpos m / 2 + 1 /\
    binary_round_aux 53 1024 s (Zpos m) e l =
    if Zpos m' <? 2 ^ 53 then S754_finite s m' (e + 1)
    else S754_finite s (Z.to_pos (2 ^ 52)) (e + 2).
Proof.
  intros Hm He. unfold binary_round_aux.
  rewrite shr_fexp_54 by lia.
  set (mrs := shr_1 (shr_record_of_loc (Zpos m) l)).
  assert (Hh : shr_m mrs = Zpos m / 2).
  { unfold mrs. rewrite shr_1_m; rewrite shr_record_of_loc_m; [reflexivity | lia]. }
  assert (Hb : 2 ^ 52 <= Zpos m / 2 < 2 ^ 53).
  { split; [apply Z.div_le_lower_bound; lia | apply Z.div_lt_upper_bound; lia]. }
  pose proof (round_nearest_even_range (shr_m mrs) (loc_of_shr_record mrs)) as Hr.
  destruct (round_nearest_even (shr_m mrs) (loc_of_shr_record mrs)) as [| m' | m'] eqn:E;
    rewrite Hh in Hr; try lia.
  exists m'. split; [lia |].
  destruct (Zpos m' <? 2 ^ 53) eqn:Hlt.
  - apply Z.ltb_lt in Hlt. rewrite shr_fexp_53 by lia. cbn [shr_record_of_loc shr_m].
    replace (Z.leb (e + 1) (Z.sub 1024 53)) with true by (symmetry; apply Z.leb_le; lia).
    reflexivity.
  - apply Z.ltb_ge in Hlt. assert (Hp : Zpos m' = 2 ^ 53) by lia.
    rewrite shr_fexp_54 by lia.
    injection Hp as ->. cbn [shr_record_of_loc shr_1 shr_m].
    replace (Z.leb (e + 1 + 1) (Z.sub 1024 53)) with true by (symmetry; apply Z.leb_le; lia).
    replace (e + 1 + 1) with (e + 2) by lia.
    reflexivity.
Qed.

(** Rounding leaves an exact 53-bit mantissa alone. *)
Lemma binary_round_aux_exact s m e :
  2 ^ 52 <= Zpos m < 2 ^ 53 -> -1074 <= e <= 970 ->
  binary_round_aux 53 1024 s (Zpos m) e loc_Exact = S754_finite s m e.
Proof.
  intros Hm He.
  destruct (binary_round_aux_53 s m e loc_Exact Hm He) as (m' & _ & Hr & ->).
  cbn [round_nearest_even] in Hr. injection Hr as ->.
  replace (Zpos m <? 2 ^ 53) with true by (symmetry; apply Z.ltb_lt; lia).
  reflexivity.
Qed.

(** [float(n)] is exact for a positive [n] below [2^53]: the mantissa is [n]
    shifted up to 53 bits. *)
Lemma of_int_small p :
  Zpos p < 2 ^ 53 ->
  exists m e,
    Float64.of_int (Zpos p) = Some (S754_finite false m e) /\
    2 ^ 52 <= Zpos m < 2 ^ 53 /\
    e = Zpos (digits2_pos p) - 53 /\
    Zpos m = Zpos p * 2 ^ (- e).
Proof.
  intros Hp. pose proof (digits_bounds p) as [Dlo Dhi].
  set (d := Zpos (digits2_pos p)) in *.
  assert (Hd : 1 <= d <= 53).
  { split; [unfold d; lia |].
    destruct (Z.le_gt_cases d 53) as [H | H]; [exact H | exfalso].
    assert (2 ^ 53 <= 2 ^ (d - 1)) by (apply Z.pow_le_mono_r; lia). lia. }
  unfold Float64.of_int, Float64.prec, Float64.emax, binary_normalize, binary_round, shl_align.
  fold d. rewrite fexp_normal by lia.
  destruct (Z.sub (d + 0 - 53) 0) as [| k | k] eqn:Hk; try lia.
  - assert (d = 53) by lia.
    exists p, 0. rewrite binary_round_aux_exact by (try split; try lia; replace 52 with (d - 1) by lia; exact Dlo).
    repeat split; try lia. replace 52 with (d - 1) by lia; exact Dlo.
  - assert (Hke : Zpos k = 53 - d) by lia.
    assert (Hm : Zpos (Pos.iter xO p k) = Zpos p * 2 ^ (53 - d))
      by (rewrite iter_xO_mul, Hke; reflexivity).
    assert (Hrange : 2 ^ 52 <= Zpos (Pos.iter xO p k) < 2 ^ 53).
    { rewrite Hm. split.
      - replace 52 with ((d - 1) + (53 - d)) by lia. rewrite Z.pow_add_r by lia.
        apply Z.mul_le_mono_nonneg_r; [apply Z.pow_nonneg; lia | exact Dlo].
      - replace 53 with (d + (53 - d)) at 2 by lia. rewrite Z.pow_add_r by lia.
        apply Z.mul_lt_mono_pos_r; [apply Z.pow_pos_nonneg; lia | exact Dhi]. }
    exists (Pos.iter xO p k), (d - 53).
    replace (d + 0 - 53) with (d - 53) by lia.
    rewrite binary_round_aux_exact by (try exact Hrange; lia).
    repeat split; try lia. rewrite Hm. f_equal. f_equal. lia.
Qed.

Lemma f1e5_eq : Float64.f1e5 = S754_finite false c1e5 (-36).
Proof. reflexivity. Qed.

(** The quotient of a 53-bit mantissa by [1e5], before rounding. *)
Lemma div_1e5 s m e :
  2 ^ 52 <= Zpos m < 2 ^ 53 -> -1057 <= e ->
  Float64.div (S754_finite s m e) Float64.f1e5 =
  binary_round_aux 53 1024 s ((Zpos m * 2 ^ 53) / Zpos c1e5) (e - 17)
                   (new_location (Zpos c1e5) ((Zpos m * 2 ^ 53) mod Zpos c1e5)).
Proof.
  intros Hm He. rewrite f1e5_eq. unfold Float64.div, Float64.prec, Float64.emax, SFdiv.
  unfold SFdiv_core_binary. cbn [Zdigits2].
  rewrite (digits_unique m 53) by exact Hm.
  change (Zpos (digits2_pos c1e5)) with 53.
  replace (Z.sub (Z.add 53 e) (Z.add 53 (-36))) with (e + 36) by lia.
  rewrite fexp_normal by lia.
  replace (Z.min (e + 36 - 53) (Z.sub e (-36))) with (e - 17) by lia.
  replace (Z.sub (Z.sub e (-36)) (e - 17)) with 53 by lia.
  rewrite Z.shiftl_mul_pow2 by lia.
  unfold Z.div, Z.modulo.
  destruct (Z.div_eucl (Zpos m * 2 ^ 53) (Zpos c1e5)) as [q r].
  rewrite Bool.xorb_false_r. reflexivity.
Qed.

Lemma geb_finite m e :
  Float64.geb (S754_finite false m e) Float64.f100000 =
  if e <? -36 then false else if -36 <? e then true else (Zpos c1e5 <=? Zpos m).
Proof.
  unfold Float64.geb, Float64.f100000. rewrite f1e5_eq. unfold SFcompare.
  destruct (Z.compare_spec e (-36)) as [He | He | He].
  - subst e. rewrite Z.ltb_irrefl.
    rewrite Pos.compare_cont_spec. unfold Pos.switch_Eq.
    destruct (Pos.compare_spec m c1e5) as [Hm | Hm | Hm].
    + subst m. symmetry. apply Z.leb_le. apply Z.le_refl.
    + symmetry. apply Z.leb_gt. apply Pos2Z.pos_lt_pos. exact Hm.
    + symmetry. apply Z.leb_le. apply Z.lt_le_incl. apply Pos2Z.pos_lt_pos. exact Hm.
  - replace (e <? -36) with true by (symmetry; apply Z.ltb_lt; lia). reflexivity.
  - replace (e <? -36) with false by (symmetry; apply Z.ltb_ge; lia).
    replace (-36 <? e) with true by (symmetry; apply Z.ltb_lt; lia). reflexivity.
Qed.

(** The shape of a quotient by [1e5]: the exponent goes down by 17 or 16,
    and the mantissa is the integer quotient, halved if it has 54 bits, up to
    one unit of rounding. *)
Lemma div_1e5_shape m e :
  2 ^ 52 <= Zpos m < 2 ^ 53 -> -1057 <= e <= 971 ->
  let Q := (Zpos m * 2 ^ 53) / Zpos c1e5 in
  exists m' e',
    Float64.div (S754_finite false m e) Float64.f1e5 = S754_finite false m' e' /\
    2 ^ 52 <= Zpos m' < 2 ^ 53 /\
    ((Q < 2 ^ 53 /\ e' = e - 17 /\ Q <= Zpos m' <= Q + 1) \/
     (2 ^ 53 - 1 <= Q /\ e' = e - 16 /\ Zpos m' <= 5902958103587057)).
Proof.
  intros Hm He Q. rewrite div_1e5 by lia. fold Q.
  assert (HQ : 5902958103587056 <= Q < 11805916207174113).
  { unfold Q. split.
    - apply Z.div_le_lower_bound; [reflexivity |]. unfold c1e5. lia.
    - apply Z.div_lt_upper_bound; [reflexivity |]. unfold c1e5. lia. }
  destruct Q as [| q | q] eqn:EQ; try lia.
  destruct (Z.lt_ge_cases (Zpos q) (2 ^ 53)) as [Hlt | Hge].
  - destruct (binary_round_aux_53 false q (e - 17) (new_location (Zpos c1e5) ((Zpos m * 2 ^ 53) mod Zpos c1e5)))
      as (m' & Hr & _ & ->); [lia | lia |].
    destruct (Zpos m' <? 2 ^ 53) eqn:Hm'.
    + apply Z.ltb_lt in Hm'. exists m', (e - 17). split; [reflexivity |].
      split; [lia |]. left. lia.
    + exists (Z.to_pos (2 ^ 52)), (e - 17 + 1). split; [reflexivity |].
      split; [cbn; lia |]. right. apply Z.ltb_ge in Hm'.
      split; [lia | split; [lia | cbn; lia]].
  - destruct (binary_round_aux_54 false q (e - 17) (new_location (Zpos c1e5) ((Zpos m * 2 ^ 53) mod Zpos c1e5)))
      as (m' & Hr & ->); [lia | lia |].
    assert (Hhalf : 2 ^ 52 <= Zpos q / 2 <= 5902958103587056).
    { split; [apply Z.div_le_lower_bound; lia |].
      apply Z.lt_succ_r. apply Z.div_lt_upper_bound; lia. }
    replace (Zpos m' <? 2 ^ 53) with true by (symmetry; apply Z.ltb_lt; lia).
    exists m', (e - 17 + 1). split; [reflexivity |].
    split; [lia |]. right. repeat split; lia.
Qed.

(** The test [n / 1e5 >= 100000] on a double [n] with a 53-bit mantissa, by
    the exponent of [n]. *)
Lemma geb_div_1e5 m e :
  2 ^ 52 <= Zpos m < 2 ^ 53 -> -1057 <= e <= 971 ->
  Float64.geb (Float64.div (S754_finite false m e) Float64.f1e5) Float64.f100000 =
  if e <? -19 then false
  else if -19 <? e then true
  else (10 ^ 10 * 2 ^ 19 <=? Zpos m).
Proof.
  intros Hm He.
  destruct (div_1e5_shape m e Hm He) as (m' & e' & -> & Hm' & Hshape).
  rewrite geb_finite.
  destruct (Z.ltb_spec e (-19)) as [Hlo | Hlo].
  - (* below 2^34 *)
    destruct Hshape as [(HQ & -> & Hq) | (HQ & -> & Hq)].
    + replace (e - 17 <? -36) with true by (symmetry; apply Z.ltb_lt; lia). reflexivity.
    + destruct (Z.ltb_spec (e - 16) (-36)) as [H | H]; [reflexivity |].
      replace (-36 <? e - 16) with false by (symmetry; apply Z.ltb_ge; lia).
      apply Z.leb_gt. unfold c1e5. lia.
  - destruct (Z.ltb_spec (-19) e) as [Hhi | Hhi].
    + (* 2^35 and above *)
      destruct Hshape as [(HQ & -> & Hq) | (HQ & -> & Hq)].
      * replace (e - 17 <? -36) with false by (symmetry; apply Z.ltb_ge; lia).
        destruct (Z.ltb_spec (-36) (e - 17)) as [H | H]; [reflexivity |].
        assert (e = -18) by lia. subst e.
        apply Z.leb_le.
        assert (2 ^ 53 <= (Zpos m * 2 ^ 53) / Zpos c1e5); [| lia].
        apply Z.div_le_lower_bound; [reflexivity |]. unfold c1e5. lia.
      * replace (e - 16 <? -36) with false by (symmetry; apply Z.ltb_ge; lia).
        replace (-36 <? e - 16) with true by (symmetry; apply Z.ltb_lt; lia). reflexivity.
    + (* between 2^33 and 2^34 *)
      assert (e = -19) by lia. subst e.
      destruct (Z.leb_spec (10 ^ 10 * 2 ^ 19) (Zpos m)) as [Hz | Hz].
      * assert (HQ : Zpos c1e5 <= (Zpos m * 2 ^ 53) / Zpos c1e5).
        { apply Z.div_le_lower_bound; [reflexivity |]. unfold c1e5. lia. }
        destruct Hshape as [(_ & -> & Hq) | (HQ' & -> & Hq)].
        -- cbn [Z.sub Z.add Z.opp Z.pos_sub Z.ltb Z.compare Pos.compare Pos.compare_cont].
           apply Z.leb_le. lia.
        -- reflexivity.
      * assert (HQ : (Zpos m * 2 ^ 53) / Zpos c1e5 < Zpos c1e5 - 1).
        { apply Z.div_lt_upper_bound; [reflexivity |]. unfold c1e5. lia. }
        destruct Hshape as [(_ & -> & Hq) | (HQ' & -> & Hq)].
        -- cbn [Z.sub Z.add Z.opp Z.pos_sub Z.ltb Z.compare Pos.compare Pos.compare_cont].
           apply Z.leb_gt. lia.
        -- exfalso. (* a 54-bit or rounded-up quotient is excluded *)
           unfold c1e5 in *. lia.
Qed.

Lemma pow2_xO k : 2 ^ Zpos k~0 = 2 ^ Zpos k * 2 ^ Zpos k.
Proof.
  replace (Zpos k~0) with (Zpos k + Zpos k) by lia.
  apply Z.pow_add_r; lia.
Qed.

Lemma pow2_xI k : 2 ^ Zpos k~1 = 2 * (2 ^ Zpos k * 2 ^ Zpos k).
Proof.
  replace (Zpos k~1) with (1 + (Zpos k + Zpos k)) by lia.
  rewrite !Z.pow_add_r by lia. reflexivity.
Qed.

(** Shifting [k] bits out of a record divides the mantissa by [2^k]. *)
Lemma iter_shr_1_m k :
  forall mrs, 0 <= shr_m mrs ->
              shr_m (iter_pos shr_1 k mrs) = shr_m mrs / 2 ^ Zpos k.
Proof.
  assert (Hnn : forall a b, 0 <= a -> 0 < b -> 0 <= a / b)
    by (intros; apply Z.div_pos; lia).
  induction k as [k IH | k IH |]; intros mrs Hm; cbn [iter_pos].
  - assert (Hp : 0 < 2 ^ Zpos k) by (apply Z.pow_pos_nonneg; lia).
    assert (H1 : 0 <= shr_m (shr_1 mrs)) by (rewrite shr_1_m by exact Hm; apply Hnn; lia).
    assert (H2 : 0 <= shr_m (iter_pos shr_1 k (shr_1 mrs))) by (rewrite IH by exact H1; apply Hnn; lia).
    rewrite (IH _ H2), (IH _ H1), shr_1_m by exact Hm.
    rewrite !Z.div_div by lia. rewrite pow2_xI. f_equal; ring.
  - assert (Hp : 0 < 2 ^ Zpos k) by (apply Z.pow_pos_nonneg; lia).
    assert (H2 : 0 <= shr_m (iter_pos shr_1 k mrs)) by (rewrite IH by exact Hm; apply Hnn; lia).
    rewrite (IH _ H2), (IH _ Hm).
    rewrite !Z.div_div by lia. rewrite pow2_xO. reflexivity.
  - rewrite shr_1_m by exact Hm. reflexivity.
Qed.

(** [float(n)] for [n] of more than 53 bits, when it does not overflow: a
    53-bit mantissa and a positive exponent. *)
Lemma of_int_large p f :
  2 ^ 53 <= Zpos p ->
  Float64.of_int (Zpos p) = Some f ->
  exists m e, f = S754_finite false m e /\ 2 ^ 52 <= Zpos m < 2 ^ 53 /\ 1 <= e <= 971.
Proof.
  intros Hp. pose proof (digits_bounds p) as [Dlo Dhi].
  set (d := Zpos (digits2_pos p)) in *.
  assert (Hd : 54 <= d).
  { destruct (Z.le_gt_cases 54 d) as [H | H]; [exact H | exfalso].
    assert (2 ^ d <= 2 ^ 53) by (apply Z.pow_le_mono_r; lia). lia. }
  unfold Float64.of_int, Float64.prec, Float64.emax, binary_normalize, binary_round, shl_align.
  fold d. rewrite fexp_normal by lia.
  destruct (Z.sub (d + 0 - 53) 0) as [| k | k] eqn:Hk; try lia.
  unfold binary_round_aux, shr_fexp at 1. cbn [Zdigits2]. fold d.
  rewrite fexp_normal by lia.
  replace (Z.sub (d + 0 - 53) 0) with (Zpos k) by lia. cbn [shr].
  set (mrs := iter_pos shr_1 k (shr_record_of_loc (Zpos p) loc_Exact)).
  assert (Hm : shr_m mrs = Zpos p / 2 ^ Zpos k).
  { unfold mrs. rewrite iter_shr_1_m; cbn [shr_record_of_loc shr_m]; [reflexivity | lia]. }
  assert (Hk' : Zpos k = d - 53) by lia.
  assert (Hb : 2 ^ 52 <= shr_m mrs < 2 ^ 53).
  { rewrite Hm. assert (Hpk : 0 < 2 ^ Zpos k) by (apply Z.pow_pos_nonneg; lia). split.
    - apply Z.div_le_lower_bound; [exact Hpk |].
      rewrite <- Z.pow_add_r by lia. replace (Zpos k + 52) with (d - 1) by lia. exact Dlo.
    - apply Z.div_lt_upper_bound; [exact Hpk |].
      rewrite <- Z.pow_add_r by lia. replace (Zpos k + 53) with d by lia. exact Dhi. }
  pose proof (round_nearest_even_range (shr_m mrs) (loc_of_shr_record mrs)) as Hr.
  destruct (round_nearest_even (shr_m mrs) (loc_of_shr_record mrs)) as [| m' | m'] eqn:E;
    try lia.
  destruct (Z.lt_ge_cases (Zpos m') (2 ^ 53)) as [Hlt | Hge].
  - rewrite shr_fexp_53 by lia. cbn [shr_record_of_loc shr_m].
    destruct (Z.leb_spec (0 + Zpos k) (Z.sub 1024 53)) as [Hle | Hgt]; [| discriminate].
    intros H. injection H as <-. exists m', (0 + Zpos k). repeat split; lia.
  - assert (Hq : Zpos m' = 2 ^ 53) by lia.
    rewrite shr_fexp_54 by lia. injection Hq as ->.
    cbn [shr_record_of_loc shr_1 shr_m].
    destruct (Z.leb_spec (0 + Zpos k + 1) (Z.sub 1024 53)) as [Hle | Hgt]; [| discriminate].
    intros H. injection H as <-. exists 4503599627370496%positive, (0 + Zpos k + 1).
    repeat split; lia.
Qed.

(** Rounding keeps the sign. *)
Lemma binary_round_aux_sign s m e l :
  match binary_round_aux 53 1024 s m e l with
  | S754_zero s' | S754_infinity s' | S754_finite s' _ _ => s' = s
  | S754_nan => True
  end.
Proof.
  unfold binary_round_aux.
  destruct (shr_fexp 53 1024 m e l) as [mrs' e'].
  destruct (shr_fexp 53 1024 _ e' loc_Exact) as [mrs'' e''].
  destruct (shr_m mrs''); try destruct (Z.leb e'' (Z.sub 1024 53)); try reflexivity; exact I.
Qed.

(** Nothing that is negative, a zero or a NaN passes the test. *)
Lemma geb_not_positive f :
  match f with
  | S754_finite s _ _ | S754_infinity s => s = true
  | _ => True
  end ->
  Float64.geb f Float64.f100000 = false.
Proof.
  unfold Float64.geb, Float64.f100000. rewrite f1e5_eq.
  destruct f as [s | s | | s m e]; cbn [SFcompare]; intros H; subst; reflexivity.
Qed.

Lemma of_int_negative p f :
  Float64.of_int (Zneg p) = Some f ->
  Float64.geb (Float64.div f Float64.f1e5) Float64.f100000 = false.
Proof.
  unfold Float64.of_int, Float64.prec, Float64.emax, binary_normalize, binary_round.
  destruct (shl_align p 0 _) as [mz ez].
  pose proof (binary_round_aux_sign true (Zpos mz) ez loc_Exact) as Hs.
  destruct (binary_round_aux 53 1024 true (Zpos mz) ez loc_Exact) as [s | s | | s m e];
    intros H; try discriminate; injection H as <-; subst.
  - reflexivity.
  - reflexivity.
  - apply geb_not_positive. rewrite f1e5_eq.
    unfold Float64.div, Float64.prec, Float64.emax, SFdiv.
    destruct (SFdiv_core_binary 53 1024 (Zpos m) e (Zpos c1e5) (-36)) as [[mz' ez'] lz].
    pose proof (binary_round_aux_sign (xorb true false) mz' ez' lz) as Hs'.
    destruct (binary_round_aux 53 1024 (xorb true false) mz' ez' lz); try exact I; exact Hs'.
Qed.

(** The stake test on an integer balance: [z / 1e5 >= 100000] holds exactly
    from [10^10] on, for every [z] that converts to a double. *)
Lemma stake_test_threshold z f :
  Float64.of_int z = Some f ->
  Float64.geb (Float64.div f Float64.f1e5) Float64.f100000 = (10 ^ 10 <=? z).
Proof.
  destruct z as [| p | p]; intros Hf.
  - injection Hf as <-. reflexivity.
  - destruct (Z.lt_ge_cases (Zpos p) (2 ^ 53)) as [Hsmall | Hlarge].
    + destruct (of_int_small p Hsmall) as (m & e & Hconv & Hm & He & Hval).
      rewrite Hconv in Hf. injection Hf as <-.
      pose proof (digits_bounds p) as [Dlo Dhi].
      set (d := Zpos (digits2_pos p)) in *.
      assert (Hd : 1 <= d <= 53).
      { split; [unfold d; lia |].
        destruct (Z.le_gt_cases d 53) as [H | H]; [exact H | exfalso].
        assert (2 ^ 53 <= 2 ^ (d - 1)) by (apply Z.pow_le_mono_r; lia). lia. }
      rewrite geb_div_1e5 by lia.
      destruct (Z.ltb_spec e (-19)) as [Hlo | Hlo].
      * symmetry. apply Z.leb_gt.
        assert (2 ^ d <= 2 ^ 33) by (apply Z.pow_le_mono_r; lia). lia.
      * destruct (Z.ltb_spec (-19) e) as [Hhi | Hhi].
        -- symmetry. apply Z.leb_le.
           assert (2 ^ 34 <= 2 ^ (d - 1)) by (apply Z.pow_le_mono_r; lia). lia.
        -- assert (He' : - e = 19) by lia. rewrite Hval, He'.
           change (2 ^ 19) with 524288. change (10 ^ 10) with 10000000000.
           destruct (Z.leb_spec 10000000000 (Zpos p)); [apply Z.leb_le | apply Z.leb_gt]; lia.
    + destruct (of_int_large p f Hlarge Hf) as (m & e & -> & Hm & He).
      rewrite geb_div_1e5 by lia.
      replace (e <? -19) with false by (symmetry; apply Z.ltb_ge; lia).
      replace (-19 <? e) with true by (symmetry; apply Z.ltb_lt; lia).
      symmetry. apply Z.leb_le. lia.
  - rewrite (of_int_negative p f Hf). reflexivity.
Qed.

(** Every non-negative integer below [2^53] converts, exactly. *)
Lemma of_int_converts z :
  0 <= z < 2 ^ 53 -> exists f, Float64.of_int z = Some f.
Proof.
  intros Hz. destruct z as [| p | p]; try lia.
  - exists (S754_zero false). reflexivity.
  - destruct (of_int_small p) as (m & e & H & _); [lia |]. exists (S754_finite false m e). exact H.
Qed.

(** ** Waiting for the stake *)

(** [balance / 1e5] on an integer balance: the conversion, then the
    division. *)
Lemma truediv_int z :
  Py.truediv (PInt z) Float64.f1e5 =
  match Float64.of_int z with
  | Some f => Ret (Float64.div f Float64.f1e5)
  | None => Raise OverflowError
  end.
Proof. unfold Py.truediv. destruct (Float64.of_int z); reflexivity. Qed.

(** One pass of the loop body, given what [get_balance] returned. *)
Lemma wait_for_enough_stake_body_run env address s balance s1 :
  get_balance env address s = (Ret balance, s1) ->
  wait_for_enough_stake_body env address s =
  match balance with
  | PNone =>
      (Ret false,
       with_sleeps (60000 :: sleeps s1)
         (with_logs ((ERROR, "Error getting balance.") :: logs s1) s1))
  | _ =>
      match Py.truediv balance Float64.f1e5 with
      | Ret nim =>
          let s2 := with_CURRENT_BALANCE nim s1 in
          if Float64.geb nim Float64.f100000
          then (Ret true, with_logs ((INFO, "Balance reached: {balance} NIM.") :: logs s2) s2)
          else (Ret false,
                with_sleeps (60000 :: sleeps s2)
                  (with_logs
                     ((INFO, "Current balance: {balance} NIM. Waiting for balance to reach 100k NIM.")
                        :: logs s2) s2))
      | Raise e => (Raise e, s1)
      | Pending => (Pending, s1)
      end
  end.
Proof.
  intros Hbal. unfold wait_for_enough_stake_body. rewrite (bind_ret _ _ _ _ _ Hbal).
  destruct balance; try reflexivity;
    (unfold bind at 1; unfold lift at 1;
     destruct (Py.truediv _ Float64.f1e5) as [nim | e |]; try reflexivity;
     unfold bind, gauge_set, lift, py_float, log, sleep_ms, ret; cbn;
     destruct (Float64.geb nim Float64.f100000); reflexivity).
Qed.

(** A pass that ends the loop saw a balance that passes the test, and
    published it. *)
Lemma wait_for_enough_stake_body_done env address s s' :
  wait_for_enough_stake_body env address s = (Ret true, s') ->
  exists balance s1 nim,
    get_balance env address s = (Ret balance, s1) /\
    Py.truediv balance Float64.f1e5 = Ret nim /\
    Float64.geb nim Float64.f100000 = true /\
    CURRENT_BALANCE s' = nim.
Proof.
  intros H.
  destruct (get_balance env address s) as [[balance | e |] s1] eqn:Hbal.
  - rewrite (wait_for_enough_stake_body_run env address s balance s1 Hbal) in H.
    exists balance, s1.
    destruct balance; try discriminate;
      (destruct (Py.truediv _ Float64.f1e5) as [nim | e |]; try discriminate;
       exists nim; cbv zeta in H;
       destruct (Float64.geb nim Float64.f100000); try discriminate;
       injection H as <-; repeat split).
  - unfold wait_for_enough_stake_body in H. rewrite (bind_raise _ _ _ _ _ Hbal) in H.
    discriminate.
  - unfold wait_for_enough_stake_body in H. rewrite (bind_pending _ _ _ _ Hbal) in H.
    discriminate.
Qed.

Lemma wait_for_enough_stake_returns env address fuel :
  forall s s',
    wait_for_enough_stake env fuel address s = (Ret tt, s') ->
    exists s0 balance s1 nim,
      get_balance env address s0 = (Ret balance, s1) /\
      Py.truediv balance Float64.f1e5 = Ret nim /\
      Float64.geb nim Float64.f100000 = true /\
      CURRENT_BALANCE s' = nim.
Proof.
  induction fuel as [| fuel IH]; intros s s' H; cbn [wait_for_enough_stake] in H.
  - discriminate.
  - apply bind_inv_ret in H. destruct H as (done & s1 & Hbody & H).
    destruct done.
    + injection H as <-.
      destruct (wait_for_enough_stake_body_done env address s s1 Hbody)
        as (balance & s2 & nim & Hd).
      exists s, balance, s2, nim. exact Hd.
    + apply (IH s1 s' H).
Qed.

(** With the node unreachable, the wait goes on for as long as one lets it
    run. *)
Lemma wait_for_enough_stake_unreachable env address :
  (forall i, attempt_fails (node env i "getAccountByAddress" (PList [PStr address])) = true) ->
  forall fuel s, fst (wait_for_enough_stake env fuel address s) = Pending.
Proof.
  intros Hdown. induction fuel as [| fuel IH]; intros s; cbn [wait_for_enough_stake].
  - reflexivity.
  - assert (Hbal : get_balance env address s =
                   (Ret PNone,
                    after_giving_up
                      (after_failed_attempts 3 "getAccountByAddress" (PList [PStr address]) 5 s))).
    { unfold get_balance.
      assert (Hrpc : rpc env "getAccountByAddress" (PList [PStr address]) s =
                     (Ret PNone,
                      after_giving_up
                        (after_failed_attempts 3 "getAccountByAddress" (PList [PStr address]) 5 s))).
      { unfold rpc, nimiq_request. change (Z.to_nat 3) with 3%nat.
        apply nimiq_request_loop_all_failed; [lia | intros i _; apply Hdown]. }
      rewrite (bind_ret _ _ _ _ _ Hrpc). reflexivity. }
    rewrite (bind_ret _ _ _ _ _ (eq_trans (wait_for_enough_stake_body_run _ _ _ _ _ Hbal) eq_refl)).
    apply IH.
Qed.

(** The stake wait, on the balances that [get_balance] returns.
    - While the balance is unavailable ([get_balance] returned [None]) the
      loop logs, sleeps 60 s and goes round again.
    - While the fetched balance is an integer [0 <= z < 10^10] (below 100,000
      NIM), the loop publishes [z / 1e5], finds the test false, sleeps 60 s
      and goes round again.
    - The loop returns only from a pass in which the balance just fetched, in
      display units, passed the test [>= 100000]; that value is then in the
      gauge, and an integer balance is then at least [10^10 = 100000 * 1e5]
      smallest units.
    - A fetched integer balance of at least [10^10] that converts to a double
      ends the loop in that pass.
    - There is no timeout: with the node unreachable the loop is still
      running after any number of passes. *)
Theorem wait_for_enough_stake_threshold :
  forall env address,
    (forall fuel s s1,
        get_balance env address s = (Ret PNone, s1) ->
        wait_for_enough_stake env (S fuel) address s =
        wait_for_enough_stake env fuel address
          (with_sleeps (60000 :: sleeps s1)
             (with_logs ((ERROR, "Error getting balance.") :: logs s1) s1))) /\
    (forall fuel s s1 z,
        get_balance env address s = (Ret (PInt z), s1) ->
        0 <= z < 10 ^ 10 ->
        exists nim,
          Py.truediv (PInt z) Float64.f1e5 = Ret nim /\
          Float64.geb nim Float64.f100000 = false /\
          wait_for_enough_stake env (S fuel) address s =
          wait_for_enough_stake env fuel address
            (let s2 := with_CURRENT_BALANCE nim s1 in
             with_sleeps (60000 :: sleeps s2)
               (with_logs
                  ((INFO, "Current balance: {balance} NIM. Waiting for balance to reach 100k NIM.")
                     :: logs s2) s2))) /\
    (forall fuel s s',
        wait_for_enough_stake env fuel address s = (Ret tt, s') ->
        exists s0 balance s1 nim,
          get_balance env address s0 = (Ret balance, s1) /\
          Py.truediv balance Float64.f1e5 = Ret nim /\
          Float64.geb nim Float64.f100000 = true /\
          CURRENT_BALANCE s' = nim /\
          (forall z, balance = PInt z -> 10 ^ 10 <= z)) /\
    (forall fuel s s1 z f,
        get_balance env address s = (Ret (PInt z), s1) ->
        10 ^ 10 <= z ->
        Float64.of_int z = Some f ->
        fst (wait_for_enough_stake env (S fuel) address s) = Ret tt /\
        CURRENT_BALANCE (snd (wait_for_enough_stake env (S fuel) address s))
        = Float64.div f Float64.f1e5) /\
    ((forall i, attempt_fails (node env i "getAccountByAddress" (PList [PStr address])) = true) ->
     forall fuel s, fst (wait_for_enough_stake env fuel address s) = Pending).
Proof.
  intros env address. split; [| split; [| split; [| split]]].
  - intros fuel s s1 Hbal. cbn [wait_for_enough_stake].
    rewrite (bind_ret _ _ _ _ _ (eq_trans (wait_for_enough_stake_body_run _ _ _ _ _ Hbal) eq_refl)).
    reflexivity.
  - intros fuel s s1 z Hbal Hz.
    destruct (of_int_converts z) as [f Hf]; [lia |].
    exists (Float64.div f Float64.f1e5).
    assert (Hdiv : Py.truediv (PInt z) Float64.f1e5 = Ret (Float64.div f Float64.f1e5))
      by (rewrite truediv_int, Hf; reflexivity).
    assert (Htest : Float64.geb (Float64.div f Float64.f1e5) Float64.f100000 = false).
    { rewrite (stake_test_threshold z f Hf). apply Z.leb_gt. lia. }
    split; [exact Hdiv | split; [exact Htest |]].
    cbn [wait_for_enough_stake].
    pose proof (wait_for_enough_stake_body_run _ _ _ _ _ Hbal) as Hbody.
    cbv beta iota in Hbody. rewrite Hdiv in Hbody. cbv zeta in Hbody. rewrite Htest in Hbody.
    rewrite (bind_ret _ _ _ _ _ Hbody). reflexivity.
  - intros fuel s s' H.
    destruct (wait_for_enough_stake_returns env address fuel s s' H)
      as (s0 & balance & s1 & nim & Hbal & Hdiv & Htest & Hgauge).
    exists s0, balance, s1, nim. repeat split; try assumption.
    intros z ->. rewrite truediv_int in Hdiv.
    destruct (Float64.of_int z) as [f |] eqn:Hf; [| discriminate].
    injection Hdiv as <-. rewrite (stake_test_threshold z f Hf) in Htest.
    apply Z.leb_le. exact Htest.
  - intros fuel s s1 z f Hbal Hz Hf. cbn [wait_for_enough_stake].
    assert (Htest : Float64.geb (Float64.div f Float64.f1e5) Float64.f100000 = true).
    { rewrite (stake_test_threshold z f Hf). apply Z.leb_le. exact Hz. }
    pose proof (wait_for_enough_stake_body_run _ _ _ _ _ Hbal) as Hbody.
    cbv beta iota in Hbody. rewrite truediv_int, Hf in Hbody. cbv zeta in Hbody.
    rewrite Htest in Hbody.
    rewrite (bind_ret _ _ _ _ _ Hbody). split; reflexivity.
  - apply wait_for_enough_stake_unreachable.
Qed.

Lemma wait_for_enough_stake_threshold_witness :
  fst (wait_for_enough_stake funded_env 1 "NQ07 0000" initial_state) = Ret tt /\
  CURRENT_BALANCE (snd (wait_for_enough_stake funded_env 1 "NQ07 0000" initial_state))
  = Float64.f100000.
Proof.
  destruct (wait_for_enough_stake_threshold funded_env "NQ07 0000")
    as (_ & _ & _ & Hreach & _).
  destruct (Hreach 0%nat initial_state
                   (snd (get_balance funded_env "NQ07 0000" initial_state))
                   10000000000 (S754_finite false 5242880000000000 (-19))
                   eq_refl ltac:(discriminate) eq_refl) as [Hret Hgauge].
  split; [exact Hret | rewrite Hgauge; reflexivity].
Defined.

(** ** Unit scaling *)

(** [set_balance_prometheus], given what [get_balance] returned. *)
Lemma set_balance_prometheus_run env address s balance s1 :
  get_balance env address s = (Ret balance, s1) ->
  set_balance_prometheus env address s =
  match balance with
  | PNone => (Ret PNone, with_logs ((ERROR, "Error getting balance.") :: logs s1) s1)
  | _ =>
      match Py.truediv balance Float64.f1e5 with
      | Ret nim => (Ret (PFloat nim), with_CURRENT_BALANCE nim s1)
      | Raise e => (Raise e, s1)
      | Pending => (Pending, s1)
      end
  end.
Proof.
  intros Hbal. unfold set_balance_prometheus. rewrite (bind_ret _ _ _ _ _ Hbal).
  destruct balance; try reflexivity;
    (unfold bind at 1; unfold lift at 1;
     destruct (Py.truediv _ Float64.f1e5) as [nim | e |]; reflexivity).
Qed.

(** C7, as stated, fails: the integer [2^1024] is a non-negative raw balance,
    but Python cannot convert it to a float; [balance / 1e5] raises
    [OverflowError] and the gauge keeps its old value, in
    [set_balance_prometheus] and in [wait_for_enough_stake] alike. *)
Lemma balance_too_large_for_a_double :
  let z := 2 ^ 1024 in
  0 <= z /\
  fst (get_balance (balance_env z) "NQ07 0000" initial_state) = Ret (PInt z) /\
  (let r := set_balance_prometheus (balance_env z) "NQ07 0000" initial_state in
   fst r = Raise OverflowError /\ CURRENT_BALANCE (snd r) = CURRENT_BALANCE initial_state) /\
  (let r := wait_for_enough_stake (balance_env z) 1 "NQ07 0000" initial_state in
   fst r = Raise OverflowError /\ CURRENT_BALANCE (snd r) = CURRENT_BALANCE initial_state).
Proof. vm_compute. repeat split; discriminate. Qed.

(** C7, amended. For every non-negative integer raw balance [z] that Python
    converts to a double [f] ([float(z)] does not overflow), the value
    published in the current-balance gauge, by [set_balance_prometheus] and
    by a pass of [wait_for_enough_stake], is the double quotient [f / 1e5].
    Every positive [z] below [2^53] converts, and exactly: the double is
    [m * 2^e] with [m = z * 2^(-e)]. A raw balance of 10,000,000 is
    published as [100.0]. A balance that does not convert raises
    [OverflowError] and nothing is published. *)
Theorem balance_gauge_scaling :
  forall env address s s1 z,
    get_balance env address s = (Ret (PInt z), s1) ->
    0 <= z ->
    (forall f,
        Float64.of_int z = Some f ->
        set_balance_prometheus env address s =
        (Ret (PFloat (Float64.div f Float64.f1e5)),
         with_CURRENT_BALANCE (Float64.div f Float64.f1e5) s1) /\
        CURRENT_BALANCE (snd (wait_for_enough_stake_body env address s))
        = Float64.div f Float64.f1e5) /\
    (0 < z < 2 ^ 53 ->
     exists m e,
       Float64.of_int z = Some (S754_finite false m e) /\ e <= 0 /\ Zpos m = z * 2 ^ (- e)) /\
    (z = 10000000 ->
     CURRENT_BALANCE (snd (set_balance_prometheus env address s)) = Float64.f100 /\
     CURRENT_BALANCE (snd (wait_for_enough_stake_body env address s)) = Float64.f100) /\
    (Float64.of_int z = None ->
     set_balance_prometheus env address s = (Raise OverflowError, s1) /\
     wait_for_enough_stake_body env address s = (Raise OverflowError, s1)).
Proof.
  intros env address s s1 z Hbal Hz.
  pose proof (set_balance_prometheus_run env address s (PInt z) s1 Hbal) as Hset.
  pose proof (wait_for_enough_stake_body_run env address s (PInt z) s1 Hbal) as Hwait.
  cbv beta iota in Hset, Hwait. rewrite truediv_int in Hset, Hwait.
  assert (Hconv : forall f, Float64.of_int z = Some f ->
            set_balance_prometheus env address s =
            (Ret (PFloat (Float64.div f Float64.f1e5)),
             with_CURRENT_BALANCE (Float64.div f Float64.f1e5) s1) /\
            CURRENT_BALANCE (snd (wait_for_enough_stake_body env address s))
            = Float64.div f Float64.f1e5).
  { intros f Hf. rewrite Hf in Hset, Hwait. split; [exact Hset |].
    rewrite Hwait. cbv zeta.
    destruct (Float64.geb (Float64.div f Float64.f1e5) Float64.f100000); reflexivity. }
  split; [exact Hconv | split; [| split]].
  - intros Hsmall. destruct z as [| p | p]; try lia.
    destruct (of_int_small p) as (m & e & Hf & Hm & He & Hval); [lia |].
    exists m, e. split; [exact Hf | split; [| exact Hval]].
    pose proof (digits_bounds p) as [Dlo _].
    destruct (Z.le_gt_cases e 0) as [Hle | Hgt]; [exact Hle | exfalso].
    assert (2 ^ 53 <= 2 ^ (Zpos (digits2_pos p) - 1)) by (apply Z.pow_le_mono_r; lia).
    lia.
  - intros ->.
    destruct (Hconv (S754_finite false 5368709120000000 (-29)) eq_refl) as [H1 H2].
    rewrite H1, H2. split; reflexivity.
  - intros Hnone. rewrite Hnone in Hset, Hwait. split; assumption.
Qed.

Lemma balance_gauge_scaling_witness :
  CURRENT_BALANCE (snd (set_balance_prometheus (balance_env 10000000) "NQ07 0000" initial_state))
  = S754_finite false 7036874417766400 (-46).
Proof.
  destruct (balance_gauge_scaling
              (balance_env 10000000) "NQ07 0000" initial_state
              (snd (get_balance (balance_env 10000000) "NQ07 0000" initial_state))
              10000000 eq_refl ltac:(discriminate)) as (_ & _ & Hhundred & _).
  destruct (Hhundred eq_refl) as [H _]. rewrite H. reflexivity.
Defined.

(** * Further properties of the script *)

(** ** The RPC client: bounds and recovery *)

(** After [j] failed attempts the loop stands where it would with [j] fewer
    retries. *)
Lemma nimiq_request_loop_after_failures env method params delay :
  0 <= delay ->
  forall j n s,
    (forall i, (List.length (sent s) <= i < List.length (sent s) + j)%nat ->
               attempt_fails (node env i method (Py.or_else params (PList []))) = true) ->
    nimiq_request_loop env method params delay (j + n) s =
    nimiq_request_loop env method params delay n (after_failed_attempts j method params delay s).
Proof.
  intros Hd. induction j as [| j IH]; intros n s Hall.
  - reflexivity.
  - cbn [Nat.add]. rewrite nimiq_request_loop_failed by (try apply Hall; lia).
    cbn [after_failed_attempts]. apply IH.
    intros i Hi. apply Hall. cbn in Hi. lia.
Qed.

(** A 2xx response whose body is not an object: [.get] raises, and nothing
    catches it. *)
Lemma nimiq_request_loop_not_object env method params delay n s status body :
  node env (List.length (sent s)) method (Py.or_else params (PList [])) = Response status body ->
  status_is_error status = false ->
  (forall d, body <> PDict d) ->
  nimiq_request_loop env method params delay (S n) s =
  (Raise AttributeError, with_sent ((method, Py.or_else params (PList [])) :: sent s) s).
Proof.
  intros E Hs Hb. cbn [nimiq_request_loop].
  unfold bind at 1. unfold http_post at 1. rewrite E, Hs.
  destruct body; try reflexivity. exfalso. exact (Hb _ eq_refl).
Qed.

Lemma repeat_app_cons {A} (x : A) k l : repeat x k ++ x :: l = x :: repeat x k ++ l.
Proof. induction k as [| k IH]; cbn; [reflexivity | rewrite IH; reflexivity]. Qed.

(** A POST that never returns: the call waits with it. *)
Lemma nimiq_request_loop_no_reply env method params delay n s :
  node env (List.length (sent s)) method (Py.or_else params (PList [])) = NoReply ->
  nimiq_request_loop env method params delay (S n) s =
  (Pending, with_sent ((method, Py.or_else params (PList [])) :: sent s) s).
Proof.
  intros E. cbn [nimiq_request_loop].
  unfold bind at 1. unfold http_post at 1. rewrite E. reflexivity.
Qed.

Lemma nimiq_request_loop_bounded env method params delay :
  0 <= delay ->
  forall n s,
    exists k,
      (k <= n)%nat /\
      sent (snd (nimiq_request_loop env method params delay n s)) =
        repeat (method, Py.or_else params (PList [])) k ++ sent s /\
      (fst (nimiq_request_loop env method params delay n s) = Pending ->
       exists i, (i < k)%nat /\
                 node env (List.length (sent s) + i) method (Py.or_else params (PList []))
                 = NoReply) /\
      (fst (nimiq_request_loop env method params delay n s) = Ret PNone ->
       k = n /\
       forall i, (i < k)%nat ->
                 attempt_fails (node env (List.length (sent s) + i) method
                                     (Py.or_else params (PList []))) = true) /\
      (forall v, fst (nimiq_request_loop env method params delay n s) = Ret v ->
                 List.length (sleeps (snd (nimiq_request_loop env method params delay n s)))
                 = (k + List.length (sleeps s))%nat).
Proof.
  intros Hd. induction n as [| n IH]; intros s.
  - exists 0%nat. cbn. repeat split; try lia; try discriminate.
  - destruct (attempt_fails (node env (List.length (sent s)) method (Py.or_else params (PList []))))
      eqn:Hf.
    + rewrite (nimiq_request_loop_failed env method params delay n s Hd Hf).
      destruct (IH (after_failed_attempt method params delay s))
        as (k & Hk & Hsent & Hpend & Hnone & Hsleep).
      exists (S k). split; [lia | split; [| split; [| split]]].
      * rewrite Hsent. cbn [after_failed_attempt sent with_sleeps with_logs with_sent repeat].
        apply repeat_app_cons.
      * intros H. destruct (Hpend H) as (i & Hi & Hnode). exists (S i). split; [lia |].
        cbn in Hnode.
        replace (List.length (sent s) + S i)%nat with (S (List.length (sent s) + i)) by lia.
        exact Hnode.
      * intros H. destruct (Hnone H) as [-> Hall]. split; [reflexivity |].
        intros [| i] Hi.
        -- rewrite Nat.add_0_r. exact Hf.
        -- specialize (Hall i ltac:(lia)). cbn in Hall.
           replace (List.length (sent s) + S i)%nat with (S (List.length (sent s) + i)) by lia.
           exact Hall.
      * intros v H. rewrite (Hsleep v H). cbn. lia.
    + exists 1%nat.
      destruct (node env (List.length (sent s)) method (Py.or_else params (PList [])))
        as [| status body | status |] eqn:E; cbn [attempt_fails] in Hf;
        [discriminate | | discriminate |].
      * destruct body as [| b | z | f | str | l | d];
          try (rewrite (nimiq_request_loop_not_object env method params delay n s status _ E Hf)
                 by discriminate;
               cbn; repeat split; try lia; discriminate).
        rewrite (nimiq_request_loop_replied env method params delay n s status d E Hf).
        cbv zeta.
        destruct (Py.lookup "result" d) as [[] |]; cbn; repeat split; try lia; discriminate.
      * rewrite (nimiq_request_loop_no_reply env method params delay n s E).
        cbn. repeat split; try lia; try discriminate.
        intros _. exists 0%nat. split; [lia |]. rewrite Nat.add_0_r. exact E.
Qed.

(** X1. One call of [nimiq_request] posts at most [retries] times, every
    time the same method with [params or []]. It returns [None] only after
    [retries] attempts that all failed (the POST raised, the status was 4xx
    or 5xx, or the body was not JSON). It is left without an outcome only
    when one of its POSTs never returns. When it returns, it has paused once
    per request. *)
Theorem nimiq_request_posts_at_most_retries :
  forall env method params retries delay s,
    0 <= delay ->
    let r := nimiq_request env method params retries delay s in
    exists k,
      (k <= Z.to_nat retries)%nat /\
      sent (snd r) = repeat (method, Py.or_else params (PList [])) k ++ sent s /\
      (fst r = Pending ->
       exists i, (i < k)%nat /\
                 node env (List.length (sent s) + i) method (Py.or_else params (PList []))
                 = NoReply) /\
      (fst r = Ret PNone ->
       k = Z.to_nat retries /\
       forall i, (i < k)%nat ->
                 attempt_fails (node env (List.length (sent s) + i) method
                                     (Py.or_else params (PList []))) = true) /\
      (forall v, fst r = Ret v ->
                 List.length (sleeps (snd r)) = (k + List.length (sleeps s))%nat).
Proof.
  intros env method params retries delay s Hd. unfold nimiq_request.
  apply nimiq_request_loop_bounded. exact Hd.
Qed.

Lemma nimiq_request_posts_at_most_retries_witness :
  fst (nimiq_request not_json_env "getAddress" PNone 3 5 initial_state) = Ret PNone /\
  sent (snd (nimiq_request not_json_env "getAddress" PNone 3 5 initial_state))
  = repeat ("getAddress", PList []) 3.
Proof.
  destruct (nimiq_request_posts_at_most_retries
              not_json_env "getAddress" PNone 3 5 initial_state
              ltac:(discriminate)) as (k & _ & Hsent & _ & Hnone & _).
  assert (H : fst (nimiq_request not_json_env "getAddress" PNone 3 5 initial_state) = Ret PNone)
    by reflexivity.
  destruct (Hnone H) as [-> _].
  split; [exact H | rewrite Hsent; apply app_nil_r].
Defined.

(** X2. A call recovers from transient failures: when [j] attempts fail
    ([j] below [retries]) and the next one is answered 2xx with a result that
    is not [null], the call returns that result after [j + 1] posts, having
    slept [delay] after each failure and 0.5 s after the answer. *)
Theorem nimiq_request_recovers :
  forall env method params retries delay s j status d v,
    0 <= delay ->
    (j < Z.to_nat retries)%nat ->
    (forall i, (List.length (sent s) <= i < List.length (sent s) + j)%nat ->
               attempt_fails (node env i method (Py.or_else params (PList []))) = true) ->
    node env (List.length (sent s) + j) method (Py.or_else params (PList []))
    = Response status (PDict d) ->
    status_is_error status = false ->
    Py.lookup "result" d = Some v ->
    v <> PNone ->
    let r := nimiq_request env method params retries delay s in
    fst r = Ret v /\
    sent (snd r) = repeat (method, Py.or_else params (PList [])) (S j) ++ sent s /\
    sleeps (snd r) = 500 :: repeat (1000 * delay) j ++ sleeps s /\
    returned (snd r) = v :: returned s.
Proof.
  intros env method params retries delay s j status d v Hd Hj Hfail Hreply Hstatus Hres Hv.
  unfold nimiq_request.
  replace (Z.to_nat retries) with (j + S (Z.to_nat retries - S j))%nat by lia.
  rewrite (nimiq_request_loop_after_failures env method params delay Hd j _ s Hfail).
  set (s' := after_failed_attempts j method params delay s).
  assert (Hs' : sent s' = repeat (method, Py.or_else params (PList [])) j ++ sent s /\
                sleeps s' = repeat (1000 * delay) j ++ sleeps s /\
                returned s' = returned s).
  { unfold s'. clear. revert s. induction j as [| j IH]; intros s; [repeat split |].
    cbn [after_failed_attempts]. destruct (IH (after_failed_attempt method params delay s))
      as (H1 & H2 & H3).
    rewrite H1, H2, H3. cbn [after_failed_attempt sent sleeps returned with_sleeps with_logs
                             with_sent repeat].
    rewrite !repeat_app_cons. repeat split. }
  destruct Hs' as (Hsent & Hsleeps & Hret).
  assert (Hlen : List.length (sent s') = (List.length (sent s) + j)%nat).
  { rewrite Hsent, length_app, repeat_length. lia. }
  rewrite (nimiq_request_loop_replied env method params delay _ s' status d);
    [| rewrite Hlen; exact Hreply | exact Hstatus].
  cbv zeta. rewrite Hres.
  destruct v; try contradiction; cbn; rewrite ?Hsent, ?Hsleeps, ?Hret; repeat split.
Qed.

Lemma nimiq_request_recovers_witness :
  fst (nimiq_request outage_recovers_env "getEpochNumber" PNone 3 5 initial_state)
  = Ret (PDict [("data", PInt 42)]).
Proof.
  destruct (nimiq_request_recovers
              outage_recovers_env "getEpochNumber" PNone 3 5 initial_state 2%nat 200
              [("jsonrpc", PStr "2.0"); ("result", PDict [("data", PInt 42)]); ("id", PInt 1)]
              (PDict [("data", PInt 42)])) as [H _];
    first [ exact H
          | reflexivity
          | discriminate
          | cbn; lia
          | intros i Hi; cbn in Hi; destruct i as [| [| i]]; [reflexivity | reflexivity | lia] ].
Defined.

(** ** Strings: [in], [split] and [strip] *)

Lemma contains_unfold sub s :
  Py.contains sub s =
  if prefix sub s then true
  else match s with
       | EmptyString => false
       | String _ s' => Py.contains sub s'
       end.
Proof. destruct s; reflexivity. Qed.

Lemma prefix_nil s : prefix "" s = true.
Proof. destruct s; reflexivity. Qed.

Lemma prefix_append sep rest : prefix sep (sep ++ rest)%string = true.
Proof.
  induction sep as [| c sep IH]; cbn [String.append].
  - apply prefix_nil.
  - cbn [prefix]. destruct (ascii_dec c c) as [_ | Hne]; [exact IH | contradiction].
Qed.

(** An occurrence at the start of a suffix is an occurrence. *)
Lemma contains_suffix sep a b :
  prefix sep b = true -> Py.contains sep (a ++ b)%string = true.
Proof.
  intros H. induction a as [| c a IH]; cbn [String.append]; rewrite contains_unfold.
  - rewrite H. reflexivity.
  - destruct (prefix sep (String c (a ++ b))); [reflexivity | exact IH].
Qed.

Lemma contains_false_prefix sep s : Py.contains sep s = false -> prefix sep s = false.
Proof. rewrite contains_unfold. destruct (prefix sep s); [discriminate | reflexivity]. Qed.

Lemma contains_false_tail sep c s :
  Py.contains sep (String c s) = false -> Py.contains sep s = false.
Proof. rewrite contains_unfold. destruct (prefix sep (String c s)); [discriminate | trivial]. Qed.

Lemma string_append_assoc a b c : ((a ++ b) ++ c)%string = (a ++ (b ++ c))%string.
Proof. induction a as [| x a IH]; cbn; [reflexivity | rewrite IH; reflexivity]. Qed.

Lemma rev_string_acc s : forall acc, Py.rev_string s acc = (Py.rev_string s "" ++ acc)%string.
Proof.
  induction s as [| c s IH]; intros acc; cbn [Py.rev_string].
  - reflexivity.
  - rewrite (IH (String c acc)), (IH (String c "")).
    rewrite string_append_assoc. reflexivity.
Qed.

Lemma rev_string_append a : forall b acc,
  Py.rev_string (a ++ b)%string acc = Py.rev_string b (Py.rev_string a acc).
Proof.
  induction a as [| c a IH]; intros b acc; cbn [String.append Py.rev_string].
  - reflexivity.
  - apply IH.
Qed.

Lemma append_nil_r s : (s ++ "")%string = s.
Proof. induction s as [| c s IH]; cbn; [reflexivity | rewrite IH; reflexivity]. Qed.

Lemma rev_string_involutive s : Py.rev_string (Py.rev_string s "") "" = s.
Proof.
  induction s as [| c s IH]; cbn [Py.rev_string]; [reflexivity |].
  rewrite (rev_string_acc s (String c "")), rev_string_append. cbn [Py.rev_string].
  rewrite IH. reflexivity.
Qed.

(** The characters of a separator just matched are dropped. *)
Lemma split_go_skip sep t : forall u cur,
  Py.split_go sep (t ++ u)%string (String.length t) cur = Py.split_go sep u O cur.
Proof.
  induction t as [| c t IH]; intros u cur; cbn [String.append String.length].
  - reflexivity.
  - cbn [Py.split_go]. apply IH.
Qed.

(** Without an occurrence of the separator there is one piece: the string. *)
Lemma split_go_no_match sep s : forall cur,
  Py.contains sep s = false ->
  Py.split_go sep s O cur = [(Py.rev_string cur "" ++ s)%string].
Proof.
  induction s as [| c s IH]; intros cur H; cbn [Py.split_go].
  - rewrite append_nil_r. reflexivity.
  - rewrite (contains_false_prefix _ _ H).
    rewrite (IH (String c cur) (contains_false_tail _ _ _ H)).
    cbn [Py.rev_string]. rewrite (rev_string_acc cur (String c "")).
    rewrite string_append_assoc. reflexivity.
Qed.

(** Up to the first occurrence of the separator: one piece, and the rest is
    split on its own. *)
Lemma split_go_first sep rest pre : forall cur,
  sep <> "" ->
  (forall a b, pre = (a ++ b)%string -> b <> "" -> prefix sep (b ++ sep ++ rest)%string = false) ->
  Py.split_go sep (pre ++ sep ++ rest)%string O cur =
  (Py.rev_string cur "" ++ pre)%string :: Py.split_go sep rest O "".
Proof.
  induction pre as [| c pre IH]; intros cur Hsep Hfirst; cbn [String.append].
  - destruct sep as [| c0 t]; [contradiction |].
    cbn [String.append Py.split_go].
    pose proof (prefix_append (String c0 t) rest) as Hp. cbn [String.append] in Hp.
    rewrite Hp. rewrite append_nil_r. f_equal.
    cbn [String.length].
    replace (S (String.length t) - 1)%nat with (String.length t) by lia.
    apply split_go_skip.
  - cbn [Py.split_go].
    assert (Hp : prefix sep (String c pre ++ sep ++ rest)%string = false)
      by (apply (Hfirst "" (String c pre) eq_refl); discriminate).
    cbn [String.append] in Hp. rewrite Hp.
    rewrite (IH (String c cur) Hsep).
    + cbn [Py.rev_string]. rewrite (rev_string_acc cur (String c "")).
      rewrite string_append_assoc. reflexivity.
    + intros a b -> Hb. apply (Hfirst (String c a) b eq_refl Hb).
Qed.

(** A separator whose first character does not come back inside it cannot
    overlap a copy of itself. *)
Lemma prefix_before_first_char c0 t : forall b u,
  occurs c0 t = false ->
  prefix t (b ++ String c0 u)%string = true -> prefix t b = true.
Proof.
  induction t as [| x t IH]; intros b u Hocc H.
  - apply prefix_nil.
  - cbn [occurs] in Hocc. destruct (Ascii.eqb x c0) eqn:Hx; [discriminate |].
    destruct b as [| y b]; cbn [String.append prefix] in H |- *.
    + destruct (ascii_dec x c0) as [-> | _]; [| discriminate].
      rewrite Ascii.eqb_refl in Hx. discriminate.
    + destruct (ascii_dec x y); [| discriminate]. apply (IH b u Hocc H).
Qed.

Lemma no_earlier_occurrence c0 t pre rest :
  occurs c0 t = false ->
  Py.contains (String c0 t) pre = false ->
  forall a b, pre = (a ++ b)%string -> b <> "" ->
              prefix (String c0 t) (b ++ String c0 t ++ rest)%string = false.
Proof.
  intros Hocc Hpre a b -> Hb.
  destruct (prefix (String c0 t) (b ++ String c0 t ++ rest)%string) eqn:H; [| reflexivity].
  exfalso.
  assert (Hin : prefix (String c0 t) b = true).
  { destruct b as [| y b]; [contradiction |].
    cbn [String.append prefix] in H |- *.
    destruct (ascii_dec c0 y); [| discriminate].
    apply (prefix_before_first_char c0 t b (t ++ rest)%string Hocc H). }
  rewrite (contains_suffix _ a b Hin) in Hpre. discriminate.
Qed.

(** [line.split(label)[1]] on a line that holds the label once, or with a
    second label right after the value. *)
Lemma split_second_piece c0 t pre value tail :
  occurs c0 t = false ->
  Py.contains (String c0 t) pre = false ->
  Py.contains (String c0 t) value = false ->
  tail = "" \/ (exists more, tail = (String c0 t ++ more)%string) ->
  nth_error (Py.split (String c0 t) (pre ++ String c0 t ++ value ++ tail)%string) 1 = Some value.
Proof.
  intros Hocc Hpre Hval Htail. unfold Py.split.
  rewrite split_go_first;
    [| discriminate | apply (no_earlier_occurrence c0 t pre _ Hocc Hpre)].
  cbn [nth_error].
  destruct Htail as [-> | [more ->]].
  - rewrite append_nil_r. rewrite (split_go_no_match _ _ "" Hval). reflexivity.
  - rewrite split_go_first;
      [| discriminate | apply (no_earlier_occurrence c0 t value _ Hocc Hval)].
    reflexivity.
Qed.

Lemma prefix_split sep : forall s, prefix sep s = true -> exists rest, s = (sep ++ rest)%string.
Proof.
  induction sep as [| c sep IH]; intros s H.
  - exists s. reflexivity.
  - destruct s as [| y s]; cbn [prefix] in H; [discriminate |].
    destruct (ascii_dec c y) as [-> | _]; [| discriminate].
    destruct (IH s H) as [rest ->]. exists rest. reflexivity.
Qed.

(** A string that contains the separator, cut at the first occurrence. *)
Lemma contains_first_occurrence sep : forall s,
  Py.contains sep s = true ->
  exists pre rest,
    s = (pre ++ sep ++ rest)%string /\
    forall a b, pre = (a ++ b)%string -> b <> "" ->
                prefix sep (b ++ sep ++ rest)%string = false.
Proof.
  induction s as [| c s IH]; intros H; rewrite contains_unfold in H.
  - destruct (prefix sep "") eqn:Hp; [| discriminate].
    destruct (prefix_split _ _ Hp) as [rest Hrest].
    exists "", rest. split; [exact Hrest |].
    intros a b Hab Hb. destruct a; cbn in Hab; [congruence | discriminate].
  - destruct (prefix sep (String c s)) eqn:Hp.
    + destruct (prefix_split _ _ Hp) as [rest Hrest].
      exists "", rest. split; [exact Hrest |].
      intros a b Hab Hb. destruct a; cbn in Hab; [congruence | discriminate].
    + destruct (IH H) as (pre & rest & -> & Hfirst).
      exists (String c pre), rest. split; [reflexivity |].
      intros a b Hab Hb. destruct a as [| x a]; cbn [String.append] in Hab.
      * subst b. exact Hp.
      * injection Hab as _ Hab. apply (Hfirst a b Hab Hb).
Qed.

Lemma split_go_nonempty sep s : forall skip cur,
  exists piece pieces, Py.split_go sep s skip cur = piece :: pieces.
Proof.
  induction s as [| c s IH]; intros skip cur; cbn [Py.split_go].
  - eauto.
  - destruct skip; [| apply IH].
    destruct (prefix sep (String c s)); [eauto | apply IH].
Qed.

(** [line.split(label)[1]] exists whenever [label in line]. *)
Lemma split_has_second_piece sep s :
  sep <> "" -> Py.contains sep s = true ->
  exists piece, nth_error (Py.split sep s) 1 = Some piece.
Proof.
  intros Hsep H. destruct (contains_first_occurrence sep s H) as (pre & rest & -> & Hfirst).
  unfold Py.split. rewrite (split_go_first sep rest pre "" Hsep Hfirst).
  cbn [nth_error].
  destruct (split_go_nonempty sep rest O "") as (piece & pieces & ->). eauto.
Qed.

Lemma lstrip_no_space s : starts_with_space (Py.lstrip s) = false.
Proof.
  induction s as [| c s IH]; cbn [Py.lstrip]; [reflexivity |].
  destruct (Py.is_space c) eqn:Hc; [exact IH |]. cbn [starts_with_space]. exact Hc.
Qed.

Lemma lstrip_suffix s : exists p, s = (p ++ Py.lstrip s)%string.
Proof.
  induction s as [| c s [p IH]]; cbn [Py.lstrip].
  - exists "". reflexivity.
  - destruct (Py.is_space c).
    + exists (String c p). cbn [String.append]. rewrite <- IH. reflexivity.
    + exists "". reflexivity.
Qed.

(** [str.strip] leaves no whitespace at either end. *)
Lemma strip_stripped s : stripped (Py.strip s).
Proof.
  unfold stripped, Py.strip. split.
  - destruct (lstrip_suffix (Py.rev_string (Py.lstrip s) "")) as [p Hp].
    assert (Hu : Py.lstrip s =
                 (Py.rev_string (Py.lstrip (Py.rev_string (Py.lstrip s) "")) ""
                  ++ Py.rev_string p "")%string).
    { rewrite <- (rev_string_involutive (Py.lstrip s)) at 1.
      rewrite Hp at 1. rewrite rev_string_append. apply rev_string_acc. }
    pose proof (lstrip_no_space s) as Hs. rewrite Hu in Hs.
    destruct (Py.rev_string (Py.lstrip (Py.rev_string (Py.lstrip s) "")) "");
      [reflexivity | exact Hs].
  - rewrite rev_string_involutive. apply lstrip_no_space.
Qed.

(** ** The key files *)

Lemma get_private_key_lines_label_free lines :
  label_free "Private Key:" lines -> get_private_key_lines lines = Ret PNone.
Proof.
  induction 1 as [| line rest Hline _ IH]; cbn [get_private_key_lines]; [reflexivity |].
  rewrite Hline. exact IH.
Qed.

Lemma get_wallet_address_lines_label_free lines :
  label_free "Address:" lines -> get_wallet_address_lines lines = Ret PNone.
Proof.
  induction 1 as [| line rest Hline _ IH]; cbn [get_wallet_address_lines]; [reflexivity |].
  rewrite Hline. exact IH.
Qed.

Lemma get_vote_key_loop_label_free lines : forall todo i secret_key,
  label_free "Secret Key:" lines ->
  (i + todo = List.length lines)%nat ->
  get_vote_key_loop lines i todo secret_key =
  match secret_key with Some k => Ret k | None => Raise UnboundLocalError end.
Proof.
  induction todo as [| todo IH]; intros i secret_key Hfree Hlen; cbn [get_vote_key_loop].
  - reflexivity.
  - destruct (nth_error lines i) as [line |] eqn:Hnth.
    + pose proof Hfree as Hall. unfold label_free in Hall. rewrite Forall_forall in Hall.
      rewrite (Hall line (nth_error_In _ _ Hnth)).
      apply IH; [exact Hfree | lia].
    + apply nth_error_None in Hnth. lia.
Qed.

Lemma get_private_key_lines_skip before after :
  label_free "Private Key:" before ->
  get_private_key_lines (before ++ after) = get_private_key_lines after.
Proof.
  induction 1 as [| line rest Hline _ IH]; cbn [app get_private_key_lines]; [reflexivity |].
  rewrite Hline. exact IH.
Qed.

Lemma get_wallet_address_lines_skip before after :
  label_free "Address:" before ->
  get_wallet_address_lines (before ++ after) = get_wallet_address_lines after.
Proof.
  induction 1 as [| line rest Hline _ IH]; cbn [app get_wallet_address_lines]; [reflexivity |].
  rewrite Hline. exact IH.
Qed.

(** What the two label readers can come to on any list of lines: [None] or
    a stripped string. The subscript [[1]] is never out of range. *)
Lemma get_private_key_lines_outcome lines :
  get_private_key_lines lines = Ret PNone \/
  exists k, get_private_key_lines lines = Ret (PStr k) /\ stripped k.
Proof.
  induction lines as [| line rest IH]; cbn [get_private_key_lines]; [left; reflexivity |].
  destruct (Py.contains "Private Key:" line) eqn:Hin; [| exact IH].
  destruct (split_has_second_piece "Private Key:" line) as [piece ->];
    [discriminate | exact Hin |].
  right. eexists. split; [reflexivity | apply strip_stripped].
Qed.

Lemma get_wallet_address_lines_outcome lines :
  get_wallet_address_lines lines = Ret PNone \/
  exists k, get_wallet_address_lines lines = Ret (PStr k) /\ stripped k.
Proof.
  induction lines as [| line rest IH]; cbn [get_wallet_address_lines]; [left; reflexivity |].
  destruct (Py.contains "Address:" line) eqn:Hin; [| exact IH].
  destruct (split_has_second_piece "Address:" line) as [piece ->];
    [discriminate | exact Hin |].
  right. eexists. split; [reflexivity | apply strip_stripped].
Qed.

Lemma get_vote_key_loop_outcome lines : forall todo i secret_key,
  (forall k0, secret_key = Some k0 -> stripped k0) ->
  vote_key_outcome (get_vote_key_loop lines i todo secret_key).
Proof.
  induction todo as [| todo IH]; intros i secret_key Hsk; cbn [get_vote_key_loop].
  - destruct secret_key as [k0 |]; cbn; [apply Hsk; reflexivity | exact I].
  - destruct (nth_error lines i) as [line |]; [| exact I].
    destruct (Py.contains "Secret Key:" line); [| apply (IH _ _ Hsk)].
    destruct (nth_error lines (i + 2)) as [below |]; [| exact I].
    apply IH. intros k0 [= <-]. apply strip_stripped.
Qed.

Lemma readlines_found env path lines s :
  files env path = Some lines -> readlines env path s = (Ret lines, s).
Proof. intros H. unfold readlines. rewrite H. reflexivity. Qed.

Lemma readlines_missing env path s :
  files env path = None -> readlines env path s = (Raise FileNotFoundError, s).
Proof. intros H. unfold readlines. rewrite H. reflexivity. Qed.

(** X3. A key file in which no line carries the label: the two label readers
    ([get_private_key], [get_wallet_address]) return [None] without an
    error, while [get_vote_key] raises [UnboundLocalError] (its variable
    [secret_key] is never assigned). None of them touches the state. *)
Theorem key_file_without_label :
  forall env path lines s,
    files env path = Some lines ->
    (label_free "Private Key:" lines -> get_private_key env path s = (Ret PNone, s)) /\
    (label_free "Address:" lines -> get_wallet_address env path s = (Ret PNone, s)) /\
    (label_free "Secret Key:" lines ->
     get_vote_key env path s = (Raise UnboundLocalError, s)).
Proof.
  intros env path lines s Hfile. repeat split; intros Hfree.
  - unfold get_private_key. rewrite (bind_ret _ _ _ _ _ (readlines_found _ _ _ s Hfile)).
    unfold lift. rewrite (get_private_key_lines_label_free _ Hfree). reflexivity.
  - unfold get_wallet_address. rewrite (bind_ret _ _ _ _ _ (readlines_found _ _ _ s Hfile)).
    unfold lift. rewrite (get_wallet_address_lines_label_free _ Hfree). reflexivity.
  - unfold get_vote_key. rewrite (bind_ret _ _ _ _ _ (readlines_found _ _ _ s Hfile)).
    unfold lift, get_vote_key_lines.
    rewrite (get_vote_key_loop_label_free lines _ 0%nat None Hfree eq_refl). reflexivity.
Qed.

Lemma key_file_without_label_witness :
  get_private_key (submit_env rejected_send) "/keys/vote_key.txt" initial_state
  = (Ret PNone, initial_state) /\
  get_vote_key (submit_env rejected_send) "/keys/signing_key.txt" initial_state
  = (Raise UnboundLocalError, initial_state).
Proof.
  split.
  - apply (key_file_without_label (submit_env rejected_send) "/keys/vote_key.txt"
             vote_key_file initial_state eq_refl).
    unfold label_free, vote_key_file. repeat (constructor; [reflexivity |]). constructor.
  - apply (key_file_without_label (submit_env rejected_send) "/keys/signing_key.txt"
             ["Public Key: 77aa"; "Private Key: 11bb"] initial_state eq_refl).
    unfold label_free. repeat (constructor; [reflexivity |]). constructor.
Defined.

(** X4. The value read from a key file. On the first line that carries the
    label, [get_private_key] (label [Private Key:]) and [get_wallet_address]
    (label [Address:]) return the text that follows the label, up to the end
    of the line or to the next occurrence of the label, stripped of outer
    whitespace. Lines after that one are not looked at. *)
Theorem labelled_key_is_read :
  forall env path label before pre value tail after s,
    files env path = Some (before ++ (pre ++ label ++ value ++ tail)%string :: after) ->
    label_free label before ->
    Py.contains label pre = false ->
    Py.contains label value = false ->
    tail = "" \/ (exists more, tail = (label ++ more)%string) ->
    (label = "Private Key:" ->
     get_private_key env path s = (Ret (PStr (Py.strip value)), s)) /\
    (label = "Address:" ->
     get_wallet_address env path s = (Ret (PStr (Py.strip value)), s)).
Proof.
  intros env path label before pre value tail after s Hfile Hbefore Hpre Hval Htail.
  split; intros ->.
  - unfold get_private_key. rewrite (bind_ret _ _ _ _ _ (readlines_found _ _ _ s Hfile)).
    unfold lift. rewrite (get_private_key_lines_skip _ _ Hbefore).
    cbn [get_private_key_lines].
    rewrite (contains_suffix "Private Key:" pre _ (prefix_append "Private Key:" _)).
    rewrite (split_second_piece "P" "rivate Key:" pre value tail eq_refl Hpre Hval Htail).
    reflexivity.
  - unfold get_wallet_address. rewrite (bind_ret _ _ _ _ _ (readlines_found _ _ _ s Hfile)).
    unfold lift. rewrite (get_wallet_address_lines_skip _ _ Hbefore).
    cbn [get_wallet_address_lines].
    rewrite (contains_suffix "Address:" pre _ (prefix_append "Address:" _)).
    rewrite (split_second_piece "A" "ddress:" pre value tail eq_refl Hpre Hval Htail).
    reflexivity.
Qed.

Lemma labelled_key_is_read_witness :
  get_private_key (submit_env rejected_send) "/keys/address.txt" initial_state
  = (Ret (PStr "22dd"), initial_state).
Proof.
  apply (labelled_key_is_read (submit_env rejected_send) "/keys/address.txt" "Private Key:"
           ["Address: NQ07 0000"; "Public Key: 88cc"] "" " 22dd" "" [] initial_state).
  - reflexivity.
  - unfold label_free. repeat (constructor; [reflexivity |]). constructor.
  - reflexivity.
  - reflexivity.
  - left. reflexivity.
  - reflexivity.
Defined.

(** X5. Whatever lines are read from the key file, the two label readers
    return [None] or a string with no whitespace at either end: the subscript
    [[1]] of the split line is never out of range, because the line contains
    the label. [get_vote_key] returns a string with no whitespace at either
    end or raises [IndexError] or [UnboundLocalError]. None of the three
    changes the state. *)
Theorem key_readers_outcomes :
  forall env path lines s,
    files env path = Some lines ->
    (snd (get_private_key env path s) = s /\
     key_outcome (fst (get_private_key env path s))) /\
    (snd (get_wallet_address env path s) = s /\
     key_outcome (fst (get_wallet_address env path s))) /\
    (snd (get_vote_key env path s) = s /\
     vote_key_outcome (fst (get_vote_key env path s))).
Proof.
  intros env path lines s Hfile.
  unfold get_private_key, get_wallet_address, get_vote_key.
  rewrite !(bind_ret _ _ _ _ _ (readlines_found _ _ _ s Hfile)). unfold lift. cbn [fst snd].
  repeat split.
  - destruct (get_private_key_lines_outcome lines) as [-> | (k & -> & Hk)];
      [exact I | exact Hk].
  - destruct (get_wallet_address_lines_outcome lines) as [-> | (k & -> & Hk)];
      [exact I | exact Hk].
  - apply get_vote_key_loop_outcome. discriminate.
Qed.

Lemma key_readers_outcomes_witness :
  key_outcome (fst (get_private_key (submit_env rejected_send) "/keys/address.txt"
                                    initial_state)) /\
  vote_key_outcome (fst (get_vote_key (submit_env rejected_send) "/keys/signing_key.txt"
                                      initial_state)).
Proof.
  split.
  - apply (key_readers_outcomes (submit_env rejected_send) "/keys/address.txt"
             ["Address: NQ07 0000"; "Public Key: 88cc"; "Private Key: 22dd"] initial_state
             eq_refl).
  - apply (key_readers_outcomes (submit_env rejected_send) "/keys/signing_key.txt"
             ["Public Key: 77aa"; "Private Key: 11bb"] initial_state eq_refl).
Defined.

(** ** The RPC client: where its outcomes come from *)

Lemma answered_by_weaken env method params a b o :
  (a <= b)%nat -> answered_by env method params b o -> answered_by env method params a o.
Proof.
  intros Hab. destruct o as [v | e |]; cbn [answered_by].
  - destruct v; trivial; intros (i & status & body & Hi & H); exists i, status, body;
      (split; [lia | exact H]).
  - intros (i & status & body & Hi & H). exists i, status, body. split; [lia | exact H].
  - intros (i & Hi & H). exists i. split; [lia | exact H].
Qed.

Lemma nimiq_request_loop_answered env method params delay :
  0 <= delay ->
  forall n s,
    answered_by env method (Py.or_else params (PList [])) (List.length (sent s))
                (fst (nimiq_request_loop env method params delay n s)).
Proof.
  intros Hd. induction n as [| n IH]; intros s.
  - exact I.
  - destruct (attempt_fails (node env (List.length (sent s)) method (Py.or_else params (PList []))))
      eqn:Hf.
    + rewrite (nimiq_request_loop_failed env method params delay n s Hd Hf).
      apply (answered_by_weaken _ _ _ _ _ _ (Nat.le_succ_diag_r _)).
      exact (IH (after_failed_attempt method params delay s)).
    + destruct (node env (List.length (sent s)) method (Py.or_else params (PList [])))
        as [| status body | status |] eqn:E; cbn [attempt_fails] in Hf;
        [discriminate | | discriminate |].
      * destruct body as [| b | z | f | str | l | d];
          try (rewrite (nimiq_request_loop_not_object env method params delay n s status _ E Hf)
                 by discriminate;
               cbn [fst answered_by];
               eexists _, status, _; split; [apply Nat.le_refl |];
               split; [exact E |]; split; [exact Hf |];
               right; split; [reflexivity | discriminate]).
        rewrite (nimiq_request_loop_replied env method params delay n s status d E Hf).
        cbv zeta.
        destruct (Py.lookup "result" d) as [v |] eqn:Hres.
        -- destruct v; cbn [fst answered_by];
             try (exists (List.length (sent s)), status, d; repeat split; auto; fail).
           exists (List.length (sent s)), status, (PDict d). repeat split; auto.
           left. split; [reflexivity |]. exists d. auto.
        -- cbn [fst answered_by].
           exists (List.length (sent s)), status, d. repeat split; auto.
      * rewrite (nimiq_request_loop_no_reply env method params delay n s E).
        cbn [fst answered_by]. exists (List.length (sent s)). split; [apply Nat.le_refl | exact E].
Qed.

(** X6. Where the outcome of a call comes from. [nimiq_request] returns
    [None], or the ["result"] member of a response whose status is not an
    error ([{}] when the body has no such member). The only exceptions it lets
    out are [ValueError], for a response whose ["result"] is [null], and
    [AttributeError], for a response whose body is JSON but not an object. It
    is left without an outcome only by a POST that never returns. A failed
    attempt (the POST raised, status 4xx or 5xx, a body that is not JSON)
    never surfaces as an exception. *)
Theorem nimiq_request_outcome :
  forall env method params retries delay s,
    0 <= delay ->
    answered_by env method (Py.or_else params (PList [])) (List.length (sent s))
                (fst (nimiq_request env method params retries delay s)).
Proof.
  intros env method params retries delay s Hd. unfold nimiq_request.
  apply nimiq_request_loop_answered. exact Hd.
Qed.

Lemma nimiq_request_outcome_witness :
  exists i status d,
    node (constant_env method_not_found) i "getAddress" (PList []) = Response status (PDict d) /\
    Py.lookup "result" d = None.
Proof.
  pose proof (nimiq_request_outcome (constant_env method_not_found) "getAddress" PNone 3 5
                initial_state ltac:(discriminate)) as H.
  cbn in H. destruct H as (i & status & d & _ & Hnode & _ & [Hres | [Hres _]]).
  - exfalso. cbn in Hnode. injection Hnode as _ <-. discriminate.
  - exists i, status, d. split; assumption.
Defined.

(** ** Before consensus *)

Lemma nimiq_request_loop_posts env method params delay :
  0 <= delay ->
  forall n s,
    exists k,
      (k <= n)%nat /\ ((0 < n)%nat -> (0 < k)%nat) /\
      sent (snd (nimiq_request_loop env method params delay n s)) =
        repeat (method, Py.or_else params (PList [])) k ++ sent s.
Proof.
  intros Hd n s.
  destruct (nimiq_request_loop_bounded env method params delay Hd n s)
    as (k & Hk & Hsent & _ & _ & _).
  exists k. split; [exact Hk | split; [| exact Hsent]].
  intros Hn. destruct k as [| k]; [| lia]. exfalso.
  destruct n as [| n]; [lia |]. cbn [repeat app] in Hsent.
  assert (Hlen : (List.length (sent s)
                  < List.length (sent (snd (nimiq_request_loop env method params delay (S n) s))))%nat);
    [| rewrite Hsent in Hlen; lia].
  clear Hsent Hk Hn.
  destruct (attempt_fails (node env (List.length (sent s)) method (Py.or_else params (PList []))))
    eqn:Hf.
  - rewrite (nimiq_request_loop_failed env method params delay n s Hd Hf).
    destruct (nimiq_request_loop_bounded env method params delay Hd n
                (after_failed_attempt method params delay s)) as (k & _ & -> & _).
    rewrite length_app. cbn. lia.
  - destruct (node env (List.length (sent s)) method (Py.or_else params (PList [])))
      as [| status body | status |] eqn:E; cbn [attempt_fails] in Hf;
      [discriminate | | discriminate |].
    + destruct body as [| b | z | f | str | l | d];
        try (rewrite (nimiq_request_loop_not_object env method params delay n s status _ E Hf)
               by discriminate; cbn; lia).
      rewrite (nimiq_request_loop_replied env method params delay n s status d E Hf).
      cbv zeta. destruct (Py.lookup "result" d) as [[] |]; cbn; lia.
    + rewrite (nimiq_request_loop_no_reply env method params delay n s E). cbn. lia.
Qed.

Lemma denied_not_positive env from v :
  (forall i, denies_consensus (node env i "isConsensusEstablished" (PList [])) = true) ->
  answered_by env "isConsensusEstablished" (PList []) from (Ret v) ->
  consensus_positive v = Ret false.
Proof.
  intros Hdeny Hans.
  assert (Hcase : v = PNone \/
                  exists i status d,
                    node env i "isConsensusEstablished" (PList []) = Response status (PDict d) /\
                    status_is_error status = false /\
                    (Py.lookup "result" d = Some v \/ (Py.lookup "result" d = None /\ v = PDict []))).
  { destruct v; cbn [answered_by] in Hans; [left; reflexivity | right ..];
      destruct Hans as (i & status & body & _ & H); exists i, status, body; exact H. }
  destruct Hcase as [-> | (i & status & d & Hnode & Hstatus & Hres)]; [reflexivity |].
  specialize (Hdeny i). rewrite Hnode in Hdeny. cbn [denies_consensus] in Hdeny.
  rewrite Hstatus in Hdeny. cbn [orb] in Hdeny.
  destruct Hres as [Hres | [Hres ->]]; rewrite Hres in Hdeny.
  - destruct v as [| | | | | | r]; try discriminate.
    unfold consensus_positive, Py.get.
    destruct (Py.lookup "data" r) as [x |]; [| reflexivity].
    destruct (Py.eq_True x); [discriminate | reflexivity].
  - reflexivity.
Qed.

Lemma denied_no_exception env from e :
  (forall i, denies_consensus (node env i "isConsensusEstablished" (PList [])) = true) ->
  answered_by env "isConsensusEstablished" (PList []) from (Raise e) -> False.
Proof.
  intros Hdeny (i & status & body & _ & Hnode & Hstatus & Hcase).
  specialize (Hdeny i). rewrite Hnode in Hdeny. cbn [denies_consensus] in Hdeny.
  rewrite Hstatus in Hdeny. cbn [orb] in Hdeny.
  destruct Hcase as [(_ & d & -> & Hres) | (_ & Hbody)].
  - rewrite Hres in Hdeny. discriminate.
  - destruct body; try discriminate. exact (Hbody _ eq_refl).
Qed.

(** One pass of the loop of [check_consensus] on a node that denies
    consensus: one to three polls, and the counter is back at 0. *)
Lemma check_consensus_body_denied env :
  (forall i, denies_consensus (node env i "isConsensusEstablished" (PList [])) = true) ->
  forall c s,
    exists k s',
      (1 <= k <= 3)%nat /\
      check_consensus_body env c s = (Ret 0, s') /\
      sent s' = repeat ("isConsensusEstablished", PList []) k ++ sent s.
Proof.
  intros Hdeny c s.
  pose proof (nimiq_request_loop_answered env "isConsensusEstablished" PNone 5
                ltac:(discriminate) 3 s) as Hans.
  destruct (nimiq_request_loop_posts env "isConsensusEstablished" PNone 5
              ltac:(discriminate) 3 s) as (k & Hk & Hpos & Hsent).
  change (Py.or_else PNone (PList [])) with (PList []) in Hans, Hsent.
  change (nimiq_request_loop env "isConsensusEstablished" PNone 5 3)
    with (rpc env "isConsensusEstablished" PNone) in Hans, Hsent.
  destruct (rpc env "isConsensusEstablished" PNone s) as [[v | e |] s1] eqn:Hrpc;
    cbn [fst snd] in Hans, Hsent.
  - exists k. eexists. split; [lia |]. split.
    + apply (check_consensus_body_run env c s v s1 false Hrpc).
      exact (denied_not_positive env _ v Hdeny Hans).
    + cbn. exact Hsent.
  - exfalso. exact (denied_no_exception env _ e Hdeny Hans).
  - destruct Hans as (i & _ & Hnode). specialize (Hdeny i). rewrite Hnode in Hdeny.
    discriminate.
Qed.

Lemma check_consensus_loop_denied env :
  (forall i, denies_consensus (node env i "isConsensusEstablished" (PList [])) = true) ->
  forall fuel s,
    exists k s',
      (fuel <= k <= 3 * fuel)%nat /\
      check_consensus_loop env fuel 0 s = (Pending, s') /\
      sent s' = repeat ("isConsensusEstablished", PList []) k ++ sent s.
Proof.
  intros Hdeny. induction fuel as [| fuel IH]; intros s.
  - exists 0%nat, s. split; [lia |]. split; reflexivity.
  - destruct (check_consensus_body_denied env Hdeny 0 s) as (k1 & s1 & Hk1 & Hbody & Hsent1).
    destruct (IH s1) as (k2 & s2 & Hk2 & Hloop & Hsent2).
    exists (k2 + k1)%nat, s2. split; [lia |]. split.
    + cbn [check_consensus_loop]. change (0 <? 3) with true. cbv iota.
      rewrite (bind_ret _ _ _ _ _ Hbody). exact Hloop.
    + rewrite Hsent2, Hsent1, repeat_app, app_assoc. reflexivity.
Qed.

Lemma check_consensus_preserves {X} (proj : State -> X) env fuel :
  beyond_network proj -> preserves proj (check_consensus env fuel).
Proof.
  intros (Hsent & Hret & Hlogs & Hsleeps).
  assert (Hlog : forall l msg, preserves proj (log l msg)).
  { intros l msg s. unfold log. cbn. apply Hlogs. }
  assert (Hsleep : forall ms, preserves proj (sleep_ms ms)).
  { intros ms s. unfold sleep_ms. destruct (ms <? 0); cbn; [reflexivity | apply Hsleeps]. }
  unfold check_consensus. apply preserves_bind; [frame | intros _].
  generalize 0. induction fuel as [| fuel IH]; intros c; cbn [check_consensus_loop].
  - destruct (c <? 3); frame.
  - destruct (c <? 3); [| frame].
    apply preserves_bind; [unfold check_consensus_body; frame | intros c'; apply IH].
Qed.

Lemma metrics_beyond_network : beyond_network metrics.
Proof. repeat split. Qed.

Lemma faucet_sent_beyond_network : beyond_network faucet_sent.
Proof. repeat split. Qed.

(** X7. Before consensus. As long as every answer to
    [isConsensusEstablished] fails or carries no ["data"] equal to [True],
    the script stays in [check_consensus]: whatever the budget of
    iterations it is still running (no return, no exception), every request
    it has sent is an [isConsensusEstablished] poll, between one and three
    for each pass of the loop, and it has touched neither the gauges nor the
    faucet. *)
Theorem main_loop_waits_for_consensus :
  forall env cycles fuel address s,
    (forall i, denies_consensus (node env i "isConsensusEstablished" (PList [])) = true) ->
    let r := main_loop env cycles fuel address s in
    fst r = Pending /\
    (exists k,
        sent (snd r) = repeat ("isConsensusEstablished", PList []) k ++ sent s /\
        ((0 < cycles)%nat -> (fuel <= k <= 3 * fuel)%nat)) /\
    metrics (snd r) = metrics s /\
    faucet_sent (snd r) = faucet_sent s.
Proof.
  intros env cycles fuel address s Hdeny. cbv zeta.
  destruct cycles as [| cycles].
  - cbn. repeat split. exists 0%nat. split; [reflexivity | lia].
  - pose proof (check_consensus_preserves metrics env fuel metrics_beyond_network s) as Hm.
    pose proof (check_consensus_preserves faucet_sent env fuel faucet_sent_beyond_network s)
      as Hf.
    set (s0 := with_logs
                 ((INFO, "Waiting for consensus to be established, this may take a while...")
                    :: logs s) s).
    assert (Hrun : check_consensus env fuel s = check_consensus_loop env fuel 0 s0)
      by reflexivity.
    destruct (check_consensus_loop_denied env Hdeny fuel s0) as (k & s' & Hk & Hloop & Hsent).
    rewrite Hloop in Hrun.
    cbn [main_loop]. rewrite (bind_pending _ _ _ _ Hrun).
    rewrite Hrun in Hm, Hf. cbn [fst snd] in *.
    repeat split; try assumption.
    exists k. split; [exact Hsent | intros _; exact Hk].
Qed.

Lemma main_loop_waits_for_consensus_witness :
  fst (main_loop dead_env 2 4 "NQ07 0000" initial_state) = Pending.
Proof.
  apply (main_loop_waits_for_consensus dead_env 2 4 "NQ07 0000" initial_state).
  intros i. reflexivity.
Defined.

(** ** The faucet *)

Lemma needs_funds_preserves_faucet env address :
  preserves faucet_sent (needs_funds env address).
Proof. unfold needs_funds. frame. Qed.

(** The funding step leaves the faucet alone, or posts the address once; it
    posts only on the test network, and then ends the way the POST did. *)
Lemma funding_step_faucet env address s :
  faucet_sent (snd (funding_step env address s)) = faucet_sent s \/
  (faucet_sent (snd (funding_step env address s)) = address :: faucet_sent s /\
   String.eqb (NIMIQ_NETWORK env) "testnet" = true /\
   fst (funding_step env address s)
   = if faucet env (List.length (faucet_sent s)) then Ret tt else Raise RequestException).
Proof.
  remember (funding_step env address s) as r eqn:Hr.
  unfold funding_step in Hr.
  destruct (String.eqb (NIMIQ_NETWORK env) "testnet"); [| subst r; left; reflexivity].
  unfold bind at 1 in Hr. unfold log at 1 in Hr.
  set (s1 := with_logs _ s) in Hr.
  pose proof (needs_funds_preserves_faucet env address s1) as Hkeep.
  change (faucet_sent s1) with (faucet_sent s) in Hkeep.
  unfold bind at 1 in Hr.
  destruct (needs_funds env address s1) as [[[] | e |] s2]; cbn [snd] in Hkeep; subst r;
    try (left; exact Hkeep).
  right. unfold faucet_post. cbn [fst snd faucet_sent with_faucet_sent].
  rewrite Hkeep. repeat split.
Qed.

Lemma activate_validator_faucet env fuel address s :
  faucet_sent (snd (activate_validator env fuel address s)) = faucet_sent s \/
  (faucet_sent (snd (activate_validator env fuel address s)) = address :: faucet_sent s /\
   String.eqb (NIMIQ_NETWORK env) "testnet" = true /\
   (faucet env (List.length (faucet_sent s)) = false ->
    fst (activate_validator env fuel address s) = Raise RequestException /\
    ACTIVATED_AMOUNT (snd (activate_validator env fuel address s)) = ACTIVATED_AMOUNT s)).
Proof.
  remember (activate_validator env fuel address s) as r eqn:Hr.
  rewrite activate_validator_unfold in Hr.
  unfold bind at 1 in Hr. unfold log at 1 in Hr.
  set (s1 := with_logs _ s) in Hr.
  unfold bind at 1 in Hr.
  pose proof (get_private_key_state env "/keys/signing_key.txt" s1) as E1.
  destruct (get_private_key env "/keys/signing_key.txt" s1) as [[SIGKEY | e |] s2];
    cbn [snd] in E1; subst s2; try (subst r; left; reflexivity).
  unfold bind at 1 in Hr.
  pose proof (get_vote_key_state env "/keys/vote_key.txt" s1) as E2.
  destruct (get_vote_key env "/keys/vote_key.txt" s1) as [[VOTEKEY | e |] s2];
    cbn [snd] in E2; subst s2; try (subst r; left; reflexivity).
  unfold bind at 1 in Hr.
  pose proof (get_private_key_state env "/keys/address.txt" s1) as E3.
  destruct (get_private_key env "/keys/address.txt" s1) as [[ADDRESS_PRIVATE | e |] s2];
    cbn [snd] in E3; subst s2; try (subst r; left; reflexivity).
  unfold bind at 1 in Hr.
  pose proof (funding_step_faucet env address s1) as Hfund.
  pose proof (funding_step_preserves_gauge env address s1) as Hgauge.
  change (faucet_sent s1) with (faucet_sent s) in Hfund.
  change (ACTIVATED_AMOUNT s1) with (ACTIVATED_AMOUNT s) in Hgauge.
  destruct (funding_step env address s1) as [[[] | e |] s2]; cbn [fst snd] in Hfund, Hgauge;
    subst r; cbn [fst snd].
  - rewrite submit_step_faucet.
    destruct Hfund as [Hfund | (Hfund & Hnet & Hend)]; [left; exact Hfund | right].
    split; [exact Hfund | split; [exact Hnet |]].
    intros Hdown. rewrite Hdown in Hend. discriminate.
  - destruct Hfund as [Hfund | (Hfund & Hnet & Hend)]; [left; exact Hfund | right].
    split; [exact Hfund | split; [exact Hnet |]].
    intros Hdown. rewrite Hdown in Hend. injection Hend as ->.
    split; [reflexivity | exact Hgauge].
  - destruct Hfund as [Hfund | (Hfund & Hnet & Hend)]; [left; exact Hfund |].
    destruct (faucet env (List.length (faucet_sent s))); discriminate.
Qed.

Lemma is_validator_active_preserves_faucet env address :
  preserves faucet_sent (is_validator_active env address).
Proof. unfold is_validator_active. frame. Qed.

Lemma monitor_preserves_faucet env address fuel :
  preserves faucet_sent (monitor_active_validator env fuel address).
Proof.
  pose proof (is_validator_active_preserves_faucet env address).
  assert (preserves faucet_sent (get_epoch_number env)) by (unfold get_epoch_number; frame).
  assert (preserves faucet_sent (get_stake_by_address env address))
    by (unfold get_stake_by_address; frame).
  assert (preserves faucet_sent (set_balance_prometheus env address)).
  { unfold set_balance_prometheus.
    pose proof (get_balance_preserves faucet_sent env address
                  (fun _ _ => eq_refl) (fun _ _ => eq_refl) (fun _ _ => eq_refl)
                  (fun _ _ => eq_refl)).
    frame. }
  induction fuel as [| fuel IH]; cbn [monitor_active_validator]; frame.
Qed.

(** X8. The faucet. One run of [activate_validator] posts to the faucet at
    most once, and what it posts is the address it was called with. The
    POST is not inside any [try]: when it raises, the run ends there with
    [RequestException] and without the activation being counted. On a
    network other than [testnet] the whole script never contacts the
    faucet. *)
Theorem faucet_contacted_at_most_once :
  forall env fuel address s,
    let r := activate_validator env fuel address s in
    (faucet_sent (snd r) = faucet_sent s \/ faucet_sent (snd r) = address :: faucet_sent s) /\
    (faucet_sent (snd r) <> faucet_sent s ->
     faucet env (List.length (faucet_sent s)) = false ->
     fst r = Raise RequestException /\ ACTIVATED_AMOUNT (snd r) = ACTIVATED_AMOUNT s) /\
    (String.eqb (NIMIQ_NETWORK env) "testnet" = false ->
     forall cycles,
       faucet_sent (snd (main_loop env cycles fuel address s)) = faucet_sent s).
Proof.
  intros env fuel address s. cbv zeta. split; [| split].
  - destruct (activate_validator_faucet env fuel address s) as [H | (H & _)]; auto.
  - intros Hposted Hdown.
    destruct (activate_validator_faucet env fuel address s) as [H | (_ & _ & H)];
      [contradiction | exact (H Hdown)].
  - intros Hnet cycles.
    assert (Hact : preserves faucet_sent (activate_validator env fuel address)).
    { intros st. destruct (activate_validator_faucet env fuel address st) as [H | (_ & H & _)];
        [exact H | congruence]. }
    pose proof (is_validator_active_preserves_faucet env address) as Hactive.
    pose proof (monitor_preserves_faucet env address fuel) as Hmon.
    pose proof (check_consensus_preserves faucet_sent env fuel faucet_sent_beyond_network)
      as Hcons.
    assert (Hcheck : preserves faucet_sent (check_and_activate_validator env fuel address))
      by (unfold check_and_activate_validator; frame).
    revert s. change (preserves faucet_sent (main_loop env cycles fuel address)).
    induction cycles as [| cycles IH]; cbn [main_loop]; frame.
Qed.

Lemma faucet_contacted_at_most_once_witness :
  fst (activate_validator faucet_down_env 5 "NQ07 0000" initial_state) = Raise RequestException /\
  faucet_sent (snd (main_loop mainnet_env 3 5 "NQ07 0000" initial_state)) = [].
Proof.
  split.
  - apply (faucet_contacted_at_most_once faucet_down_env 5 "NQ07 0000" initial_state).
    + vm_compute. discriminate.
    + reflexivity.
  - apply (faucet_contacted_at_most_once mainnet_env 5 "NQ07 0000" initial_state).
    reflexivity.
Defined.

(** ** JSON-RPC error replies *)

(** A JSON-RPC error reaches the caller as the empty object. *)
Lemma rpc_error_reply env method params s :
  rpc_error_next env method params s ->
  rpc env method params s = (Ret (PDict []), after_answer method params (PDict []) s).
Proof.
  intros (status & d & E & Hs & Hres). unfold rpc, nimiq_request.
  change (Z.to_nat 3) with 3%nat.
  rewrite (nimiq_request_loop_replied env method params 5 2 s status d E Hs).
  cbv zeta. rewrite Hres. reflexivity.
Qed.

(** X9. What the callers make of a JSON-RPC error. When the node answers
    the request with an error object under a status that is not an error
    (so that [nimiq_request] hands back [{}]): [get_address],
    [get_epoch_number] and [get_balance] (and with it
    [set_balance_prometheus] and [wait_for_enough_stake]) raise [KeyError];
    [is_validator_active] answers [False] and leaves its gauge alone;
    [get_stake_by_address] raises [UnboundLocalError]; [needs_funds] answers
    [True]; [send_raw_tx] returns with the transaction logged as sent; and
    the consensus counter goes back to 0. *)
Theorem json_rpc_error_replies :
  forall env address tx s,
    (rpc_error_next env "getAddress" PNone s ->
     get_address env s = (Raise KeyError, after_answer "getAddress" PNone (PDict []) s)) /\
    (rpc_error_next env "getEpochNumber" PNone s ->
     get_epoch_number env s
     = (Raise KeyError, after_answer "getEpochNumber" PNone (PDict []) s)) /\
    (rpc_error_next env "getValidatorByAddress" (PList [PStr address]) s ->
     is_validator_active env address s
     = (Ret false, after_answer "getValidatorByAddress" (PList [PStr address]) (PDict []) s) /\
     fst (get_stake_by_address env address s) = Raise UnboundLocalError) /\
    (rpc_error_next env "getAccountByAddress" (PList [PStr address]) s ->
     needs_funds env address s
     = (Ret true, after_answer "getAccountByAddress" (PList [PStr address]) (PDict []) s) /\
     get_balance env address s
     = (Raise KeyError, after_answer "getAccountByAddress" (PList [PStr address]) (PDict []) s) /\
     fst (set_balance_prometheus env address s) = Raise KeyError /\
     forall fuel, fst (wait_for_enough_stake env (S fuel) address s) = Raise KeyError) /\
    (rpc_error_next env "sendRawTransaction" (PList [tx]) s ->
     fst (send_raw_tx env tx s) = Ret tt /\
     hd_error (logs (snd (send_raw_tx env tx s))) = Some (INFO, "Transaction send: {res}")) /\
    (rpc_error_next env "isConsensusEstablished" PNone s ->
     forall c, fst (check_consensus_body env c s) = Ret 0).
Proof.
  intros env address tx s.
  split; [| split; [| split; [| split; [| split]]]]; intros H;
    pose proof (rpc_error_reply _ _ _ _ H) as Hrpc.
  - unfold get_address. rewrite (bind_ret _ _ _ _ _ Hrpc). reflexivity.
  - unfold get_epoch_number. rewrite (bind_ret _ _ _ _ _ Hrpc). reflexivity.
  - split.
    + unfold is_validator_active. rewrite (bind_ret _ _ _ _ _ Hrpc). reflexivity.
    + unfold get_stake_by_address. rewrite (bind_ret _ _ _ _ _ Hrpc). reflexivity.
  - assert (Hbal : get_balance env address s
                   = (Raise KeyError,
                      after_answer "getAccountByAddress" (PList [PStr address]) (PDict []) s))
      by (unfold get_balance; rewrite (bind_ret _ _ _ _ _ Hrpc); reflexivity).
    split; [| split; [exact Hbal | split]].
    + unfold needs_funds. rewrite (bind_ret _ _ _ _ _ Hrpc). reflexivity.
    + unfold set_balance_prometheus. rewrite (bind_raise _ _ _ _ _ Hbal). reflexivity.
    + intros fuel. cbn [wait_for_enough_stake]. unfold wait_for_enough_stake_body.
      unfold bind at 1. rewrite (bind_raise _ _ _ _ _ Hbal). reflexivity.
  - split; unfold send_raw_tx; rewrite (bind_ret _ _ _ _ _ Hrpc); reflexivity.
  - intros c. rewrite (check_consensus_body_run env c s _ _ false Hrpc); reflexivity.
Qed.

Lemma json_rpc_error_replies_witness :
  fst (needs_funds (constant_env method_not_found) "NQ07 0000" initial_state) = Ret true /\
  fst (is_validator_active (constant_env method_not_found) "NQ07 0000" initial_state)
  = Ret false /\
  fst (get_address (constant_env method_not_found) initial_state) = Raise KeyError.
Proof.
  assert (H : forall method params,
             rpc_error_next (constant_env method_not_found) method params initial_state).
  { intros method params. exists 200, [("jsonrpc", PStr "2.0");
                                        ("error", PDict [("code", PInt (-32601));
                                                         ("message", PStr "Method not found")]);
                                        ("id", PInt 1)].
    repeat split. }
  destruct (json_rpc_error_replies (constant_env method_not_found) "NQ07 0000" PNone
              initial_state) as (Haddr & _ & Hval & Hacc & _).
  split; [| split].
  - destruct (Hacc (H _ _)) as [-> _]. reflexivity.
  - destruct (Hval (H _ _)) as [-> _]. reflexivity.
  - rewrite (Haddr (H _ _)). reflexivity.
Defined.

(** ** The keys of an activation *)

Lemma get_private_key_run env path s :
  get_private_key env path s = (fst (get_private_key env path s), s).
Proof. unfold get_private_key, readlines. destruct (files env path); reflexivity. Qed.

Lemma get_vote_key_run env path s :
  get_vote_key env path s = (fst (get_vote_key env path s), s).
Proof. unfold get_vote_key, readlines. destruct (files env path); reflexivity. Qed.

Lemma get_private_key_any_state env path s s' :
  fst (get_private_key env path s) = fst (get_private_key env path s').
Proof. unfold get_private_key, readlines. destruct (files env path); reflexivity. Qed.

Lemma get_vote_key_any_state env path s s' :
  fst (get_vote_key env path s) = fst (get_vote_key env path s').
Proof. unfold get_vote_key, readlines. destruct (files env path); reflexivity. Qed.

(** X10. An activation reads its three key files before it does anything
    else. When one of the reads raises (the file is missing, the vote key
    file has no label line or too few lines after it), [activate_validator]
    ends with that exception: nothing has been sent to the node, the faucet
    has not been contacted, and no gauge has changed. *)
Theorem activation_needs_its_keys :
  forall env fuel address s e,
    fst (get_private_key env "/keys/signing_key.txt" s) = Raise e \/
    ((exists k, fst (get_private_key env "/keys/signing_key.txt" s) = Ret k) /\
     fst (get_vote_key env "/keys/vote_key.txt" s) = Raise e) \/
    ((exists k, fst (get_private_key env "/keys/signing_key.txt" s) = Ret k) /\
     (exists k, fst (get_vote_key env "/keys/vote_key.txt" s) = Ret k) /\
     fst (get_private_key env "/keys/address.txt" s) = Raise e) ->
    let r := activate_validator env fuel address s in
    fst r = Raise e /\
    sent (snd r) = sent s /\
    faucet_sent (snd r) = faucet_sent s /\
    metrics (snd r) = metrics s.
Proof.
  intros env fuel address s e H. cbv zeta.
  set (s1 := with_logs ((INFO, "Address: {ADDRESS}") :: logs s) s).
  assert (Hrun : activate_validator env fuel address s = (Raise e, s1));
    [| rewrite Hrun; repeat split].
  rewrite activate_validator_unfold.
  unfold bind at 1. unfold log at 1. fold s1.
  rewrite (get_private_key_any_state env "/keys/signing_key.txt" s s1),
          (get_vote_key_any_state env "/keys/vote_key.txt" s s1),
          (get_private_key_any_state env "/keys/address.txt" s s1) in H.
  destruct H as [H1 | [([k1 H1] & H2) | ([k1 H1] & [k2 H2] & H3)]].
  - apply bind_raise. rewrite get_private_key_run, H1. reflexivity.
  - rewrite (bind_ret _ _ s1 s1 k1) by (rewrite get_private_key_run, H1; reflexivity).
    apply bind_raise. rewrite get_vote_key_run, H2. reflexivity.
  - rewrite (bind_ret _ _ s1 s1 k1) by (rewrite get_private_key_run, H1; reflexivity).
    rewrite (bind_ret _ _ s1 s1 k2) by (rewrite get_vote_key_run, H2; reflexivity).
    apply bind_raise. rewrite get_private_key_run, H3. reflexivity.
Qed.

Lemma activation_needs_its_keys_witness :
  fst (activate_validator (key_env vote_key_file) 5 "NQ07 0000" initial_state)
  = Raise FileNotFoundError /\
  sent (snd (activate_validator (key_env vote_key_file) 5 "NQ07 0000" initial_state)) = [].
Proof.
  destruct (activation_needs_its_keys (key_env vote_key_file) 5 "NQ07 0000" initial_state
              FileNotFoundError) as (H1 & H2 & _).
  - left. reflexivity.
  - split; [exact H1 | exact H2].
Defined.

(** ** The stake gauges *)

Lemma get_member_or d k default : Py.get (PDict d) k default = Ret (member_or d k default).
Proof. unfold Py.get, member_or. destruct (Py.lookup k d); reflexivity. Qed.

Lemma get_stake_by_address_run env address s s1 r vd :
  rpc env "getValidatorByAddress" (PList [PStr address]) s = (Ret (PDict r), s1) ->
  Py.lookup "data" r = Some (PDict vd) ->
  get_stake_by_address env address s =
  match Py.truediv (member_or vd "balance" (PInt 0)) Float64.f1e5 with
  | Ret balance =>
      match py_float env (member_or vd "numStakers" (PInt 0)) with
      | Ret n =>
          (Ret (PFloat balance, member_or vd "numStakers" (PInt 0),
                member_or vd "retired" (PBool false)),
           with_CURRENT_STAKERS n (with_TOTAL_STAKE balance s1))
      | Raise e => (Raise e, with_TOTAL_STAKE balance s1)
      | Pending => (Pending, with_TOTAL_STAKE balance s1)
      end
  | Raise e => (Raise e, s1)
  | Pending => (Pending, s1)
  end.
Proof.
  intros Hrpc Hd. unfold get_stake_by_address.
  rewrite (bind_ret _ _ _ _ _ Hrpc). cbv beta iota.
  unfold bind, lift, gauge_set. cbv beta iota.
  repeat (first [ rewrite (has_found r "data" _ Hd)
                | rewrite (subscript_found r "data" _ Hd)
                | rewrite get_member_or ];
          cbv beta iota).
  destruct (Py.truediv (member_or vd "balance" (PInt 0)) Float64.f1e5) as [balance | e |];
    [| reflexivity ..].
  cbn [py_float]. cbv beta iota.
  destruct (py_float env (member_or vd "numStakers" (PInt 0))) as [n | e |]; reflexivity.
Qed.

(** X11. The stake gauges. On a result with a ["data"] object,
    [get_stake_by_address] reads ["balance"], ["numStakers"] and
    ["retired"] with the defaults 0, 0 and [False], divides the balance by
    [1e5], and sets [TOTAL_STAKE] before [CURRENT_STAKERS]:
    - when both conversions succeed it returns the three values and both
      gauges hold them; for integers [z] and [k] that a double can hold these
      are [z / 1e5] and [float(k)];
    - when ["numStakers"] cannot be converted, the exception ends the call
      with [TOTAL_STAKE] already updated and [CURRENT_STAKERS] not;
    - when the division raises, no gauge is touched;
    - on an empty ["data"] object it returns [(0.0, 0, False)] and both
      gauges are set to 0. *)
Theorem stake_gauges_follow_the_node :
  forall env address s s1 r vd,
    rpc env "getValidatorByAddress" (PList [PStr address]) s = (Ret (PDict r), s1) ->
    Py.lookup "data" r = Some (PDict vd) ->
    let raw := member_or vd "balance" (PInt 0) in
    let num_stakers := member_or vd "numStakers" (PInt 0) in
    let retired := member_or vd "retired" (PBool false) in
    let out := get_stake_by_address env address s in
    (forall balance n,
        Py.truediv raw Float64.f1e5 = Ret balance ->
        py_float env num_stakers = Ret n ->
        out = (Ret (PFloat balance, num_stakers, retired),
               with_CURRENT_STAKERS n (with_TOTAL_STAKE balance s1))) /\
    (forall z k fz fk,
        raw = PInt z -> num_stakers = PInt k ->
        Float64.of_int z = Some fz -> Float64.of_int k = Some fk ->
        TOTAL_STAKE (snd out) = Float64.div fz Float64.f1e5 /\
        CURRENT_STAKERS (snd out) = fk) /\
    (forall balance e,
        Py.truediv raw Float64.f1e5 = Ret balance ->
        py_float env num_stakers = Raise e ->
        fst out = Raise e /\
        TOTAL_STAKE (snd out) = balance /\
        CURRENT_STAKERS (snd out) = CURRENT_STAKERS s1) /\
    (forall e, Py.truediv raw Float64.f1e5 = Raise e -> out = (Raise e, s1)) /\
    (vd = [] ->
     out = (Ret (PFloat (S754_zero false), PInt 0, PBool false),
            with_CURRENT_STAKERS (S754_zero false) (with_TOTAL_STAKE (S754_zero false) s1))).
Proof.
  intros env address s s1 r vd Hrpc Hd. cbv zeta.
  rewrite (get_stake_by_address_run env address s s1 r vd Hrpc Hd).
  split; [| split; [| split; [| split]]].
  - intros balance n -> ->. reflexivity.
  - intros z k fz fk -> -> Hz Hk. rewrite truediv_int, Hz.
    unfold py_float. rewrite Hk. split; reflexivity.
  - intros balance e -> ->. repeat split.
  - intros e ->. reflexivity.
  - intros ->. reflexivity.
Qed.

Lemma stake_gauges_follow_the_node_witness :
  TOTAL_STAKE (snd (get_stake_by_address
                      (result_env (PDict [("data", PDict [("balance", PInt 10000000);
                                                         ("numStakers", PInt 1)])]))
                      "NQ07 0000" initial_state)) = Float64.f100.
Proof.
  destruct (stake_gauges_follow_the_node
              (result_env (PDict [("data", PDict [("balance", PInt 10000000);
                                                 ("numStakers", PInt 1)])]))
              "NQ07 0000" initial_state _
              [("data", PDict [("balance", PInt 10000000); ("numStakers", PInt 1)])]
              [("balance", PInt 10000000); ("numStakers", PInt 1)]
              eq_refl eq_refl) as (_ & H & _).
  let v := eval vm_compute in
             (match Float64.of_int 10000000 with Some f => f | None => S754_zero false end) in
  pose (fz := v).
  destruct (H 10000000 1 fz Float64.f1 eq_refl eq_refl) as [Htotal _];
    [vm_compute; reflexivity | vm_compute; reflexivity |].
  rewrite Htotal. vm_compute. reflexivity.
Defined.

(** ** What is sent to the node *)

Lemma sends_only_preserves {A} allowed (m : M A) : preserves sent m -> sends_only allowed m.
Proof. intros H s. exists []. split; [apply H | reflexivity]. Qed.

Lemma sends_only_bind {A B} allowed (m : M A) (k : A -> M B) :
  sends_only allowed m -> (forall a, sends_only allowed (k a)) -> sends_only allowed (bind m k).
Proof.
  intros Hm Hk s. unfold bind.
  destruct (Hm s) as (new1 & Hsent1 & Hall1).
  destruct (m s) as [[a | e |] s1]; cbn [snd] in Hsent1 |- *;
    try (exists new1; split; [exact Hsent1 | exact Hall1]).
  destruct (Hk a s1) as (new2 & Hsent2 & Hall2).
  exists (new2 ++ new1). rewrite Hsent2, Hsent1, app_assoc, forallb_app, Hall1, Hall2.
  split; reflexivity.
Qed.

Lemma sends_only_rpc allowed env method params :
  allowed method = true -> sends_only allowed (rpc env method params).
Proof.
  intros Hallowed s. unfold rpc, nimiq_request.
  destruct (nimiq_request_loop_bounded env method params 5 ltac:(discriminate)
              (Z.to_nat 3) s) as (k & _ & Hsent & _).
  exists (repeat (method, Py.or_else params (PList [])) k). split; [exact Hsent |].
  clear Hsent. induction k as [| k IH]; cbn; [reflexivity |].
  rewrite Hallowed. exact IH.
Qed.

Ltac sends :=
  repeat first
    [ solve [auto]
    | apply sends_only_rpc; reflexivity
    | apply sends_only_bind; [| intros ?]
    | match goal with
      | |- sends_only _ (match ?x with _ => _ end) => destruct x
      end
    | apply sends_only_preserves; solve [frame] ].

Lemma is_validator_active_sends env address :
  sends_only read_only (is_validator_active env address).
Proof. unfold is_validator_active. sends. Qed.

Lemma monitor_sends env address fuel :
  sends_only read_only (monitor_active_validator env fuel address).
Proof.
  pose proof (is_validator_active_sends env address).
  assert (sends_only read_only (get_epoch_number env)) by (unfold get_epoch_number; sends).
  assert (sends_only read_only (get_stake_by_address env address))
    by (unfold get_stake_by_address; sends).
  assert (sends_only read_only (set_balance_prometheus env address))
    by (unfold set_balance_prometheus, get_balance; sends).
  induction fuel as [| fuel IH]; cbn [monitor_active_validator]; sends.
Qed.

Lemma check_consensus_sends env fuel :
  sends_only (String.eqb "isConsensusEstablished") (check_consensus env fuel).
Proof.
  unfold check_consensus. apply sends_only_bind; [sends | intros _].
  generalize 0. induction fuel as [| fuel IH]; intros c; cbn [check_consensus_loop].
  - destruct (c <? 3); sends.
  - destruct (c <? 3); [| sends].
    apply sends_only_bind; [unfold check_consensus_body; sends | intros c'; apply IH].
Qed.

(** X12. What is sent to the node outside an activation. The consensus gate
    sends nothing but [isConsensusEstablished]. Monitoring sends nothing but
    the three reading methods ([getValidatorByAddress], [getEpochNumber],
    [getAccountByAddress]), and never increments the activation counter nor
    contacts the faucet. So when the validator is reported active,
    [check_and_activate_validator] sends none of [importRawKey],
    [unlockAccount], [createNewValidatorTransaction], [sendRawTransaction]. *)
Theorem monitoring_only_reads :
  forall env fuel address,
    sends_only (String.eqb "isConsensusEstablished") (check_consensus env fuel) /\
    sends_only read_only (monitor_active_validator env fuel address) /\
    preserves ACTIVATED_AMOUNT (monitor_active_validator env fuel address) /\
    preserves faucet_sent (monitor_active_validator env fuel address) /\
    forall s,
      fst (is_validator_active env address s) = Ret true ->
      let r := check_and_activate_validator env fuel address s in
      (exists new,
          sent (snd r) = new ++ sent s /\
          forallb (fun request => read_only (fst request)) new = true) /\
      ACTIVATED_AMOUNT (snd r) = ACTIVATED_AMOUNT s /\
      faucet_sent (snd r) = faucet_sent s.
Proof.
  intros env fuel address.
  pose proof (monitor_sends env address fuel) as Hsends.
  pose proof (monitor_preserves_gauge env address fuel) as Hgauge.
  pose proof (monitor_preserves_faucet env address fuel) as Hfaucet.
  split; [apply check_consensus_sends |].
  split; [exact Hsends |]. split; [exact Hgauge |]. split; [exact Hfaucet |].
  intros s Hactive. cbv zeta.
  pose proof (is_validator_active_sends env address s) as Hs1.
  pose proof (is_validator_active_preserves_gauge env address s) as Hg1.
  pose proof (is_validator_active_preserves_faucet env address s) as Hf1.
  destruct (is_validator_active env address s) as [o s1] eqn:Hrun.
  cbn [fst snd] in Hactive, Hs1, Hg1, Hf1. subst o.
  set (s2 := with_logs ((INFO, "Validator already active.") :: logs s1) s1).
  assert (Hcheck : check_and_activate_validator env fuel address s
                   = monitor_active_validator env fuel address s2)
    by (unfold check_and_activate_validator; rewrite (bind_ret _ _ _ _ _ Hrun); reflexivity).
  rewrite Hcheck.
  destruct Hs1 as (new1 & Hsent1 & Hall1).
  destruct (Hsends s2) as (new2 & Hsent2 & Hall2).
  split; [| split].
  - exists (new2 ++ new1). rewrite Hsent2. subst s2. cbn [sent with_logs].
    rewrite Hsent1, app_assoc, forallb_app, Hall1, Hall2. split; reflexivity.
  - rewrite Hgauge. exact Hg1.
  - rewrite Hfaucet. exact Hf1.
Qed.

Lemma monitoring_only_reads_witness :
  ACTIVATED_AMOUNT
    (snd (check_and_activate_validator (result_env active_validator) 4 "NQ07 0000"
                                       initial_state))
  = ACTIVATED_AMOUNT initial_state.
Proof.
  destruct (monitoring_only_reads (result_env active_validator) 4 "NQ07 0000")
    as (_ & _ & _ & _ & H).
  destruct (H initial_state) as (_ & Hgauge & _); [reflexivity | exact Hgauge].
Defined.

(** ** Monitoring a healthy validator *)

Lemma rpc_answered env method params v s :
  answers env method (Py.or_else params (PList [])) v ->
  v <> PNone ->
  rpc env method params s = (Ret v, after_answer method params v s).
Proof.
  intros Hans Hv. destruct (Hans (List.length (sent s))) as (status & d & E & Hs & Hres).
  unfold rpc, nimiq_request. change (Z.to_nat 3) with 3%nat.
  rewrite (nimiq_request_loop_replied env method params 5 2 s status d E Hs).
  cbv zeta. rewrite Hres. destruct v; try reflexivity. contradiction.
Qed.

Lemma get_epoch_number_run env s s1 er ev ef :
  rpc env "getEpochNumber" PNone s = (Ret (PDict er), s1) ->
  Py.lookup "data" er = Some ev ->
  py_float env ev = Ret ef ->
  get_epoch_number env s = (Ret tt, with_EPOCH_NUMBER ef s1).
Proof.
  intros Hrpc Hd Hf. unfold get_epoch_number. rewrite (bind_ret _ _ _ _ _ Hrpc).
  cbv beta iota. rewrite (subscript_found er "data" ev Hd).
  unfold bind, lift, gauge_set. rewrite Hf. reflexivity.
Qed.

Lemma get_balance_run env address s s1 ar ad bv :
  rpc env "getAccountByAddress" (PList [PStr address]) s = (Ret (PDict ar), s1) ->
  Py.lookup "error" ar = None ->
  Py.lookup "data" ar = Some (PDict ad) ->
  Py.lookup "balance" ad = Some bv ->
  get_balance env address s = (Ret bv, s1).
Proof.
  intros Hrpc He Hd Hb. unfold get_balance. rewrite (bind_ret _ _ _ _ _ Hrpc).
  cbv beta iota. rewrite (has_missing ar "error" He).
  unfold bind at 1. unfold lift at 1. cbv beta iota.
  rewrite (subscript_found ar "data" _ Hd).
  unfold bind at 1. unfold lift at 1. cbv beta iota.
  rewrite (subscript_found ad "balance" _ Hb). reflexivity.
Qed.

Lemma concat_repeat_comm {A} (x : list A) n :
  List.concat (repeat x n) ++ x = x ++ List.concat (repeat x n).
Proof.
  induction n as [| n IH]; cbn [repeat List.concat].
  - rewrite app_nil_r. reflexivity.
  - rewrite <- app_assoc, IH. reflexivity.
Qed.

Section SteadyState.

Variable env : Env.
Variable address : string.
Variables (r vd er ar ad : Py.dict) (rv ev bv : pyval) (ef bal nf nim : spec_float).

Hypothesis validator :
  answers env "getValidatorByAddress" (PList [PStr address]) (PDict r).
Hypothesis validator_data : Py.lookup "data" r = Some (PDict vd).
Hypothesis validator_retired : Py.lookup "retired" vd = Some rv.
Hypothesis not_retired : Py.truthy rv = false.
Hypothesis stake : Py.truediv (member_or vd "balance" (PInt 0)) Float64.f1e5 = Ret bal.
Hypothesis stakers : py_float env (member_or vd "numStakers" (PInt 0)) = Ret nf.
Hypothesis epoch : answers env "getEpochNumber" (PList []) (PDict er).
Hypothesis epoch_data : Py.lookup "data" er = Some ev.
Hypothesis epoch_number : py_float env ev = Ret ef.
Hypothesis account : answers env "getAccountByAddress" (PList [PStr address]) (PDict ar).
Hypothesis account_no_error : Py.lookup "error" ar = None.
Hypothesis account_data : Py.lookup "data" ar = Some (PDict ad).
Hypothesis account_balance : Py.lookup "balance" ad = Some bv.
Hypothesis balance_present : bv <> PNone.
Hypothesis balance_nim : Py.truediv bv Float64.f1e5 = Ret nim.

(** One round: the four requests, the five gauges, the pause. *)
Lemma monitor_round fuel s :
  exists s',
    monitor_active_validator env (S fuel) address s = monitor_active_validator env fuel address s' /\
    sent s' = round_requests address ++ sent s /\
    sleeps s' = 30000 :: 500 :: 500 :: 500 :: 500 :: sleeps s /\
    VALIDATOR_ACTIVE s' = Float64.f1 /\
    EPOCH_NUMBER s' = ef /\
    TOTAL_STAKE s' = bal /\
    CURRENT_STAKERS s' = nf /\
    CURRENT_BALANCE s' = nim.
Proof.
  assert (Hr : PDict r <> PNone) by discriminate.
  assert (Her : PDict er <> PNone) by discriminate.
  assert (Har : PDict ar <> PNone) by discriminate.
  pose proof (rpc_answered env "getValidatorByAddress" (PList [PStr address]) (PDict r) s
                validator Hr) as H1.
  set (s1 := after_answer "getValidatorByAddress" (PList [PStr address]) (PDict r) s) in H1.
  assert (E1 : is_validator_active env address s
               = (Ret true, with_VALIDATOR_ACTIVE Float64.f1 s1)).
  { rewrite is_validator_active_unfold, (bind_ret _ _ _ _ _ H1).
    rewrite (is_validator_active_after_data env r (PDict vd) s1 validator_data).
    rewrite (subscript_found vd "retired" rv validator_retired), not_retired. reflexivity. }
  set (s2 := with_logs ((INFO, "Validator still active, updating metrics.")
                          :: logs (with_VALIDATOR_ACTIVE Float64.f1 s1))
                       (with_VALIDATOR_ACTIVE Float64.f1 s1)).
  pose proof (rpc_answered env "getEpochNumber" PNone (PDict er) s2 epoch Her) as H2.
  pose proof (get_epoch_number_run env s2 _ er ev ef H2 epoch_data epoch_number) as E2.
  set (s3 := with_EPOCH_NUMBER ef _) in E2.
  pose proof (rpc_answered env "getValidatorByAddress" (PList [PStr address]) (PDict r) s3
                validator Hr) as H3.
  pose proof (get_stake_by_address_run env address s3 _ r vd H3 validator_data) as E3.
  rewrite stake, stakers in E3.
  set (s4 := with_CURRENT_STAKERS nf _) in E3.
  pose proof (rpc_answered env "getAccountByAddress" (PList [PStr address]) (PDict ar) s4
                account Har) as H4.
  pose proof (get_balance_run env address s4 _ ar ad bv H4 account_no_error account_data
                account_balance) as Hbal.
  pose proof (set_balance_prometheus_run env address s4 bv _ Hbal) as E4.
  rewrite balance_nim in E4.
  assert (E4' : set_balance_prometheus env address s4
                = (Ret (PFloat nim),
                   with_CURRENT_BALANCE nim
                     (after_answer "getAccountByAddress" (PList [PStr address]) (PDict ar) s4)))
    by (rewrite E4; destruct bv; try reflexivity; contradiction).
  set (s5 := with_CURRENT_BALANCE nim _) in E4'.
  exists (with_sleeps (30000 :: sleeps s5) s5). split; [| repeat split].
  cbn [monitor_active_validator].
  rewrite (bind_ret _ _ _ _ _ E1). cbn [negb]. cbv iota.
  rewrite (bind_ret _ _ _ s2 tt) by reflexivity.
  rewrite (bind_ret _ _ _ _ _ E2), (bind_ret _ _ _ _ _ E3), (bind_ret _ _ _ _ _ E4').
  rewrite (bind_ret _ _ _ (with_sleeps (30000 :: sleeps s5) s5) tt) by reflexivity.
  reflexivity.
Qed.

Lemma monitor_rounds fuel : forall s,
  fst (monitor_active_validator env fuel address s) = Pending /\
  sent (snd (monitor_active_validator env fuel address s))
  = List.concat (repeat (round_requests address) fuel) ++ sent s /\
  ((0 < fuel)%nat ->
   VALIDATOR_ACTIVE (snd (monitor_active_validator env fuel address s)) = Float64.f1 /\
   EPOCH_NUMBER (snd (monitor_active_validator env fuel address s)) = ef /\
   TOTAL_STAKE (snd (monitor_active_validator env fuel address s)) = bal /\
   CURRENT_STAKERS (snd (monitor_active_validator env fuel address s)) = nf /\
   CURRENT_BALANCE (snd (monitor_active_validator env fuel address s)) = nim).
Proof.
  induction fuel as [| fuel IH]; intros s.
  - cbn. repeat split; lia.
  - destruct (monitor_round fuel s)
      as (s' & -> & Hsent & _ & Hactive & Hepoch & Hstake & Hstakers & Hbalance).
    destruct (IH s') as (Hpending & Hsent' & Hgauges).
    split; [exact Hpending | split].
    + rewrite Hsent', Hsent. cbn [repeat List.concat].
      rewrite app_assoc, concat_repeat_comm. reflexivity.
    + intros _. destruct fuel as [| fuel'].
      * cbn. repeat split; assumption.
      * apply Hgauges. lia.
Qed.

End SteadyState.

(** X13. Monitoring a healthy validator. Let the node answer
    [getValidatorByAddress] with a validator that is not retired,
    [getEpochNumber] with an epoch, and [getAccountByAddress] with a balance,
    all convertible to numbers. Then [monitor_active_validator] never leaves
    its loop (no return, no exception, whatever the number of rounds); each
    round sends exactly four requests, in the order [getValidatorByAddress],
    [getEpochNumber], [getValidatorByAddress], [getAccountByAddress]; and
    from the first round on the gauges hold what the node reported:
    [VALIDATOR_ACTIVE] 1, the epoch, stake and balance divided by [1e5], and
    the number of stakers. *)
Theorem monitoring_steady_state :
  forall env address r vd er ar ad rv ev bv ef bal nf nim,
    answers env "getValidatorByAddress" (PList [PStr address]) (PDict r) ->
    Py.lookup "data" r = Some (PDict vd) ->
    Py.lookup "retired" vd = Some rv ->
    Py.truthy rv = false ->
    Py.truediv (member_or vd "balance" (PInt 0)) Float64.f1e5 = Ret bal ->
    py_float env (member_or vd "numStakers" (PInt 0)) = Ret nf ->
    answers env "getEpochNumber" (PList []) (PDict er) ->
    Py.lookup "data" er = Some ev ->
    py_float env ev = Ret ef ->
    answers env "getAccountByAddress" (PList [PStr address]) (PDict ar) ->
    Py.lookup "error" ar = None ->
    Py.lookup "data" ar = Some (PDict ad) ->
    Py.lookup "balance" ad = Some bv ->
    bv <> PNone ->
    Py.truediv bv Float64.f1e5 = Ret nim ->
    forall fuel s,
      let out := monitor_active_validator env fuel address s in
      fst out = Pending /\
      sent (snd out) = List.concat (repeat (round_requests address) fuel) ++ sent s /\
      ((0 < fuel)%nat ->
       VALIDATOR_ACTIVE (snd out) = Float64.f1 /\
       EPOCH_NUMBER (snd out) = ef /\
       TOTAL_STAKE (snd out) = bal /\
       CURRENT_STAKERS (snd out) = nf /\
       CURRENT_BALANCE (snd out) = nim).
Proof.
  intros env address r vd er ar ad rv ev bv ef bal nf nim
         H1 H2 H3 H4 H5 H6 H7 H8 H9 H10 H11 H12 H13 H14 H15 fuel s.
  exact (monitor_rounds env address r vd er ar ad rv ev bv ef bal nf nim
           H1 H2 H3 H4 H5 H6 H7 H8 H9 H10 H11 H12 H13 H14 H15 fuel s).
Qed.

Lemma monitoring_steady_state_witness :
  fst (monitor_active_validator healthy_env 3 "NQ07 0000" initial_state) = Pending /\
  CURRENT_BALANCE (snd (monitor_active_validator healthy_env 3 "NQ07 0000" initial_state))
  = Float64.f100.
Proof.
  assert (Hans : forall method params result,
             node healthy_env 0 method params = rpc_ok result ->
             answers healthy_env method params result).
  { intros method params result H i. eexists 200, _. split; [exact H | split; reflexivity]. }
  assert (Hstake : Py.truediv (PInt 10000000) Float64.f1e5 = Ret Float64.f100)
    by (vm_compute; reflexivity).
  assert (Hstakers : py_float healthy_env (PInt 1) = Ret Float64.f1)
    by (vm_compute; reflexivity).
  assert (Hepoch : py_float healthy_env (PInt 42) = Ret f42)
    by (vm_compute; reflexivity).
  pose proof (Hans "getValidatorByAddress" (PList [PStr "NQ07 0000"])
                (PDict [("data", PDict [("retired", PBool false); ("balance", PInt 10000000);
                                        ("numStakers", PInt 1)])]) eq_refl) as Hvalidator.
  pose proof (Hans "getEpochNumber" (PList []) (PDict [("data", PInt 42)]) eq_refl)
    as Hepochs.
  pose proof (Hans "getAccountByAddress" (PList [PStr "NQ07 0000"])
                (PDict [("data", PDict [("balance", PInt 10000000)])]) eq_refl) as Haccount.
  destruct (monitoring_steady_state
              healthy_env "NQ07 0000"
              [("data", PDict [("retired", PBool false); ("balance", PInt 10000000);
                               ("numStakers", PInt 1)])]
              [("retired", PBool false); ("balance", PInt 10000000); ("numStakers", PInt 1)]
              [("data", PInt 42)]
              [("data", PDict [("balance", PInt 10000000)])]
              [("balance", PInt 10000000)]
              (PBool false) (PInt 42) (PInt 10000000)
              f42 Float64.f100 Float64.f1 Float64.f100
              Hvalidator eq_refl eq_refl eq_refl Hstake Hstakers
              Hepochs eq_refl Hepoch
              Haccount eq_refl eq_refl eq_refl
              ltac:(discriminate) Hstake
              3%nat initial_state)
    as (Hpending & _ & Hgauges).
  split; [exact Hpending |]. apply Hgauges. lia.
Defined.

(** ** An activation that goes through *)

Lemma needs_funds_funded env address s ar ad z :
  answers env "getAccountByAddress" (PList [PStr address]) (PDict ar) ->
  Py.lookup "data" ar = Some (PDict ad) ->
  Py.lookup "balance" ad = Some (PInt z) ->
  z <> 0 ->
  needs_funds env address s
  = (Ret false, after_answer "getAccountByAddress" (PList [PStr address]) (PDict ar) s).
Proof.
  intros Hans Hd Hb Hz.
  rewrite needs_funds_unfold.
  rewrite (bind_ret _ _ _ _ _
             (rpc_answered env "getAccountByAddress" (PList [PStr address]) (PDict ar) s Hans
                ltac:(discriminate))).
  unfold needs_funds_after. rewrite (get_found ar "data" _ _ Hd).
  unfold bind at 1. unfold lift at 1. cbv beta iota.
  rewrite (get_found ad "balance" _ _ Hb).
  unfold bind, lift. cbn [Py.eq_int].
  destruct (z =? 0) eqn:E; [apply Z.eqb_eq in E; contradiction | reflexivity].
Qed.

Lemma wait_for_enough_stake_funded env address fuel s ar ad z f :
  answers env "getAccountByAddress" (PList [PStr address]) (PDict ar) ->
  Py.lookup "error" ar = None ->
  Py.lookup "data" ar = Some (PDict ad) ->
  Py.lookup "balance" ad = Some (PInt z) ->
  Float64.of_int z = Some f ->
  10 ^ 10 <= z ->
  wait_for_enough_stake env (S fuel) address s
  = (Ret tt,
     let s2 := with_CURRENT_BALANCE (Float64.div f Float64.f1e5)
                 (after_answer "getAccountByAddress" (PList [PStr address]) (PDict ar) s) in
     with_logs ((INFO, "Balance reached: {balance} NIM.") :: logs s2) s2).
Proof.
  intros Hans He Hd Hb Hf Hz.
  pose proof (get_balance_run env address s _ ar ad (PInt z)
                (rpc_answered env "getAccountByAddress" (PList [PStr address]) (PDict ar) s Hans
                   ltac:(discriminate)) He Hd Hb) as Hbal.
  pose proof (wait_for_enough_stake_body_run env address s (PInt z) _ Hbal) as Hbody.
  cbv iota in Hbody. rewrite truediv_int, Hf in Hbody. cbv zeta in Hbody.
  rewrite (stake_test_threshold z f Hf) in Hbody.
  replace (10 ^ 10 <=? z) with true in Hbody by (symmetry; apply Z.leb_le; exact Hz).
  cbn [wait_for_enough_stake]. rewrite (bind_ret _ _ _ _ _ Hbody). reflexivity.
Qed.

Lemma send_raw_tx_sent env tx s d :
  answers env "sendRawTransaction" (PList [tx]) (PDict d) ->
  Py.lookup "error" d = None ->
  send_raw_tx env tx s
  = (Ret tt,
     let s1 := after_answer "sendRawTransaction" (PList [tx]) (PDict d) s in
     let s2 := with_logs ((INFO, "Transaction: {res}") :: logs s1) s1 in
     with_logs ((INFO, "Transaction send: {res}") :: logs s2) s2).
Proof.
  intros Hans He. unfold send_raw_tx.
  rewrite (bind_ret _ _ _ _ _
             (rpc_answered env "sendRawTransaction" (PList [tx]) (PDict d) s Hans
                ltac:(discriminate))).
  unfold bind at 1. unfold log at 1. cbv beta iota.
  rewrite (has_missing d "error" He). reflexivity.
Qed.

Lemma bind_log {B} l msg (k : unit -> M B) s :
  bind (log l msg) k s = k tt (with_logs ((l, msg) :: logs s) s).
Proof. reflexivity. Qed.

Lemma bind_lift_ret {A B} (v : A) (k : A -> M B) s : bind (lift (Ret v)) k s = k v s.
Proof. reflexivity. Qed.

(** The funding step on an address that has funds: nothing goes to the
    faucet; on the test network the balance is asked for once. *)
Lemma funding_step_funded env address s ar ad z :
  answers env "getAccountByAddress" (PList [PStr address]) (PDict ar) ->
  Py.lookup "data" ar = Some (PDict ad) ->
  Py.lookup "balance" ad = Some (PInt z) ->
  z <> 0 ->
  exists s1,
    funding_step env address s = (Ret tt, s1) /\
    sent s1 = (if String.eqb (NIMIQ_NETWORK env) "testnet"
               then [("getAccountByAddress", PList [PStr address])] else []) ++ sent s /\
    faucet_sent s1 = faucet_sent s /\
    ACTIVATED_AMOUNT s1 = ACTIVATED_AMOUNT s.
Proof.
  intros Hans Hd Hb Hz. unfold funding_step.
  destruct (String.eqb (NIMIQ_NETWORK env) "testnet").
  - eexists. split.
    + rewrite bind_log.
      rewrite (bind_ret _ _ _ _ _ (needs_funds_funded env address _ ar ad z Hans Hd Hb Hz)).
      reflexivity.
    + repeat split.
  - exists s. repeat split.
Qed.

(** X14. An activation that goes through. Let the three key files be
    readable, the address hold at least 100 000 NIM (a raw balance of at
    least [10^10] that a double can hold), and the node answer every
    request. Then [activate_validator] returns [True] having sent, in this
    order: on the test network only, one [getAccountByAddress] (the address
    has funds, so the faucet is not contacted); [importRawKey] with the
    private key of [/keys/address.txt]; [unlockAccount]; one
    [getAccountByAddress]; [createNewValidatorTransaction] with the address,
    the signing key, the vote key, fee 500 and validity start ["+0"];
    and [sendRawTransaction] with the ["data"] of that result. The activation
    counter of the address has gone up by one and the balance gauge holds the
    balance divided by [1e5]. *)
Theorem activation_goes_through :
  forall env fuel address s SIGKEY VOTEKEY PRIV v1 v2 ar ad z f rd d5,
    fst (get_private_key env "/keys/signing_key.txt" s) = Ret SIGKEY ->
    fst (get_vote_key env "/keys/vote_key.txt" s) = Ret VOTEKEY ->
    fst (get_private_key env "/keys/address.txt" s) = Ret PRIV ->
    answers env "importRawKey" (PList [PRIV; PStr ""]) v1 ->
    v1 <> PNone ->
    answers env "unlockAccount" (PList [PStr address; PStr ""; PInt 0]) v2 ->
    v2 <> PNone ->
    answers env "getAccountByAddress" (PList [PStr address]) (PDict ar) ->
    Py.lookup "error" ar = None ->
    Py.lookup "data" ar = Some (PDict ad) ->
    Py.lookup "balance" ad = Some (PInt z) ->
    Float64.of_int z = Some f ->
    10 ^ 10 <= z ->
    answers env "createNewValidatorTransaction"
            (PList [PStr address; PStr address; SIGKEY; PStr VOTEKEY; PStr address;
                    PStr ""; PInt 500; PStr "+0"]) (PDict rd) ->
    answers env "sendRawTransaction" (PList [member_or rd "data" PNone]) (PDict d5) ->
    Py.lookup "error" d5 = None ->
    let out := activate_validator env (S fuel) address s in
    fst out = Ret true /\
    sent (snd out)
    = [("sendRawTransaction", PList [member_or rd "data" PNone]);
       ("createNewValidatorTransaction",
        PList [PStr address; PStr address; SIGKEY; PStr VOTEKEY; PStr address;
               PStr ""; PInt 500; PStr "+0"]);
       ("getAccountByAddress", PList [PStr address]);
       ("unlockAccount", PList [PStr address; PStr ""; PInt 0]);
       ("importRawKey", PList [PRIV; PStr ""])]
      ++ (if String.eqb (NIMIQ_NETWORK env) "testnet"
          then [("getAccountByAddress", PList [PStr address])] else [])
      ++ sent s /\
    faucet_sent (snd out) = faucet_sent s /\
    ACTIVATED_AMOUNT (snd out) = bump address (ACTIVATED_AMOUNT s) /\
    CURRENT_BALANCE (snd out) = Float64.div f Float64.f1e5.
Proof.
  intros env fuel address s SIGKEY VOTEKEY PRIV v1 v2 ar ad z f rd d5
         Hsig Hvote Hpriv Himport Hv1 Hunlock Hv2 Hacc Herr Hdata Hbal Hf Hz Hcreate Hsend Hd5.
  cbv zeta.
  set (s0 := with_logs ((INFO, "Address: {ADDRESS}") :: logs s) s).
  assert (E1 : get_private_key env "/keys/signing_key.txt" s0 = (Ret SIGKEY, s0))
    by (rewrite get_private_key_run, (get_private_key_any_state env _ s0 s), Hsig; reflexivity).
  assert (E2 : get_vote_key env "/keys/vote_key.txt" s0 = (Ret VOTEKEY, s0))
    by (rewrite get_vote_key_run, (get_vote_key_any_state env _ s0 s), Hvote; reflexivity).
  assert (E3 : get_private_key env "/keys/address.txt" s0 = (Ret PRIV, s0))
    by (rewrite get_private_key_run, (get_private_key_any_state env _ s0 s), Hpriv; reflexivity).
  assert (Hz0 : z <> 0) by lia.
  destruct (funding_step_funded env address s0 ar ad z Hacc Hdata Hbal Hz0)
    as (s1 & Hfund & Hsent1 & Hfaucet1 & Hgauge1).
  assert (Hrun : exists s',
             activate_validator env (S fuel) address s = (Ret true, s') /\
             sent s'
             = [("sendRawTransaction", PList [member_or rd "data" PNone]);
                ("createNewValidatorTransaction",
                 PList [PStr address; PStr address; SIGKEY; PStr VOTEKEY; PStr address;
                        PStr ""; PInt 500; PStr "+0"]);
                ("getAccountByAddress", PList [PStr address]);
                ("unlockAccount", PList [PStr address; PStr ""; PInt 0]);
                ("importRawKey", PList [PRIV; PStr ""])] ++ sent s1 /\
             faucet_sent s' = faucet_sent s1 /\
             ACTIVATED_AMOUNT s' = bump address (ACTIVATED_AMOUNT s1) /\
             CURRENT_BALANCE s' = Float64.div f Float64.f1e5).
  { eexists. split.
    { rewrite activate_validator_unfold, bind_log. fold s0.
      rewrite (bind_ret _ _ _ _ _ E1), (bind_ret _ _ _ _ _ E2), (bind_ret _ _ _ _ _ E3),
              (bind_ret _ _ _ _ _ Hfund).
      unfold submit_step.
      rewrite bind_log.
      rewrite (bind_ret _ _ _ _ _ (rpc_answered env "importRawKey" (PList [PRIV; PStr ""]) v1 _ Himport Hv1)).
      rewrite bind_log.
      rewrite (bind_ret _ _ _ _ _ (rpc_answered env "unlockAccount" (PList [PStr address; PStr ""; PInt 0]) v2 _
                                 Hunlock Hv2)).
      rewrite bind_log.
      rewrite (bind_ret _ _ _ _ _
                 (wait_for_enough_stake_funded env address fuel _ ar ad z f
                    Hacc Herr Hdata Hbal Hf Hz)).
      rewrite bind_log.
      rewrite (bind_ret _ _ _ _ _
                 (rpc_answered env "createNewValidatorTransaction"
                    (PList [PStr address; PStr address; SIGKEY; PStr VOTEKEY; PStr address;
                            PStr ""; PInt 500; PStr "+0"]) (PDict rd) _ Hcreate
                    ltac:(discriminate))).
      rewrite bind_log, get_member_or, bind_lift_ret.
      rewrite (bind_ret _ _ _ _ _ (send_raw_tx_sent env _ _ d5 Hsend Hd5)).
      reflexivity. }
    repeat split. }
  destruct Hrun as (s' & -> & Hsent & Hfaucet & Hgauge & Hbalance). cbn [fst snd].
  split; [reflexivity |]. split; [| split; [| split]].
  - rewrite Hsent, Hsent1. reflexivity.
  - rewrite Hfaucet. exact Hfaucet1.
  - rewrite Hgauge, Hgauge1. reflexivity.
  - exact Hbalance.
Qed.

Lemma activation_goes_through_witness :
  fst (activate_validator (submit_env (rpc_ok (PDict [("data", PStr "f00d")]))) 1 "NQ07 0000"
                          initial_state) = Ret true.
Proof.
  assert (Hans : forall method params result,
             node (submit_env (rpc_ok (PDict [("data", PStr "f00d")]))) 0 method params
             = rpc_ok result ->
             answers (submit_env (rpc_ok (PDict [("data", PStr "f00d")]))) method params result).
  { intros method params result H i. eexists 200, _. split; [exact H | split; reflexivity]. }
  let v := eval vm_compute in
             (match Float64.of_int 10000000000 with Some f => f | None => S754_zero false end) in
  pose (f := v).
  apply (activation_goes_through
           (submit_env (rpc_ok (PDict [("data", PStr "f00d")]))) 0 "NQ07 0000" initial_state
           (PStr "11bb") "c2d3e4" (PStr "22dd")
           (PDict [("data", PNone)]) (PDict [("data", PNone)])
           [("data", PDict [("balance", PInt 10000000000)])]
           [("balance", PInt 10000000000)]
           10000000000 f
           [("data", PStr "0a1b2c")] [("data", PStr "f00d")]);
    first [ apply Hans; reflexivity
          | discriminate
          | vm_compute; reflexivity
          | vm_compute; discriminate ].
Defined.

(** ** Which function writes which gauge *)

Lemma activate_validator_preserves_validator_metrics env fuel address :
  preserves validator_metrics (activate_validator env fuel address).
Proof.
  pose proof (wait_for_enough_stake_preserves validator_metrics env address
                (fun _ _ => eq_refl) (fun _ _ => eq_refl) (fun _ _ => eq_refl)
                (fun _ _ => eq_refl) (fun _ _ => eq_refl) fuel) as Hwait.
  pose proof (fun tx => send_raw_tx_preserves validator_metrics env tx
                (fun _ _ => eq_refl) (fun _ _ => eq_refl) (fun _ _ => eq_refl)
                (fun _ _ => eq_refl)) as Hsend.
  pose proof (get_private_key_preserves validator_metrics env) as Hkey.
  pose proof (get_vote_key_preserves validator_metrics env) as Hvote.
  assert (Hneeds : preserves validator_metrics (needs_funds env address))
    by (unfold needs_funds; frame).
  unfold activate_validator. frame.
Qed.

(** X15. Which function writes which gauge, whatever the node answers and
    however the call ends. [check_consensus], [needs_funds], [get_balance],
    [get_address] and [send_raw_tx] write no gauge. [is_validator_active]
    writes none but [VALIDATOR_ACTIVE], [get_epoch_number] none but
    [EPOCH_NUMBER], [get_stake_by_address] none but [TOTAL_STAKE] and
    [CURRENT_STAKERS], [set_balance_prometheus] and [wait_for_enough_stake]
    none but [CURRENT_BALANCE]. An activation leaves [VALIDATOR_ACTIVE],
    [EPOCH_NUMBER], [TOTAL_STAKE] and [CURRENT_STAKERS] as they were: they
    keep their last monitored values until the validator is monitored
    again. *)
Theorem gauge_writers :
  forall env fuel address tx,
    preserves metrics (check_consensus env fuel) /\
    preserves metrics (needs_funds env address) /\
    preserves metrics (get_balance env address) /\
    preserves metrics (get_address env) /\
    preserves metrics (send_raw_tx env tx) /\
    preserves (fun s => (ACTIVATED_AMOUNT s, EPOCH_NUMBER s, CURRENT_BALANCE s, TOTAL_STAKE s,
                         CURRENT_STAKERS s))
              (is_validator_active env address) /\
    preserves (fun s => (ACTIVATED_AMOUNT s, VALIDATOR_ACTIVE s, CURRENT_BALANCE s,
                         TOTAL_STAKE s, CURRENT_STAKERS s))
              (get_epoch_number env) /\
    preserves (fun s => (ACTIVATED_AMOUNT s, VALIDATOR_ACTIVE s, EPOCH_NUMBER s,
                         CURRENT_BALANCE s))
              (get_stake_by_address env address) /\
    preserves (fun s => (ACTIVATED_AMOUNT s, VALIDATOR_ACTIVE s, EPOCH_NUMBER s, TOTAL_STAKE s,
                         CURRENT_STAKERS s))
              (set_balance_prometheus env address) /\
    preserves (fun s => (ACTIVATED_AMOUNT s, VALIDATOR_ACTIVE s, EPOCH_NUMBER s, TOTAL_STAKE s,
                         CURRENT_STAKERS s))
              (wait_for_enough_stake env fuel address) /\
    preserves validator_metrics (activate_validator env fuel address).
Proof.
  intros env fuel address tx.
  pose proof (fun {X} (proj : State -> X) H1 H2 H3 H4 =>
                get_balance_preserves proj env address H1 H2 H3 H4) as Hbal.
  split; [apply check_consensus_preserves, metrics_beyond_network |].
  split; [unfold needs_funds; frame |].
  split; [apply Hbal; intros; reflexivity |].
  split; [unfold get_address; frame |].
  split; [apply send_raw_tx_preserves; intros; reflexivity |].
  split; [unfold is_validator_active; frame |].
  split; [unfold get_epoch_number; frame |].
  split; [unfold get_stake_by_address; frame |].
  split.
  { unfold set_balance_prometheus.
    apply preserves_bind; [apply Hbal; intros; reflexivity | intros balance]. frame. }
  split; [apply wait_for_enough_stake_preserves; intros; reflexivity |].
  apply activate_validator_preserves_validator_metrics.
Qed.

(** ** The activation counter *)

Lemma bind_assoc {A B C} (m : M A) (f : A -> M B) (g : B -> M C) s :
  bind (bind m f) g s = bind m (fun x => bind (f x) g) s.
Proof. unfold bind. destruct (m s) as [[a | e |] s1]; reflexivity. Qed.

Lemma bind_ext {A B} (m : M A) (f g : A -> M B) s :
  (forall a s', f a s' = g a s') -> bind m f s = bind m g s.
Proof. intros H. unfold bind. destruct (m s) as [[a | e |] s1]; [apply H | reflexivity ..]. Qed.

(** [activate_validator] is: everything before the send, then
    [send_raw_tx], then the increment, then [return True]. *)
Lemma activate_validator_split env fuel address s :
  activate_validator env fuel address s =
  bind (before_send env fuel address)
       (fun tx => send_raw_tx env tx ;; activated_inc address ;; ret true) s.
Proof.
  rewrite activate_validator_unfold. unfold before_send, submit_step. symmetry.
  repeat (rewrite bind_assoc; apply bind_ext; intros ? ?).
  reflexivity.
Qed.

(** What follows the call in a function does not write [proj]: the part
    [proj] of the state is as the call left it. *)
Lemma bind_tail {X A B} (proj : State -> X) (m : M A) (k : A -> M B) s :
  (forall a, preserves proj (k a)) -> proj (snd (bind m k s)) = proj (snd (m s)).
Proof.
  intros Hk. unfold bind. destruct (m s) as [[a | e |] s1]; [apply Hk | reflexivity ..].
Qed.

(** [send_raw_tx] posts [sendRawTransaction] with [[tx_hash]] between one
    and three times, and nothing else. *)
Lemma send_raw_tx_posts env tx s :
  exists k,
    (1 <= k <= 3)%nat /\
    sent (snd (send_raw_tx env tx s)) = repeat ("sendRawTransaction", PList [tx]) k ++ sent s.
Proof.
  destruct (nimiq_request_loop_posts env "sendRawTransaction" (PList [tx]) 5
              ltac:(discriminate) 3 s) as (k & Hk & Hpos & Hsent).
  exists k. split; [split; [apply Hpos; lia | exact Hk] |].
  unfold send_raw_tx. rewrite (bind_tail sent); [exact Hsent |].
  intros res. frame.
Qed.

(** Every outcome of the call that [send_raw_tx] tells apart makes it return
    (with [None]). *)
Lemma send_raw_tx_returns env tx s res s1 :
  rpc env "sendRawTransaction" (PList [tx]) s = (Ret res, s1) ->
  send_outcome res ->
  fst (send_raw_tx env tx s) = Ret tt.
Proof.
  intros Hrpc Hres. unfold send_raw_tx. rewrite (bind_ret _ _ _ _ _ Hrpc), bind_log.
  destruct Hres as [-> | (d & -> & [He | (e & m & He & Hm)])]; cbv beta iota.
  - reflexivity.
  - rewrite (has_missing d "error" He). reflexivity.
  - rewrite (has_found d "error" _ He), bind_lift_ret. cbv iota.
    rewrite (subscript_found d "error" _ He), bind_lift_ret.
    rewrite (subscript_found e "message" _ Hm), bind_lift_ret. reflexivity.
Qed.

(** C3, amended. The gauge of every address only ever increases, over a run
    of [activate_validator] and over any number of cycles of the main loop.
    A run of [activate_validator] increments the gauge of its address exactly
    once if it gets past the [sendRawTransaction] step, and not otherwise:
    the run returns [True] exactly when everything before the send returned
    a transaction [tx] and [send_raw_tx tx] returned, and its final state is
    then the state in which [send_raw_tx] returned with the gauge of the
    address incremented once; a run that raises or is still waiting at or
    before the send leaves the gauge as it was. The send step has then posted
    [sendRawTransaction] with [[tx]] one to three times, and [send_raw_tx]
    returns whatever the outcome of that call: no result after the retries, a
    result carrying an ["error"] member with a ["message"], or a result
    without an ["error"] member.
    [send_raw_tx] itself never writes the gauge, and no other address is
    touched. *)
Theorem activated_amount_counts_submissions :
  forall env fuel address s,
    let r := activate_validator env fuel address s in
    (forall a, ACTIVATED_AMOUNT s a <= ACTIVATED_AMOUNT (snd r) a) /\
    (fst r = Ret true ->
     ACTIVATED_AMOUNT (snd r) address = ACTIVATED_AMOUNT s address + 1) /\
    (fst r <> Ret true ->
     ACTIVATED_AMOUNT (snd r) address = ACTIVATED_AMOUNT s address) /\
    (forall a, a <> address -> ACTIVATED_AMOUNT (snd r) a = ACTIVATED_AMOUNT s a) /\
    (forall tx s0, ACTIVATED_AMOUNT (snd (send_raw_tx env tx s0)) = ACTIVATED_AMOUNT s0) /\
    (forall cycles a,
        ACTIVATED_AMOUNT s a <= ACTIVATED_AMOUNT (snd (main_loop env cycles fuel address s)) a) /\
    (fst r = Ret true <->
     exists tx s1 s2,
       before_send env fuel address s = (Ret tx, s1) /\
       send_raw_tx env tx s1 = (Ret tt, s2) /\
       snd r = with_ACTIVATED_AMOUNT (bump address (ACTIVATED_AMOUNT s2)) s2) /\
    (forall tx s1,
        exists k,
          (1 <= k <= 3)%nat /\
          sent (snd (send_raw_tx env tx s1))
          = repeat ("sendRawTransaction", PList [tx]) k ++ sent s1) /\
    (forall tx s1 res s2,
        rpc env "sendRawTransaction" (PList [tx]) s1 = (Ret res, s2) ->
        send_outcome res ->
        fst (send_raw_tx env tx s1) = Ret tt).
Proof.
  intros env fuel address s r.
  pose proof (activate_validator_counts_once env fuel address s) as H. fold r in H.
  assert (Hself : forall g, bump address g address = g address + 1).
  { intros g. unfold bump. rewrite String.eqb_refl. reflexivity. }
  assert (Hother : forall g a, a <> address -> bump address g a = g a).
  { intros g a Ha. unfold bump. apply String.eqb_neq in Ha. rewrite Ha. reflexivity. }
  split; [| split; [| split; [| split; [| split; [| split; [| split; [| split]]]]]]].
  - intros a. apply (counts_once_grows address), activate_validator_counts_once.
  - intros Ht. destruct H as [[_ E] | [Hn _]]; [rewrite E; apply Hself | contradiction].
  - intros Hn. destruct H as [[Ht _] | [_ E]]; [contradiction | rewrite E; reflexivity].
  - intros a Ha. destruct H as [[_ E] | [_ E]]; rewrite E; [apply Hother; exact Ha | reflexivity].
  - intros tx s0.
    apply (send_raw_tx_preserves ACTIVATED_AMOUNT env tx); intros; reflexivity.
  - intros cycles a. apply main_loop_grows.
  - subst r. rewrite activate_validator_split. split.
    + intros Ht.
      destruct (bind (before_send env fuel address)
                     (fun tx => send_raw_tx env tx ;; activated_inc address ;; ret true) s)
        as [o s'] eqn:Hrun.
      cbn [fst] in Ht. subst o.
      apply bind_inv_ret in Hrun. destruct Hrun as (tx & s1 & Hbefore & Hrun).
      apply bind_inv_ret in Hrun. destruct Hrun as ([] & s2 & Hsend & Hrun).
      exists tx, s1, s2. split; [exact Hbefore | split; [exact Hsend |]].
      injection Hrun as <-. reflexivity.
    + intros (tx & s1 & s2 & Hbefore & Hsend & _).
      rewrite (bind_ret _ _ _ _ _ Hbefore), (bind_ret _ _ _ _ _ Hsend). reflexivity.
  - intros tx s1. apply send_raw_tx_posts.
  - intros tx s1 res s2. apply send_raw_tx_returns.
Qed.

Lemma activated_amount_counts_submissions_witness :
  ACTIVATED_AMOUNT
    (snd (activate_validator (submit_env (rpc_ok (PDict [("data", PStr "f00d")])))
                             1 "NQ07 0000" initial_state)) "NQ07 0000" = 1 /\
  fst (send_raw_tx (submit_env rejected_send) (PStr "0a1b2c") initial_state) = Ret tt.
Proof.
  split.
  - destruct (activated_amount_counts_submissions
                (submit_env (rpc_ok (PDict [("data", PStr "f00d")]))) 1 "NQ07 0000"
                initial_state) as (_ & Hinc & _).
    apply Hinc. reflexivity.
  - destruct (activated_amount_counts_submissions
                (submit_env rejected_send) 1 "NQ07 0000" initial_state)
      as (_ & _ & _ & _ & _ & _ & _ & _ & Hsend).
    apply (Hsend (PStr "0a1b2c") initial_state
                 (PDict [("error", PDict [("message", PStr "transaction rejected")])]) _
                 eq_refl).
    right. exists [("error", PDict [("message", PStr "transaction rejected")])].
    split; [reflexivity |]. right.
    exists [("message", PStr "transaction rejected")], (PStr "transaction rejected").
    split; reflexivity.
Defined.

(** ** Exceptions that leave the loops *)

Lemma check_consensus_loop_step env fuel c s :
  0 <= c < 3 ->
  check_consensus_loop env (S fuel) c s =
  bind (check_consensus_body env c) (check_consensus_loop env fuel) s.
Proof.
  intros Hc. cbn [check_consensus_loop].
  replace (c <? 3) with true by (symmetry; apply Z.ltb_lt; lia). reflexivity.
Qed.

Lemma check_consensus_body_escapes env c s e s1 :
  rpc env "isConsensusEstablished" PNone s = (Raise e, s1) ->
  check_consensus_body env c s = (Raise e, s1).
Proof.
  intros Hrpc. unfold check_consensus_body. rewrite (bind_raise _ _ _ _ _ Hrpc). reflexivity.
Qed.

(** C1 does not hold of the code. An observation whose ["result"] is [null]
    does not set the counter to 0: the [ValueError] that [nimiq_request]
    raises for it is not a [RequestException], so it leaves [nimiq_request],
    the loop of [check_consensus] and the main loop. An observation whose
    result is not an object (a bare [false], say) leaves the same way with
    [AttributeError], raised by [res.get]. With two positive observations
    behind it, the third, a [null] result, ends the gate with [ValueError]
    after three polls. *)
Theorem check_consensus_null_result_escapes :
  forall env c s status d v,
    0 <= c < 3 ->
    node env (List.length (sent s)) "isConsensusEstablished" (PList [])
    = Response status (PDict d) ->
    status_is_error status = false ->
    Py.lookup "result" d = Some v ->
    (v = PNone ->
     forall fuel,
       fst (check_consensus_loop env (S fuel) c s) = Raise ValueError /\
       (forall cycles address,
           fst (main_loop env (S cycles) (S fuel) address s) = Raise ValueError)) /\
    (v <> PNone -> (forall r, v <> PDict r) ->
     forall fuel,
       fst (check_consensus_loop env (S fuel) c s) = Raise AttributeError /\
       (forall cycles address,
           fst (main_loop env (S cycles) (S fuel) address s) = Raise AttributeError)) /\
    (let r := check_consensus null_third_env 5 initial_state in
     fst r = Raise ValueError /\
     sent (snd r) = repeat ("isConsensusEstablished", PList []) 3 /\
     returned (snd r) = [PDict [("data", PBool true)]; PDict [("data", PBool true)]]).
Proof.
  intros env c s status d v Hc Hnode Hstatus Hres.
  assert (Hlog : forall st : State,
             sent st = sent s ->
             node env (List.length (sent st)) "isConsensusEstablished"
                  (Py.or_else PNone (PList [])) = Response status (PDict d))
    by (intros st ->; exact Hnode).
  assert (Hrun : forall e,
             (forall st, sent st = sent s ->
                         exists st', check_consensus_body env c st = (Raise e, st') /\
                                     check_consensus_body env 0 st = (Raise e, st')) ->
             forall fuel,
               fst (check_consensus_loop env (S fuel) c s) = Raise e /\
               (forall cycles address,
                   fst (main_loop env (S cycles) (S fuel) address s) = Raise e)).
  { intros e Hbody fuel. split.
    - destruct (Hbody s eq_refl) as (st' & Hb & _).
      rewrite (check_consensus_loop_step env fuel c s Hc), (bind_raise _ _ _ _ _ Hb).
      reflexivity.
    - intros cycles address. cbn [main_loop]. unfold check_consensus.
      rewrite bind_assoc, bind_log.
      match goal with
      | |- context [bind (check_consensus_loop env (S fuel) 0) _ ?st] =>
          destruct (Hbody st eq_refl) as (st' & _ & Hb);
          assert (Hloop : check_consensus_loop env (S fuel) 0 st = (Raise e, st'))
            by (rewrite (check_consensus_loop_step env fuel 0 st ltac:(lia)),
                        (bind_raise _ _ _ _ _ Hb); reflexivity);
          rewrite (bind_raise _ _ _ _ _ Hloop)
      end.
      reflexivity. }
  split; [| split].
  - intros ->. apply Hrun. intros st Hst.
    pose proof (nimiq_request_loop_replied env "isConsensusEstablished" PNone 5 2 st status d
                  (Hlog st Hst) Hstatus) as Hrpc.
    cbv zeta in Hrpc. rewrite Hres in Hrpc.
    eexists. split; apply check_consensus_body_escapes; exact Hrpc.
  - intros Hv Hobj. apply Hrun. intros st Hst.
    pose proof (nimiq_request_loop_replied env "isConsensusEstablished" PNone 5 2 st status d
                  (Hlog st Hst) Hstatus) as Hrpc.
    cbv zeta in Hrpc. rewrite Hres in Hrpc.
    assert (Hget : consensus_positive v = Raise AttributeError).
    { destruct v; try reflexivity; [contradiction | exfalso; exact (Hobj _ eq_refl)]. }
    eexists. split;
      (apply (check_consensus_body_raise env _ st v _ AttributeError); [| exact Hget];
       destruct v; try exact Hrpc; contradiction).
  - vm_compute. repeat split.
Qed.

Lemma check_consensus_null_result_escapes_witness :
  fst (main_loop null_result_env 1 1 "NQ07 0000" initial_state) = Raise ValueError.
Proof.
  destruct (check_consensus_null_result_escapes
              null_result_env 0 initial_state 200
              [("jsonrpc", PStr "2.0"); ("result", PNone); ("id", PInt 1)] PNone
              ltac:(lia) eq_refl eq_refl eq_refl) as (Hnull & _).
  destruct (Hnull eq_refl 0%nat) as [_ Hmain]. apply Hmain.
Defined.

Lemma rpc_gives_up env method params s :
  (forall i, (List.length (sent s) <= i < List.length (sent s) + 3)%nat ->
             attempt_fails (node env i method (Py.or_else params (PList []))) = true) ->
  rpc env method params s
  = (Ret PNone, after_giving_up (after_failed_attempts 3 method params 5 s)).
Proof.
  intros Hall. unfold rpc, nimiq_request. change (Z.to_nat 3) with 3%nat.
  apply nimiq_request_loop_all_failed; [discriminate | exact Hall].
Qed.

(** One round of monitoring after a check that returned [True]. *)
Lemma monitor_after_active_check env address fuel s s1 :
  is_validator_active env address s = (Ret true, s1) ->
  monitor_active_validator env (S fuel) address s =
  (get_epoch_number env ;;
   get_stake_by_address env address ;;
   set_balance_prometheus env address ;;
   sleep_ms 30000 ;;
   monitor_active_validator env fuel address)
    (with_logs ((INFO, "Validator still active, updating metrics.") :: logs s1) s1).
Proof.
  intros Hactive. cbn [monitor_active_validator].
  rewrite (bind_ret _ _ _ _ _ Hactive). cbn [negb]. cbv iota. rewrite bind_log. reflexivity.
Qed.

(** C9 does not hold of the code: the monitoring loop is also left right
    after a check that returned [True]. An exception in [get_epoch_number],
    [get_stake_by_address] or [set_balance_prometheus] is not caught
    anywhere and ends the loop. When the node fails the three attempts of the
    [getValidatorByAddress] call of [get_stake_by_address], that function logs
    the error and then returns three locals that were never assigned: the loop
    ends with [UnboundLocalError]. So it does on a node that reports an active
    validator and its epoch and then refuses every connection. *)
Theorem monitor_left_after_active_check :
  forall env address fuel s s1,
    is_validator_active env address s = (Ret true, s1) ->
    let s2 := with_logs ((INFO, "Validator still active, updating metrics.") :: logs s1) s1 in
    (forall e s3,
        get_epoch_number env s2 = (Raise e, s3) ->
        monitor_active_validator env (S fuel) address s = (Raise e, s3)) /\
    (forall s3,
        get_epoch_number env s2 = (Ret tt, s3) ->
        (forall e s4,
            get_stake_by_address env address s3 = (Raise e, s4) ->
            monitor_active_validator env (S fuel) address s = (Raise e, s4)) /\
        ((forall i, (List.length (sent s3) <= i < List.length (sent s3) + 3)%nat ->
                    attempt_fails (node env i "getValidatorByAddress" (PList [PStr address]))
                    = true) ->
         fst (monitor_active_validator env (S fuel) address s) = Raise UnboundLocalError /\
         hd_error (logs (snd (monitor_active_validator env (S fuel) address s)))
         = Some (ERROR, "Error getting stake information.")) /\
        (forall v s4 e s5,
            get_stake_by_address env address s3 = (Ret v, s4) ->
            set_balance_prometheus env address s4 = (Raise e, s5) ->
            monitor_active_validator env (S fuel) address s = (Raise e, s5))) /\
    (let r := monitor_active_validator active_then_down_env 3 "NQ07 0000" initial_state in
     fst (is_validator_active active_then_down_env "NQ07 0000" initial_state) = Ret true /\
     fst r = Raise UnboundLocalError /\
     List.length (sent (snd r)) = 5%nat).
Proof.
  intros env address fuel s s1 Hactive s2.
  pose proof (monitor_after_active_check env address fuel s s1 Hactive) as Hround.
  fold s2 in Hround.
  split; [| split].
  - intros e s3 Hepoch. rewrite Hround, (bind_raise _ _ _ _ _ Hepoch). reflexivity.
  - intros s3 Hepoch.
    assert (Hstake : forall e s4,
               get_stake_by_address env address s3 = (Raise e, s4) ->
               monitor_active_validator env (S fuel) address s = (Raise e, s4)).
    { intros e s4 H. rewrite Hround, (bind_ret _ _ _ _ _ Hepoch), (bind_raise _ _ _ _ _ H).
      reflexivity. }
    split; [exact Hstake | split].
    + intros Hall.
      pose proof (get_stake_by_address_no_result env address s3 _
                    (rpc_gives_up env "getValidatorByAddress" (PList [PStr address]) s3 Hall))
        as H.
      rewrite (Hstake _ _ H). split; reflexivity.
    + intros v s4 e s5 Hv Hbal.
      rewrite Hround, (bind_ret _ _ _ _ _ Hepoch), (bind_ret _ _ _ _ _ Hv),
              (bind_raise _ _ _ _ _ Hbal).
      reflexivity.
  - vm_compute. repeat split.
Qed.

Lemma monitor_left_after_active_check_witness :
  fst (monitor_active_validator active_then_down_env 1 "NQ07 0000" initial_state)
  = Raise UnboundLocalError.
Proof.
  destruct (monitor_left_after_active_check
              active_then_down_env "NQ07 0000" 0 initial_state
              (snd (is_validator_active active_then_down_env "NQ07 0000" initial_state))
              ltac:(vm_compute; reflexivity)) as (_ & Hstake & _).
  destruct (Hstake
              (snd (get_epoch_number active_then_down_env
                      (with_logs
                         ((INFO, "Validator still active, updating metrics.")
                            :: logs (snd (is_validator_active active_then_down_env "NQ07 0000"
                                                              initial_state)))
                         (snd (is_validator_active active_then_down_env "NQ07 0000"
                                                   initial_state)))))
              ltac:(vm_compute; reflexivity)) as (_ & Hdown & _).
  apply Hdown. intros i Hi.
  match type of Hi with
  | (?a <= _ < _)%nat =>
      assert (Hlen : a = 2%nat) by (vm_compute; reflexivity); rewrite Hlen in Hi
  end.
  destruct i as [| [| i]]; [lia | lia |]. destruct i; reflexivity.
Defined.

(** C5 does not hold of the code: the wait has another exit. An exception
    in [get_balance] is not caught: it ends the loop without the balance
    having reached the threshold. A reply to [getAccountByAddress] without
    ["data"], or with a ["data"] object without ["balance"], raises
    [KeyError] in [res['data']['balance']]. So does the loop end after a
    balance of 5 followed by an account object without ["balance"]: two
    requests, the gauge at [5 / 1e5], [KeyError]. *)
Theorem wait_for_enough_stake_left_by_exception :
  forall env address fuel s,
    (forall e s1,
        get_balance env address s = (Raise e, s1) ->
        wait_for_enough_stake env (S fuel) address s = (Raise e, s1)) /\
    (forall r s1,
        rpc env "getAccountByAddress" (PList [PStr address]) s = (Ret (PDict r), s1) ->
        Py.lookup "error" r = None ->
        Py.lookup "data" r = None \/
        (exists v, Py.lookup "data" r = Some (PDict v) /\ Py.lookup "balance" v = None) ->
        wait_for_enough_stake env (S fuel) address s = (Raise KeyError, s1)) /\
    (let r := wait_for_enough_stake low_then_missing_env 5 "NQ07 0000" initial_state in
     fst r = Raise KeyError /\
     sent (snd r) = repeat ("getAccountByAddress", PList [PStr "NQ07 0000"]) 2 /\
     Py.truediv (PInt 5) Float64.f1e5 = Ret (CURRENT_BALANCE (snd r)) /\
     Float64.geb (CURRENT_BALANCE (snd r)) Float64.f100000 = false).
Proof.
  intros env address fuel s.
  assert (Hraise : forall e s1,
             get_balance env address s = (Raise e, s1) ->
             wait_for_enough_stake env (S fuel) address s = (Raise e, s1)).
  { intros e s1 H. cbn [wait_for_enough_stake]. unfold wait_for_enough_stake_body.
    rewrite bind_assoc, (bind_raise _ _ _ _ _ H). reflexivity. }
  split; [exact Hraise | split].
  - intros r s1 Hrpc He Hd. apply Hraise.
    apply (get_balance_missing_field env address s s1 r Hrpc He Hd).
  - vm_compute. repeat split.
Qed.

Lemma wait_for_enough_stake_left_by_exception_witness :
  fst (wait_for_enough_stake
         (result_env (PDict [("data", PDict [("address", PStr "NQ07 0000")])]))
         1 "NQ07 0000" initial_state) = Raise KeyError.
Proof.
  destruct (wait_for_enough_stake_left_by_exception
              (result_env (PDict [("data", PDict [("address", PStr "NQ07 0000")])]))
              "NQ07 0000" 0 initial_state) as (_ & Hkey & _).
  rewrite (Hkey [("data", PDict [("address", PStr "NQ07 0000")])] _ eq_refl eq_refl);
    [reflexivity |].
  right. exists [("address", PStr "NQ07 0000")]. split; reflexivity.
Defined.
